(** * Template engine and content blocks: a shallow embedding

    The Python sources [content_blocks.py] and [template_engine.py] are
    embedded function by function.  Python values are a small universe of
    JSON-like data plus [ContentBlock] instances; dict objects live in a
    store and are referred to by location, so that the in-place update of
    [_process_block_field] and the copy made by [_generate_content_blocks]
    are visible.  Exceptions are results of an error monad over that store.

    Strings are Rocq strings of ASCII characters: case conversion and
    white space follow Python on the ASCII range.  Floats, tuples and
    objects of other classes are left out of the universe of values.
    Conversion to text is total: it has neither CPython's limit of 4300
    digits on an int nor its limit on the depth of nesting, and the
    statements about a conversion that returns are about plain values, on
    which CPython returns too.  The warning that [_generate_content_blocks]
    prints when a generator raises is not recorded. *)

From Stdlib Require Import ZArith Ascii String List Bool Lia.
From Stdlib Require DecimalString.
From stdpp Require Import base option list strings gmap.

Set Warnings "-register-all".
Local Open Scope Z_scope.

(** ** Python string methods *)

Module Str.

Definition is_space (c : ascii) : bool :=
  let n := nat_of_ascii c in
  ((9 <=? n)%nat && (n <=? 13)%nat) || ((28 <=? n)%nat && (n <=? 32)%nat).

Definition lower_char (c : ascii) : ascii :=
  let n := nat_of_ascii c in
  if ((65 <=? n)%nat && (n <=? 90)%nat) then ascii_of_nat (n + 32) else c.

Definition upper_char (c : ascii) : ascii :=
  let n := nat_of_ascii c in
  if ((97 <=? n)%nat && (n <=? 122)%nat) then ascii_of_nat (n - 32) else c.

Fixpoint map_chars (f : ascii -> ascii) (s : string) : string :=
  match s with
  | EmptyString => EmptyString
  | String c r => String (f c) (map_chars f r)
  end.

(** [s.lower()], [s.upper()], [s.capitalize()] *)
Definition lower : string -> string := map_chars lower_char.
Definition upper : string -> string := map_chars upper_char.
Definition capitalize (s : string) : string :=
  match s with
  | EmptyString => EmptyString
  | String c r => String (upper_char c) (lower r)
  end.

Fixpoint lstrip (s : string) : string :=
  match s with
  | EmptyString => EmptyString
  | String c r => if is_space c then lstrip r else s
  end.

(** [s.strip()] *)
Definition strip (s : string) : string :=
  String.rev (lstrip (String.rev (lstrip s))).

(** [s.split(sep)] for a separator of one character *)
Fixpoint split (sep : ascii) (s : string) : list string :=
  match s with
  | EmptyString => [EmptyString]
  | String c r =>
      if Ascii.eqb c sep then EmptyString :: split sep r
      else match split sep r with
           | h :: t => String c h :: t
           | [] => [String c EmptyString]
           end
  end.

(** [needle in hay] *)
Fixpoint contains (needle hay : string) : bool :=
  String.prefix needle hay ||
  match hay with
  | EmptyString => false
  | String _ r => contains needle r
  end.

Definition startswith (s pre : string) : bool := String.prefix pre s.
Definition endswith (s suf : string) : bool :=
  String.prefix (String.rev suf) (String.rev s).

(** [sep.join(items)] *)
Definition join (sep : string) (items : list string) : string :=
  String.concat sep items.

(** the one-character strings a string iterates over *)
Definition chars (s : string) : list string :=
  map (fun c => String c EmptyString) (list_ascii_of_string s).

Definition nonempty (s : string) : bool :=
  match s with EmptyString => false | _ => true end.

End Str.

(** [x[:n]] on a sequence, for an integer [n] of either sign *)
Definition slice_to {A} (n : Z) (xs : list A) : list A :=
  if n <? 0 then firstn (Z.to_nat (Z.of_nat (length xs) + n)) xs
  else firstn (Z.to_nat n) xs.

Definition str_slice_to (n : Z) (s : string) : string :=
  string_of_list_ascii (slice_to n (list_ascii_of_string s)).

(** ** Values, dict objects and the store *)

Definition loc := nat.

Inductive value : Type :=
| VNone
| VBool (b : bool)
| VInt (n : Z)
| VStr (s : string)
| VList (xs : list value)
| VDict (l : loc)
| VBlock (block_type : string) (content : value) (metadata : option loc).

(** A dict object: string keys in insertion order, no key twice. *)
Abbreviation dict := (list (string * value)) (only parsing).

(** The store: the dict objects there are, by location. *)
Abbreviation store := (list (list (string * value))) (only parsing).

Fixpoint dict_get {A} (d : list (string * A)) (k : string) : option A :=
  match d with
  | [] => None
  | (k', v) :: r => if String.eqb k' k then Some v else dict_get r k
  end.

(** [k in d] *)
Definition dict_has {A} (d : list (string * A)) (k : string) : bool :=
  match dict_get d k with Some _ => true | None => false end.

(** [d[k] = v]: an existing key keeps its place, a new one goes last. *)
Fixpoint dict_set {A} (d : list (string * A)) (k : string) (v : A)
    : list (string * A) :=
  match d with
  | [] => [(k, v)]
  | (k', v') :: r =>
      if String.eqb k' k then (k, v) :: r else (k', v') :: dict_set r k v
  end.

(** [d.pop(k, None)] as far as [d] is concerned *)
Fixpoint dict_pop {A} (d : list (string * A)) (k : string)
    : list (string * A) :=
  match d with
  | [] => []
  | (k', v') :: r =>
      if String.eqb k' k then r else (k', v') :: dict_pop r k
  end.

Definition dict_keys {A} (d : list (string * A)) : list string := map fst d.

Definition deref (s : store) (l : loc) : dict := default [] (s !! l).

(** ** Exceptions and the monad of store-passing computations *)

(** The three messages [render_template] puts in a [ValueError]. *)
Inductive message : Type :=
| TemplateNotFound (template_name : string)
| MissingDependencies (missing_deps : list string)
| RendererNotFound (output_format : string).

Inductive exn : Type :=
| ValueError (m : message)
| KeyError (k : value)
| TypeError
| IndexError
| AttributeError.

Inductive outcome (A : Type) : Type :=
| Ok (a : A)
| Raise (e : exn).
Arguments Ok {A} a.
Arguments Raise {A} e.

Definition obind {A B} (x : outcome A) (k : A -> outcome B) : outcome B :=
  match x with Ok a => k a | Raise e => Raise e end.

Definition M (A : Type) : Type := store -> outcome A * store.

Definition ret {A} (a : A) : M A := fun s => (Ok a, s).
Definition raise {A} (e : exn) : M A := fun s => (Raise e, s).
Definition bind {A B} (m : M A) (k : A -> M B) : M B :=
  fun s => match m s with
           | (Ok a, s') => k a s'
           | (Raise e, s') => (Raise e, s')
           end.

(** a computation that only reads the store *)
Definition reading {A} (f : store -> outcome A) : M A := fun s => (f s, s).

(** a new dict object; its location is the next free one *)
Definition alloc (d : dict) : M loc := fun s => (Ok (length s), s ++ [d]).

(** in-place update of the dict object at [l] *)
Definition modify (l : loc) (f : dict -> dict) : M unit :=
  fun s => (Ok tt, <[l := f (deref s l)]> s).

(** [try: m except Exception: pass] *)
Definition try_ (m : M unit) : M unit :=
  fun s => match m s with
           | (Ok _, s') => (Ok tt, s')
           | (Raise _, s') => (Ok tt, s')
           end.

Declare Scope py_scope.
Delimit Scope py_scope with py.
Notation "'let*' x := m 'in' k" := (bind m (fun x => k))
  (at level 10, x name, m at level 100, k at level 200) : py_scope.
Notation "m ;; k" := (bind m (fun _ => k))
  (at level 100, k at level 200, right associativity) : py_scope.
Notation "'let?' x := o 'in' k" := (obind o (fun x => k))
  (at level 10, x name, o at level 100, k at level 200) : py_scope.

Fixpoint for_each {A} (xs : list A) (body : A -> M unit) : M unit :=
  match xs with
  | [] => ret tt
  | x :: r => bind (body x) (fun _ => for_each r body)
  end.

Local Open Scope py_scope.

(** ** Python builtins on values *)

(** [bool(v)] *)
Definition truthy (s : store) (v : value) : bool :=
  match v with
  | VNone => false
  | VBool b => b
  | VInt n => negb (n =? 0)
  | VStr x => Str.nonempty x
  | VList xs => match xs with [] => false | _ => true end
  | VDict l => match deref s l with [] => false | _ => true end
  | VBlock _ _ _ => true
  end.

(** [a or b] *)
Definition py_or (s : store) (a b : value) : value :=
  if truthy s a then a else b.

(** [len(v)] *)
Definition py_len (s : store) (v : value) : outcome Z :=
  match v with
  | VStr x => Ok (Z.of_nat (String.length x))
  | VList xs => Ok (Z.of_nat (length xs))
  | VDict l => Ok (Z.of_nat (length (deref s l)))
  | _ => Raise TypeError
  end.

Definition nth_from {A} (i : Z) (xs : list A) : option A :=
  let j := if i <? 0 then Z.of_nat (length xs) + i else i in
  if j <? 0 then None else xs !! Z.to_nat j.

(** [v[i]] for an integer [i] *)
Definition py_index (v : value) (i : Z) : outcome value :=
  match v with
  | VList xs =>
      match nth_from i xs with Some x => Ok x | None => Raise IndexError end
  | VStr x =>
      match nth_from i (Str.chars x) with
      | Some c => Ok (VStr c)
      | None => Raise IndexError
      end
  | VDict _ => Raise (KeyError (VInt i))
  | _ => Raise TypeError
  end.

(** [v[:n]]; a dict cannot be sliced (a [TypeError] up to Python 3.11) *)
Definition py_slice_to (v : value) (n : Z) : outcome value :=
  match v with
  | VList xs => Ok (VList (slice_to n xs))
  | VStr x => Ok (VStr (str_slice_to n x))
  | _ => Raise TypeError
  end.

(** the index a slice bound stands for: integers and booleans *)
Definition as_index (v : value) : outcome Z :=
  match v with
  | VInt n => Ok n
  | VBool b => Ok (if b then 1 else 0)
  | _ => Raise TypeError
  end.

(** the items [for x in v] goes through *)
Definition py_iter (s : store) (v : value) : outcome (list value) :=
  match v with
  | VList xs => Ok xs
  | VStr x => Ok (map VStr (Str.chars x))
  | VDict l => Ok (map VStr (dict_keys (deref s l)))
  | _ => Raise TypeError
  end.

Fixpoint all_str (xs : list value) : outcome (list string) :=
  match xs with
  | [] => Ok []
  | VStr x :: r => let? r' := all_str r in Ok (x :: r')
  | _ :: _ => Raise TypeError
  end.

(** [sep.join(v)] *)
Definition py_join (s : store) (sep : string) (v : value) : outcome string :=
  let? xs := py_iter s v in
  let? strs := all_str xs in
  Ok (Str.join sep strs).

Definition hashable (v : value) : bool :=
  match v with
  | VNone | VBool _ | VInt _ | VStr _ => true
  | _ => false
  end.

Definition num_of (v : value) : option Z :=
  match v with
  | VBool b => Some (if b then 1 else 0)
  | VInt n => Some n
  | _ => None
  end.

(** [a == b] on hashable values: [True == 1] and [False == 0] *)
Definition py_eqb (a b : value) : bool :=
  match a, b with
  | VNone, VNone => true
  | VStr x, VStr y => String.eqb x y
  | _, _ =>
      match num_of a, num_of b with
      | Some x, Some y => x =? y
      | _, _ => false
      end
  end.

Definition py_mem (x : value) (xs : list value) : bool := existsb (py_eqb x) xs.

(** Inserting the items one by one as keys, as [dict.fromkeys] and [set]
    do: an unhashable item raises, an item equal to an earlier key is
    dropped. *)
Fixpoint insert_keys (seen xs : list value) : outcome (list value) :=
  match xs with
  | [] => Ok seen
  | x :: r =>
      if hashable x
      then insert_keys (if py_mem x seen then seen else seen ++ [x]) r
      else Raise TypeError
  end.

(** [list(dict.fromkeys(xs))] *)
Definition fromkeys (xs : list value) : outcome (list value) :=
  insert_keys [] xs.

(** [set(v)].  A set is kept as the list of its members without
    repetition; CPython iterates a set in an order that depends on the
    hashes, the embedding iterates in order of insertion. *)
Definition py_set (s : store) (v : value) : outcome (list value) :=
  let? xs := py_iter s v in insert_keys [] xs.

Definition set_inter (a b : list value) : list value :=
  List.filter (fun x => py_mem x b) a.
Definition set_diff (a b : list value) : list value :=
  List.filter (fun x => negb (py_mem x b)) a.

(** ** [repr] and [str] *)

Definition hex_digit (n : nat) : ascii :=
  nth n (list_ascii_of_string "0123456789abcdef") "0"%char.

Definition squote : ascii := "039"%char.
Definition dquote : ascii := "034"%char.
Definition backslash : ascii := "092"%char.

Definition repr_char (q c : ascii) : string :=
  let n := nat_of_ascii c in
  if Ascii.eqb c backslash then String backslash (String backslash EmptyString)
  else if Ascii.eqb c q then String backslash (String q EmptyString)
  else if (n =? 10)%nat then String backslash "n"
  else if (n =? 13)%nat then String backslash "r"
  else if (n =? 9)%nat then String backslash "t"
  else if ((n <? 32)%nat || (n =? 127)%nat)
       then String backslash
              (String "x" (String (hex_digit (n / 16))
                             (String (hex_digit (n mod 16)) EmptyString)))
  else String c EmptyString.

(** [repr] of a string: single quotes, unless the text has a single quote
    and no double quote. *)
Definition repr_str (x : string) : string :=
  let has c := Str.contains (String c EmptyString) x in
  let q := if has squote && negb (has dquote) then dquote else squote in
  String q (String.concat "" (map (repr_char q) (list_ascii_of_string x)))
    +:+ String q EmptyString.

(** [repr] of an int, which CPython gives up to 4300 digits *)
Definition repr_int (n : Z) : string :=
  DecimalString.NilZero.string_of_int (Z.to_int n).

(** [repr] of a value, given the [repr] of the dicts it refers to;
    [stack] holds the dicts being printed, which print as [{...}]. *)
Fixpoint repr_val (repr_dict : list loc -> loc -> string)
    (stack : list loc) (v : value) : string :=
  match v with
  | VNone => "None"
  | VBool b => if b then "True" else "False"
  | VInt n => repr_int n
  | VStr x => repr_str x
  | VList xs =>
      "[" +:+ Str.join ", " (map (repr_val repr_dict stack) xs) +:+ "]"
  | VDict l => repr_dict stack l
  | VBlock bt c md =>
      "ContentBlock(block_type=" +:+ repr_str bt +:+
      ", content=" +:+ repr_val repr_dict stack c +:+
      ", metadata=" +:+
      match md with None => "None" | Some l => repr_dict stack l end +:+ ")"
  end.

Fixpoint repr_dict (fuel : nat) (s : store) (stack : list loc) (l : loc)
    : string :=
  match fuel with
  | O => "{...}"
  | S fuel' =>
      if existsb (Nat.eqb l) stack then "{...}"
      else
        "{" +:+
        Str.join ", "
          (map (fun kv : string * value =>
                  repr_str (fst kv) +:+ ": " +:+
                  repr_val (repr_dict fuel' s) (l :: stack) (snd kv))
               (deref s l))
        +:+ "}"
  end.

Definition py_repr (s : store) (v : value) : string :=
  repr_val (repr_dict (S (length s)) s) [] v.

(** [str(v)], which is what an f-string does with [{v}] *)
Definition py_str (s : store) (v : value) : string :=
  match v with
  | VStr x => x
  | _ => py_repr s v
  end.

(** [obj.get(k, dflt)]: only a dict has the method *)
Definition py_get (s : store) (obj : value) (k : string) (dflt : value)
    : outcome value :=
  match obj with
  | VDict l => Ok (default dflt (dict_get (deref s l) k))
  | _ => Raise AttributeError
  end.

(** [obj[k]] for a text key *)
Definition py_getitem (s : store) (obj : value) (k : string) : outcome value :=
  match obj with
  | VDict l =>
      match dict_get (deref s l) k with
      | Some v => Ok v
      | None => Raise (KeyError (VStr k))
      end
  | _ => Raise TypeError
  end.

(** [k in obj] for a dict *)
Definition py_contains (s : store) (obj : value) (k : string) : bool :=
  match obj with
  | VDict l => dict_has (deref s l) k
  | _ => false
  end.

Definition join_values (sep : string) (xs : list value) : outcome string :=
  let? strs := all_str xs in Ok (Str.join sep strs).

(** ** content_blocks.py *)

Record ContentBlock : Type := {
  block_type : string;
  content : value;
  metadata : option dict
}.

(** The text [", ".join(xs[:-1]) + f" and {xs[-1]}"]. *)
Definition join_and (s : store) (xs : value) : outcome string :=
  let? init := py_slice_to xs (-1) in
  let? joined := py_join s ", " init in
  let? last := py_index xs (-1) in
  Ok (joined +:+ " and " +:+ py_str s last).

Module BenefitsBlock.
Definition generate (s : store) (product_data : value)
    : outcome ContentBlock :=
  let? benefits := py_get s product_data "benefits" (VList []) in
  let? product_name := py_get s product_data "name" (VStr "this product") in
  let? content :=
    if negb (truthy s benefits)
    then Ok ("Benefits for " +:+ py_str s product_name
             +:+ " are not provided.")
    else
      let? n := py_len s benefits in
      let? benefit_text :=
        if 1 <? n then join_and s benefits
        else let? b0 := py_index benefits 0 in Ok (py_str s b0) in
      Ok (py_str s product_name
          +:+ " delivers powerful benefits including "
          +:+ benefit_text +:+ ".") in
  let? count := py_len s benefits in
  Ok {| block_type := "benefits";
        content := VStr content;
        metadata := Some [("benefit_count", VInt count)] |}.
End BenefitsBlock.

Module UsageBlock.
Definition generate (s : store) (product_data : value)
    : outcome ContentBlock :=
  let? usage := py_get s product_data "usage_instructions" VNone in
  let? product_name := py_get s product_data "name" (VStr "this product") in
  let content :=
    if truthy s usage
    then "How to use " +:+ py_str s product_name +:+ ": " +:+ py_str s usage
    else "Usage instructions for " +:+ py_str s product_name
         +:+ " are not provided." in
  Ok {| block_type := "usage";
        content := VStr content;
        metadata := Some [("has_instructions", VBool (truthy s usage))] |}.
End UsageBlock.

Module IngredientsBlock.
Definition generate (s : store) (product_data detailed : value)
    : outcome ContentBlock :=
  let? ingredients := py_get s product_data "key_ingredients" (VList []) in
  let? concentration := py_get s product_data "concentration" VNone in
  let? product_name := py_get s product_data "name" (VStr "this product") in
  let? content :=
    if negb (truthy s ingredients)
    then Ok ("Key ingredients for " +:+ py_str s product_name
             +:+ " are not provided.")
    else
      let? n := py_len s ingredients in
      let? ingredient_text :=
        if truthy s detailed && (1 <? n)
        then let? t := join_and s ingredients in Ok ("key ingredients " +:+ t)
        else if 1 <? n then py_join s " and " ingredients
        else let? i0 := py_index ingredients 0 in Ok (py_str s i0) in
      let c1 := py_str s product_name +:+ " features " +:+ ingredient_text in
      let c2 :=
        if truthy s concentration
        then c1 +:+ " at " +:+ py_str s concentration +:+ " concentration"
        else c1 in
      Ok (c2 +:+ ".") in
  let? count := py_len s ingredients in
  Ok {| block_type := "ingredients";
        content := VStr content;
        metadata := Some [("ingredient_count", VInt count);
                          ("detailed", detailed)] |}.
End IngredientsBlock.

Module SafetyBlock.
Definition generate (s : store) (product_data : value)
    : outcome ContentBlock :=
  let? side_effects := py_get s product_data "side_effects" VNone in
  let? product_name := py_get s product_data "name" (VStr "this product") in
  let content :=
    if truthy s side_effects
    then "Safety information: " +:+ py_str s side_effects
    else "Side effects information for " +:+ py_str s product_name
         +:+ " is not provided." in
  Ok {| block_type := "safety";
        content := VStr content;
        metadata := Some [("has_warnings", VBool (truthy s side_effects))] |}.
End SafetyBlock.

Module SkinTypeBlock.
Definition generate (s : store) (product_data : value)
    : outcome ContentBlock :=
  let? skin_types := py_get s product_data "skin_types" (VList []) in
  let? product_name := py_get s product_data "name" (VStr "this product") in
  let? content :=
    if negb (truthy s skin_types)
    then Ok ("Suitable skin types for " +:+ py_str s product_name
             +:+ " are not specified.")
    else
      let? n := py_len s skin_types in
      if 1 <? n
      then let? skin_text := join_and s skin_types in
           Ok (py_str s product_name +:+ " is specially formulated for "
               +:+ skin_text +:+ " skin types.")
      else let? t0 := py_index skin_types 0 in
           Ok (py_str s product_name +:+ " is ideal for "
               +:+ py_str s t0 +:+ " skin.") in
  let? count := py_len s skin_types in
  Ok {| block_type := "skin_type";
        content := VStr content;
        metadata := Some [("skin_type_count", VInt count)] |}.
End SkinTypeBlock.

Module PriceBlock.
Definition generate (s : store) (product_data : value)
    : outcome ContentBlock :=
  let? price := py_get s product_data "price" VNone in
  let? product_name := py_get s product_data "name" (VStr "this product") in
  let content :=
    if truthy s price
    then py_str s product_name +:+ " is priced at " +:+ py_str s price +:+ "."
    else "Price for " +:+ py_str s product_name +:+ " is not provided." in
  Ok {| block_type := "price";
        content := VStr content;
        metadata := Some [("has_price", VBool (truthy s price))] |}.
End PriceBlock.

Definition nonempty {A} (xs : list A) : bool :=
  match xs with [] => false | _ => true end.

Module ComparisonBlock.

(** One sentence of a comparison: nothing for an empty set, else the
    members joined, introduced by the words [lead] builds. *)
Definition part (members : list value) (lead : outcome string)
    : outcome (list string) :=
  if nonempty members
  then let? text := join_values ", " members in
       let? l := lead in
       Ok [l +:+ text]
  else Ok [].

Definition named (s : store) (product : value) (words : string)
    : outcome string :=
  let? n := py_getitem s product "name" in Ok (py_str s n +:+ words).

Definition finish (content_parts : list string) (otherwise : string)
    : string :=
  if nonempty content_parts
  then Str.join ". " content_parts +:+ "."
  else otherwise.

Definition compare_ingredients (s : store) (product_a product_b : value)
    : outcome ContentBlock :=
  let? la := py_get s product_a "key_ingredients" (VList []) in
  let? ingredients_a := py_set s la in
  let? lb := py_get s product_b "key_ingredients" (VList []) in
  let? ingredients_b := py_set s lb in
  let common := set_inter ingredients_a ingredients_b in
  let unique_a := set_diff ingredients_a ingredients_b in
  let unique_b := set_diff ingredients_b ingredients_a in
  let? p1 := part common (Ok "Both products contain ") in
  let? p2 := part unique_a (named s product_a " uniquely features ") in
  let? p3 := part unique_b (named s product_b " uniquely features ") in
  let content :=
    finish (p1 ++ p2 ++ p3)
      "Both products have distinct ingredient formulations." in
  Ok {| block_type := "ingredient_comparison";
        content := VStr content;
        metadata :=
          Some [("common_ingredients", VInt (Z.of_nat (length common)));
                ("unique_a", VInt (Z.of_nat (length unique_a)));
                ("unique_b", VInt (Z.of_nat (length unique_b)))] |}.

Definition compare_benefits (s : store) (product_a product_b : value)
    : outcome ContentBlock :=
  let? la := py_get s product_a "benefits" (VList []) in
  let? benefits_a := py_set s la in
  let? lb := py_get s product_b "benefits" (VList []) in
  let? benefits_b := py_set s lb in
  let common := set_inter benefits_a benefits_b in
  let unique_a := set_diff benefits_a benefits_b in
  let unique_b := set_diff benefits_b benefits_a in
  let? p1 := part common (Ok "Both products offer ") in
  let? p2 := part unique_a (named s product_a " specifically provides ") in
  let? p3 := part unique_b (named s product_b " focuses on ") in
  let content :=
    finish (p1 ++ p2 ++ p3) "Each product offers unique benefits." in
  Ok {| block_type := "benefit_comparison";
        content := VStr content;
        metadata :=
          Some [("common_benefits", VInt (Z.of_nat (length common)));
                ("unique_a", VInt (Z.of_nat (length unique_a)));
                ("unique_b", VInt (Z.of_nat (length unique_b)))] |}.

Definition compare_prices (s : store) (product_a product_b : value)
    : outcome ContentBlock :=
  let? price_a := py_get s product_a "price" (VStr "unspecified") in
  let? price_b := py_get s product_b "price" (VStr "unspecified") in
  let? name_a := py_getitem s product_a "name" in
  let? name_b := py_getitem s product_b "name" in
  let content :=
    "Price comparison: " +:+ py_str s name_a +:+ " (" +:+ py_str s price_a
    +:+ ") vs " +:+ py_str s name_b +:+ " (" +:+ py_str s price_b +:+ ")." in
  let? pa := py_get s product_a "price" VNone in
  let? both :=
    if truthy s pa
    then let? pb := py_get s product_b "price" VNone in Ok (truthy s pb)
    else Ok false in
  Ok {| block_type := "price_comparison";
        content := VStr content;
        metadata := Some [("both_priced", VBool both)] |}.

End ComparisonBlock.

Module QuestionAnswerBlock.

Definition any_in (keywords : list string) (question_lower : string) : bool :=
  existsb (fun keyword => Str.contains keyword question_lower) keywords.

Definition _classify_question (question : string) : string :=
  let question_lower := Str.lower question in
  if any_in ["what is"; "what are"] question_lower then "informational"
  else if any_in ["how to"; "apply"; "use"] question_lower then "usage"
  else if any_in ["safe"; "side effect"; "precaution"] question_lower
       then "safety"
  else if any_in ["skin type"; "suitable"] question_lower then "skin_type"
  else if Str.contains "price" question_lower then "purchase"
  else "general".

(** [text if v else otherwise], the answer being [v] itself *)
Definition or_else (s : store) (v : value) (otherwise : string) : value :=
  if truthy s v then v else VStr otherwise.

Definition generate_answer (s : store) (question product_data : value)
    : outcome ContentBlock :=
  let? q := match question with
            | VStr q => Ok q
            | _ => Raise AttributeError
            end in
  let question_lower := Str.lower q in
  let? product_name := py_get s product_data "name" (VStr "this product") in
  let pn := py_str s product_name in
  let? answer :=
    if Str.contains "price" question_lower then
      let? price := py_get s product_data "price" VNone in
      Ok (VStr (if truthy s price
                then pn +:+ " costs " +:+ py_str s price +:+ "."
                else "Price for " +:+ pn +:+ " is not provided."))
    else if Str.contains "what is" question_lower
            || Str.contains "what are" question_lower then
      if Str.contains "ingredient" question_lower then
        let? l := py_get s product_data "key_ingredients" (VList []) in
        let? ingredients := py_join s ", " l in
        Ok (VStr (if Str.nonempty ingredients
                  then pn +:+ " contains " +:+ ingredients +:+ "."
                  else "Key ingredients for " +:+ pn +:+ " are not provided."))
      else if Str.contains "benefit" question_lower then
        let? l := py_get s product_data "benefits" (VList []) in
        let? benefits := py_join s ", " l in
        Ok (VStr (if Str.nonempty benefits
                  then pn +:+ " provides " +:+ benefits +:+ "."
                  else "Benefits for " +:+ pn +:+ " are not provided."))
      else
        let? category := py_get s product_data "category" VNone in
        Ok (VStr (if truthy s category
                  then pn +:+ " is a " +:+ py_str s category +:+ " product."
                  else pn +:+ " is a product."))
    else if Str.contains "how to use" question_lower
            || Str.contains "apply" question_lower then
      let? usage := py_get s product_data "usage_instructions" VNone in
      Ok (or_else s usage
            ("Usage instructions for " +:+ pn +:+ " are not provided."))
    else if Str.contains "side effect" question_lower
            || Str.contains "safe" question_lower then
      let? side_effects := py_get s product_data "side_effects" VNone in
      Ok (or_else s side_effects
            ("Side effects information for " +:+ pn +:+ " is not provided."))
    else if Str.contains "skin type" question_lower
            || Str.contains "suitable" question_lower then
      let? skin_types := py_get s product_data "skin_types" (VList []) in
      if truthy s skin_types
      then let? skin_text := py_join s ", " skin_types in
           Ok (VStr (pn +:+ " is suitable for " +:+ skin_text
                     +:+ " skin types."))
      else Ok (VStr ("Suitable skin types for " +:+ pn
                     +:+ " are not specified."))
    else
      Ok (VStr ("The available product data does not specify this detail for "
                +:+ pn +:+ ".")) in
  Ok {| block_type := "qa_answer";
        content := answer;
        metadata := Some [("question_type", VStr (_classify_question q))] |}.

End QuestionAnswerBlock.

(** The callables the engine can register under a block name. *)
Inductive generator : Type :=
| BenefitsBlock_generate
| UsageBlock_generate
| IngredientsBlock_generate
| SafetyBlock_generate
| SkinTypeBlock_generate
| PriceBlock_generate
| ComparisonBlock_compare_ingredients
| ComparisonBlock_compare_benefits
| ComparisonBlock_compare_prices
| QuestionAnswerBlock_generate_answer.

(** A call with positional arguments; the wrong number of them is a
    [TypeError].  [IngredientsBlock.generate] has an optional second
    parameter [detailed=False]. *)
Definition call (g : generator) (args : list value) (s : store)
    : outcome ContentBlock :=
  match g, args with
  | BenefitsBlock_generate, [pd] => BenefitsBlock.generate s pd
  | UsageBlock_generate, [pd] => UsageBlock.generate s pd
  | IngredientsBlock_generate, [pd] =>
      IngredientsBlock.generate s pd (VBool false)
  | IngredientsBlock_generate, [pd; detailed] =>
      IngredientsBlock.generate s pd detailed
  | SafetyBlock_generate, [pd] => SafetyBlock.generate s pd
  | SkinTypeBlock_generate, [pd] => SkinTypeBlock.generate s pd
  | PriceBlock_generate, [pd] => PriceBlock.generate s pd
  | ComparisonBlock_compare_ingredients, [a; b] =>
      ComparisonBlock.compare_ingredients s a b
  | ComparisonBlock_compare_benefits, [a; b] =>
      ComparisonBlock.compare_benefits s a b
  | ComparisonBlock_compare_prices, [a; b] =>
      ComparisonBlock.compare_prices s a b
  | QuestionAnswerBlock_generate_answer, [q; pd] =>
      QuestionAnswerBlock.generate_answer s q pd
  | _, _ => Raise TypeError
  end.

(** The classes of [CONTENT_BLOCKS], in the order of the registry. *)
Inductive block_class : Type :=
| BenefitsBlock | UsageBlock | IngredientsBlock | SafetyBlock
| SkinTypeBlock | PriceBlock | ComparisonBlock | QuestionAnswerBlock.

Definition CONTENT_BLOCKS : list (string * block_class) :=
  [("benefits", BenefitsBlock); ("usage", UsageBlock);
   ("ingredients", IngredientsBlock); ("safety", SafetyBlock);
   ("skin_type", SkinTypeBlock); ("price", PriceBlock);
   ("comparison", ComparisonBlock); ("qa", QuestionAnswerBlock)].

(** [ContentBlock(...)] as a value: the metadata dict becomes an object. *)
Definition new_block (b : ContentBlock) : M value :=
  match metadata b with
  | Some d => let* l := alloc d in ret (VBlock (block_type b) (content b) (Some l))
  | None => ret (VBlock (block_type b) (content b) None)
  end.

(** ** template_engine.py *)

Record TemplateField : Type := {
  name : string;
  field_type : string;
  required : bool;
  default_value : value;
  validation_rules : option (list string);
  formatting : option dict
}.

Record TemplateDefinition : Type := {
  tpl_name : string;
  description : string;
  fields : list TemplateField;
  dependencies : option (list string);
  output_format : string;
  tpl_metadata : option dict
}.

(** What [render] returns: a dict with exactly these three keys. *)
Record Document : Type := {
  doc_template_name : string;
  doc_metadata : dict;
  doc_content : dict
}.

(** [if formatting:] *)
Definition given (formatting : option dict) : bool :=
  match formatting with Some d => nonempty d | None => false end.

(** [formatting.get(k)] *)
Definition option_of (formatting : option dict) (k : string) : value :=
  match formatting with
  | Some d => default VNone (dict_get d k)
  | None => VNone
  end.

Fixpoint fold_m {A B} (f : B -> A -> M B) (xs : list A) (acc : B) : M B :=
  match xs with
  | [] => ret acc
  | x :: r => let* acc' := f acc x in fold_m f r acc'
  end.

Module JSONTemplateRenderer.

Definition _process_text_field (s : store) (v : value)
    (formatting : option dict) : outcome value :=
  let value0 := py_str s v in
  if given formatting then
    let on k := truthy s (option_of formatting k) in
    let value1 := if on "capitalize" then Str.capitalize value0 else value0 in
    let value2 := if on "uppercase" then Str.upper value1 else value1 in
    let value3 := if on "lowercase" then Str.lower value2 else value2 in
    if on "max_length"
    then let? n := as_index (option_of formatting "max_length") in
         Ok (VStr (str_slice_to n value3))
    else Ok (VStr value3)
  else Ok (VStr value0).

Definition _process_list_field (s : store) (v : value)
    (formatting : option dict) : outcome value :=
  let value0 :=
    match v with
    | VList xs => xs
    | VStr x =>
        map VStr
          (List.filter Str.nonempty (map Str.strip (Str.split "," x)))
    | _ => [v]
    end in
  if given formatting then
    let on k := truthy s (option_of formatting k) in
    let? value1 :=
      if on "max_items"
      then let? n := as_index (option_of formatting "max_items") in
           Ok (slice_to n value0)
      else Ok value0 in
    let? value2 := if on "unique" then fromkeys value1 else Ok value1 in
    Ok (VList value2)
  else Ok (VList value0).

Definition _process_block_field (v : value) (formatting : option dict)
    : M value :=
  let* result :=
    match v with
    | VBlock bt c md =>
        let* m := (fun s =>
                     match md with
                     | Some l =>
                         if nonempty (deref s l) then ret l s else alloc [] s
                     | None => alloc [] s
                     end) in
        alloc [("type", VStr bt); ("content", c); ("metadata", VDict m)]
    | VDict l => ret l
    | _ =>
        let* text := reading (fun s => Ok (py_str s v)) in
        alloc [("content", VStr text); ("type", VStr "text")]
    end in
  if given formatting then
    (match option_of formatting "include_metadata" with
     | VBool false => modify result (fun d => dict_pop d "metadata")
     | _ => ret tt
     end) ;;
    let* content_only :=
      reading (fun s => Ok (truthy s (option_of formatting "content_only"))) in
    if content_only
    then reading (fun s => py_getitem s (VDict result) "content")
    else ret (VDict result)
  else ret (VDict result).

Definition _process_structured_field (v : value) (formatting : option dict)
    : M value :=
  match v with
  | VDict l => ret (VDict l)
  | _ => let* l := alloc [("value", v)] in ret (VDict l)
  end.

Definition _process_field (field : TemplateField) (data : loc) : M value :=
  let* raw_value :=
    reading (fun s =>
      Ok (default (default_value field) (dict_get (deref s data) (name field)))) in
  match raw_value with
  | VNone => ret VNone
  | _ =>
      if String.eqb (field_type field) "text" then
        reading (fun s => _process_text_field s raw_value (formatting field))
      else if String.eqb (field_type field) "list" then
        reading (fun s => _process_list_field s raw_value (formatting field))
      else if String.eqb (field_type field) "block" then
        _process_block_field raw_value (formatting field)
      else if String.eqb (field_type field) "structured" then
        _process_structured_field raw_value (formatting field)
      else ret raw_value
  end.

Definition is_none (v : value) : bool :=
  match v with VNone => true | _ => false end.

(** the body of the loop over [template.fields] *)
Definition render_field (data : loc) (content : dict) (field : TemplateField)
    : M dict :=
  let* field_value := _process_field field data in
  if negb (is_none field_value) || negb (required field)
  then ret (dict_set content (name field) field_value)
  else ret content.

Definition render (template : TemplateDefinition) (data : loc) : M Document :=
  let* content := fold_m (render_field data) (fields template) [] in
  ret {| doc_template_name := tpl_name template;
         doc_metadata := match tpl_metadata template with
                         | Some d => if nonempty d then d else []
                         | None => []
                         end;
         doc_content := content |}.

End JSONTemplateRenderer.

Inductive TemplateRenderer : Type :=
| JSONTemplateRenderer.

Definition renderer_render (r : TemplateRenderer)
    : TemplateDefinition -> loc -> M Document :=
  match r with
  | JSONTemplateRenderer => JSONTemplateRenderer.render
  end.

Record TemplateEngine : Type := {
  templates : list (string * TemplateDefinition);
  renderers : list (string * TemplateRenderer);
  block_generators : list (string * generator)
}.

(** [getattr(block_class, method)] for the methods the engine asks for *)
Definition method (c : block_class) (m : string) : option generator :=
  match c with
  | BenefitsBlock =>
      if String.eqb m "generate" then Some BenefitsBlock_generate else None
  | UsageBlock =>
      if String.eqb m "generate" then Some UsageBlock_generate else None
  | IngredientsBlock =>
      if String.eqb m "generate" then Some IngredientsBlock_generate else None
  | SafetyBlock =>
      if String.eqb m "generate" then Some SafetyBlock_generate else None
  | SkinTypeBlock =>
      if String.eqb m "generate" then Some SkinTypeBlock_generate else None
  | PriceBlock =>
      if String.eqb m "generate" then Some PriceBlock_generate else None
  | ComparisonBlock =>
      if String.eqb m "compare_ingredients"
      then Some ComparisonBlock_compare_ingredients
      else if String.eqb m "compare_benefits"
      then Some ComparisonBlock_compare_benefits
      else if String.eqb m "compare_prices"
      then Some ComparisonBlock_compare_prices
      else None
  | QuestionAnswerBlock =>
      if String.eqb m "generate_answer"
      then Some QuestionAnswerBlock_generate_answer else None
  end.

Module TemplateEngine.

Definition register_template (e : TemplateEngine)
    (template : TemplateDefinition) : TemplateEngine :=
  {| templates := dict_set (templates e) (tpl_name template) template;
     renderers := renderers e;
     block_generators := block_generators e |}.

Definition register_renderer (e : TemplateEngine) (format_name : string)
    (renderer : TemplateRenderer) : TemplateEngine :=
  {| templates := templates e;
     renderers := dict_set (renderers e) format_name renderer;
     block_generators := block_generators e |}.

Definition register_block_generator (e : TemplateEngine)
    (block_type : string) (g : generator) : TemplateEngine :=
  {| templates := templates e;
     renderers := renderers e;
     block_generators := dict_set (block_generators e) block_type g |}.

Definition set_all (gens : list (string * generator))
    (entries : list (string * option generator))
    : list (string * generator) :=
  fold_left (fun acc e => match snd e with
                          | Some g => dict_set acc (fst e) g
                          | None => acc
                          end) entries gens.

Definition _register_default_blocks (gens : list (string * generator))
    : list (string * generator) :=
  fold_left
    (fun acc entry =>
       let block_name := fst entry in
       let block_class := snd entry in
       match method block_class "generate" with
       | Some g => dict_set acc block_name g
       | None =>
           match method block_class "compare_ingredients" with
           | Some _ =>
               set_all acc
                 [(block_name +:+ "_ingredients",
                   method block_class "compare_ingredients");
                  (block_name +:+ "_benefits",
                   method block_class "compare_benefits");
                  (block_name +:+ "_prices",
                   method block_class "compare_prices")]
           | None =>
               match method block_class "generate_answer" with
               | Some g => dict_set acc (block_name +:+ "_answer") g
               | None => acc
               end
           end
       end)
    CONTENT_BLOCKS gens.

(** [TemplateEngine()] *)
Definition init : TemplateEngine :=
  {| templates := [];
     renderers := [("json", JSONTemplateRenderer)];
     block_generators := _register_default_blocks [] |}.

Definition list_templates (e : TemplateEngine) : list string :=
  dict_keys (templates e).

Definition get_template (e : TemplateEngine) (template_name : string)
    : option TemplateDefinition :=
  dict_get (templates e) template_name.

Definition _check_dependencies (e : TemplateEngine)
    (deps : list string) (data : loc) : M unit :=
  let* missing_deps :=
    reading (fun s =>
      Ok (List.filter
            (fun dep => negb (dict_has (deref s data) dep)
                        && negb (dict_has (block_generators e) dep))
            deps)) in
  if nonempty missing_deps
  then raise (ValueError (MissingDependencies missing_deps))
  else ret tt.

Definition is_dict (v : value) : bool :=
  match v with VDict _ => true | _ => false end.

(** [data.get(k)] on the caller's mapping *)
Definition data_get (data : loc) (k : string) : M value :=
  reading (fun s => Ok (default VNone (dict_get (deref s data) k))).

(** [block = generator(args); enriched_data[dep] = block] *)
Definition generate_into (enriched_data : loc) (dep : string)
    (g : generator) (args : list value) : M unit :=
  let* b := reading (call g args) in
  let* block := new_block b in
  modify enriched_data (fun d => dict_set d dep block).

(** the body of the [try] for one dependency *)
Definition generate_dependency (data enriched_data : loc) (dep : string)
    (g : generator) : M unit :=
  if Str.startswith dep "comparison" then
    let* a_full := data_get data "product_a_full" in
    let* a := data_get data "product_a" in
    let* product_a := reading (fun s => Ok (py_or s a_full a)) in
    let* b_full := data_get data "product_b_full" in
    let* b := data_get data "product_b" in
    let* product_b := reading (fun s => Ok (py_or s b_full b)) in
    if is_dict product_a && is_dict product_b then
      if Str.contains "ingredients" dep
         || Str.contains "benefits" dep
         || Str.contains "prices" dep
      then generate_into enriched_data dep g [product_a; product_b]
      else ret tt
    else ret tt
  else if Str.endswith dep "_answer" then
    let* has_q := reading (fun s => Ok (dict_has (deref s data) "question")) in
    let* has_p :=
      reading (fun s => Ok (dict_has (deref s data) "product_data")) in
    if has_q && has_p then
      let* q := reading (fun s => py_getitem s (VDict data) "question") in
      let* pd := reading (fun s => py_getitem s (VDict data) "product_data") in
      generate_into enriched_data dep g [q; pd]
    else ret tt
  else
    let* has_p :=
      reading (fun s => Ok (dict_has (deref s data) "product_data")) in
    if has_p then
      let* pd := reading (fun s => py_getitem s (VDict data) "product_data") in
      generate_into enriched_data dep g [pd]
    else ret tt.

Definition _generate_content_blocks (e : TemplateEngine)
    (template : TemplateDefinition) (data : loc) : M loc :=
  let* copy := reading (fun s => Ok (deref s data)) in
  let* enriched_data := alloc copy in
  match dependencies template with
  | None | Some [] => ret enriched_data
  | Some deps =>
      for_each deps (fun dep =>
        let* present :=
          reading (fun s => Ok (dict_has (deref s enriched_data) dep)) in
        match dict_get (block_generators e) dep with
        | Some g =>
            if negb present
            then try_ (generate_dependency data enriched_data dep g)
            else ret tt
        | None => ret tt
        end) ;;
      ret enriched_data
  end.

Definition render_template (e : TemplateEngine) (template_name : string)
    (data : loc) (output_format : string) : M Document :=
  match dict_get (templates e) template_name with
  | None => raise (ValueError (TemplateNotFound template_name))
  | Some template =>
      (match dependencies template with
       | None | Some [] => ret tt
       | Some deps => _check_dependencies e deps data
       end) ;;
      let* enriched_data := _generate_content_blocks e template data in
      match dict_get (renderers e) output_format with
      | None => raise (ValueError (RendererNotFound output_format))
      | Some renderer => renderer_render renderer template enriched_data
      end
  end.

End TemplateEngine.

(** ** Notions the statements use *)

(** A dependency is unsatisfied when it is neither a key of the context
    nor the name of a registered generator. *)
Definition unsatisfied (e : TemplateEngine) (s : store) (data : loc)
    (dep : string) : bool :=
  negb (dict_has (deref s data) dep) && negb (dict_has (block_generators e) dep).

(** The rules of the question-answering generator, in the order of the
    specification, each with its keywords. *)
Inductive rule : Type :=
| PriceRule | InformationalRule | UsageRule | SafetyRule | SkinTypeRule
| FallbackRule.

Definition rule_list : list (rule * list string) :=
  [(PriceRule, ["price"]);
   (InformationalRule, ["what is"; "what are"]);
   (UsageRule, ["how to use"; "apply"]);
   (SafetyRule, ["side effect"; "safe"]);
   (SkinTypeRule, ["skin type"; "suitable"])].

(** The rules of [_classify_question], in the order in which the code
    tries them, each with its keywords: the price comes last. *)
Definition classification_list : list (rule * list string) :=
  [(InformationalRule, ["what is"; "what are"]);
   (UsageRule, ["how to"; "apply"; "use"]);
   (SafetyRule, ["safe"; "side effect"; "precaution"]);
   (SkinTypeRule, ["skin type"; "suitable"]);
   (PriceRule, ["price"])].

(** a rule matches when one of its keywords occurs in the question *)
Definition matches (keywords : list string) (question_lower : string) : bool :=
  existsb (fun keyword => Str.contains keyword question_lower) keywords.

(** the first rule that matches *)
Fixpoint first_match (rules : list (rule * list string))
    (question_lower : string) : rule :=
  match rules with
  | [] => FallbackRule
  | (r, keywords) :: rest =>
      if matches keywords question_lower then r
      else first_match rest question_lower
  end.

(** the [question_type] a rule stands for *)
Definition rule_label (r : rule) : string :=
  match r with
  | PriceRule => "purchase"
  | InformationalRule => "informational"
  | UsageRule => "usage"
  | SafetyRule => "safety"
  | SkinTypeRule => "skin_type"
  | FallbackRule => "general"
  end.

(** what each rule answers *)
Definition rule_answer (r : rule) (s : store) (question_lower : string)
    (product_data : value) : outcome value :=
  let? product_name := py_get s product_data "name" (VStr "this product") in
  let pn := py_str s product_name in
  match r with
  | PriceRule =>
      let? price := py_get s product_data "price" VNone in
      Ok (VStr (if truthy s price
                then pn +:+ " costs " +:+ py_str s price +:+ "."
                else "Price for " +:+ pn +:+ " is not provided."))
  | InformationalRule =>
      if Str.contains "ingredient" question_lower then
        let? l := py_get s product_data "key_ingredients" (VList []) in
        let? ingredients := py_join s ", " l in
        Ok (VStr (if Str.nonempty ingredients
                  then pn +:+ " contains " +:+ ingredients +:+ "."
                  else "Key ingredients for " +:+ pn +:+ " are not provided."))
      else if Str.contains "benefit" question_lower then
        let? l := py_get s product_data "benefits" (VList []) in
        let? benefits := py_join s ", " l in
        Ok (VStr (if Str.nonempty benefits
                  then pn +:+ " provides " +:+ benefits +:+ "."
                  else "Benefits for " +:+ pn +:+ " are not provided."))
      else
        let? category := py_get s product_data "category" VNone in
        Ok (VStr (if truthy s category
                  then pn +:+ " is a " +:+ py_str s category +:+ " product."
                  else pn +:+ " is a product."))
  | UsageRule =>
      let? usage := py_get s product_data "usage_instructions" VNone in
      Ok (QuestionAnswerBlock.or_else s usage
            ("Usage instructions for " +:+ pn +:+ " are not provided."))
  | SafetyRule =>
      let? side_effects := py_get s product_data "side_effects" VNone in
      Ok (QuestionAnswerBlock.or_else s side_effects
            ("Side effects information for " +:+ pn +:+ " is not provided."))
  | SkinTypeRule =>
      let? skin_types := py_get s product_data "skin_types" (VList []) in
      if truthy s skin_types
      then let? skin_text := py_join s ", " skin_types in
           Ok (VStr (pn +:+ " is suitable for " +:+ skin_text +:+ " skin types."))
      else Ok (VStr ("Suitable skin types for " +:+ pn +:+ " are not specified."))
  | FallbackRule =>
      Ok (VStr ("The available product data does not specify this detail for "
                +:+ pn +:+ "."))
  end.

(** the value of a fact of a block *)
Definition fact (b : ContentBlock) (k : string) : option value :=
  match metadata b with Some d => dict_get d k | None => None end.

(** Removing duplicates, the first occurrence of each item staying where
    it is. *)
Fixpoint first_seen (xs : list value) : list value :=
  match xs with
  | [] => []
  | x :: r => x :: List.filter (fun y => negb (py_eqb x y)) (first_seen r)
  end.

(** the items the code makes of a raw value, before it truncates and
    removes duplicates *)
Definition list_items (v : value) : list value :=
  match v with
  | VList xs => xs
  | VStr x =>
      map VStr (List.filter Str.nonempty (map Str.strip (Str.split "," x)))
  | _ => [v]
  end.









(** the text says that the information is not there *)
Definition states_unavailable (text : string) : bool :=
  Str.contains "not provided" text || Str.contains "not specified" text.

(** A sequence attribute is missing when the record has no such key or
    an empty list under it; an optional text attribute, when the record
    has no such key or [None] under it. *)
Definition missing_list (s : store) (record : loc) (k : string) : Prop :=
  dict_get (deref s record) k = None \/
  dict_get (deref s record) k = Some (VList []).

Definition missing_text (s : store) (record : loc) (k : string) : Prop :=
  dict_get (deref s record) k = None \/
  dict_get (deref s record) k = Some VNone.

(** the name a generator prints for a record *)
Definition shown_name (s : store) (record : loc) : string :=
  py_str s (default (VStr "this product") (dict_get (deref s record) "name")).

(** A value with the dicts it refers to copied in, down to [fuel] levels
    of reference: what a document looks like at a given moment. *)
Inductive tree : Type :=
| TNone
| TBool (b : bool)
| TInt (n : Z)
| TStr (s : string)
| TList (xs : list tree)
| TDict (d : list (string * tree))
| TBlock (block_type : string) (content : tree)
    (metadata : option (list (string * tree)))
| TDeep.

Fixpoint snapshot_value (snapshot_dict : loc -> option (list (string * tree)))
    (v : value) : tree :=
  match v with
  | VNone => TNone
  | VBool b => TBool b
  | VInt n => TInt n
  | VStr x => TStr x
  | VList xs => TList (map (snapshot_value snapshot_dict) xs)
  | VDict l =>
      match snapshot_dict l with Some d => TDict d | None => TDeep end
  | VBlock bt c md =>
      TBlock bt (snapshot_value snapshot_dict c)
        (match md with Some l => snapshot_dict l | None => None end)
  end.

Fixpoint snapshot_dict (fuel : nat) (s : store) (l : loc)
    : option (list (string * tree)) :=
  match fuel with
  | O => None
  | S fuel' =>
      Some (map (fun kv : string * value =>
                   (fst kv, snapshot_value (snapshot_dict fuel' s) (snd kv)))
                (deref s l))
  end.

(** a document as the caller sees it in store [s] *)
Definition snapshot (fuel : nat) (s : store) (doc : Document)
    : string * list (string * tree) * list (string * tree) :=
  let copy (d : dict) :=
    map (fun kv : string * value =>
           (fst kv, snapshot_value (snapshot_dict fuel s) (snd kv))) d in
  (doc_template_name doc, copy (doc_metadata doc), copy (doc_content doc)).

(** ** Reasoning about store-passing computations *)

(** From a store satisfying [P], [m] returns a result and a store
    satisfying [Q], or raises in a store satisfying [E]. *)
Definition hoare {A} (P : store -> Prop) (m : M A)
    (Q : A -> store -> Prop) (E : store -> Prop) : Prop :=
  forall s, P s ->
    match m s with
    | (Ok a, s') => Q a s'
    | (Raise _, s') => E s'
    end.

(** [m] returns, whatever the store *)
Definition returns {A} (m : M A) : Prop :=
  forall s, exists a s', m s = (Ok a, s').

(** The attribute each single-subject generator is about, and the text
    it gives for a record without it. *)
Definition missing_attribute (s : store) (record : loc) (g : generator) : Prop :=
  match g with
  | BenefitsBlock_generate => missing_list s record "benefits"
  | UsageBlock_generate => missing_text s record "usage_instructions"
  | IngredientsBlock_generate => missing_list s record "key_ingredients"
  | SafetyBlock_generate => missing_text s record "side_effects"
  | SkinTypeBlock_generate => missing_list s record "skin_types"
  | PriceBlock_generate => missing_text s record "price"
  | _ => False
  end.

Definition unavailable_text (g : generator) (product_name : string) : string :=
  match g with
  | BenefitsBlock_generate =>
      "Benefits for " +:+ product_name +:+ " are not provided."
  | UsageBlock_generate =>
      "Usage instructions for " +:+ product_name +:+ " are not provided."
  | IngredientsBlock_generate =>
      "Key ingredients for " +:+ product_name +:+ " are not provided."
  | SafetyBlock_generate =>
      "Side effects information for " +:+ product_name +:+ " is not provided."
  | SkinTypeBlock_generate =>
      "Suitable skin types for " +:+ product_name +:+ " are not specified."
  | PriceBlock_generate =>
      "Price for " +:+ product_name +:+ " is not provided."
  | _ => ""
  end.

(** the call returned a block with this text, which says that the
    information is not there *)
Definition reports_unavailable (r : outcome ContentBlock) (text : string)
    : Prop :=
  exists b, r = Ok b /\ content b = VStr text /\ states_unavailable text = true.

(** The key ingredients of a subject record: a list of texts, empty when
    the record has no such key. *)
Definition ingredients (s : store) (record : loc) : option (list string) :=
  match dict_get (deref s record) "key_ingredients" with
  | None => Some []
  | Some (VList xs) =>
      match all_str xs with Ok l => Some l | Raise _ => None end
  | Some _ => None
  end.

Definition smem (x : string) (l : list string) : bool :=
  existsb (String.eqb x) l.

(** texts without repetition, each at its first occurrence *)
Fixpoint sdedup (l : list string) : list string :=
  match l with
  | [] => []
  | x :: r => x :: List.filter (fun y => negb (String.eqb x y)) (sdedup r)
  end.

(** the sentence of a comparison about the members [l] *)
Definition sentence (l : list string) (lead : string) : list string :=
  if nonempty l then [lead +:+ Str.join ", " l] else [].

(** the context is an object of the store that has no key [k] *)
Definition lacks (data : loc) (k : string) (s : store) : Prop :=
  (data < length s)%nat /\ dict_get (deref s data) k = None.

(** the state of the loop of [render]: the context lacks [k], and the
    content built so far has [v] under [k] *)
Definition rendering (data : loc) (k : string) (v : option value)
    (content : dict) (s : store) : Prop :=
  lacks data k s /\ dict_get content k = v.

(** The state of a render call as far as the caller's mapping is
    concerned: the mapping is still [d0], the enriched copy is a later
    object, and no value of the copy is the caller's mapping itself. *)
Definition framed (data : loc) (d0 : dict) (enriched_data : loc) (s : store)
    : Prop :=
  s !! data = Some d0 /\
  (data < enriched_data)%nat /\
  (enriched_data < length s)%nat /\
  forall kv, In kv (deref s enriched_data) -> snd kv <> VDict data.

(** ** Examples *)

Module Examples.

Definition field (n t : string) (req : bool) (fmt : option dict)
    : TemplateField :=
  {| name := n; field_type := t; required := req; default_value := VNone;
     validation_rules := None; formatting := fmt |}.

Definition template (n : string) (fs : list TemplateField)
    (deps : option (list string)) : TemplateDefinition :=
  {| tpl_name := n; description := ""; fields := fs; dependencies := deps;
     output_format := "json"; tpl_metadata := None |}.

(** a required and an optional field, neither with a default *)
Definition title : TemplateField := field "title" "text" true None.
Definition subtitle : TemplateField := field "subtitle" "text" false None.
Definition page : TemplateDefinition := template "page" [title; subtitle] None.

(** a context with no key at all *)
Definition empty_context : store := [[]].

(** a template that needs a block nobody generates *)
Definition needy : TemplateDefinition :=
  template "needy" [title] (Some ["nonexistent_block"]).
Definition needy_engine : TemplateEngine :=
  TemplateEngine.register_template TemplateEngine.init needy.

(** a block field asked for its content only, given a mapping that has
    no content *)
Definition summary : TemplateField :=
  field "summary" "block" true (Some [("content_only", VBool true)]).
Definition summary_page : TemplateDefinition :=
  template "summary_page" [summary] None.
Definition summary_context : store :=
  [[("summary", VDict 1%nat)]; [("type", VStr "text")]].

(** two subject records *)
Definition product_a : dict :=
  [("name", VStr "A"); ("key_ingredients", VList [VStr "X"; VStr "Y"])].
Definition product_b : dict :=
  [("name", VStr "B"); ("key_ingredients", VList [VStr "Y"; VStr "Z"])].
Definition nameless : dict := [("price", VStr "699")].

(** A comparison page that shows the full record of the first product
    without its metadata.  The context, at location 0, has a full record
    that holds nothing but metadata, at location 1. *)
Definition comparison : TemplateDefinition :=
  template "comparison"
    [field "product_a_full" "block" false
       (Some [("include_metadata", VBool false)]);
     field "comparison_ingredients" "block" true None]
    (Some ["comparison_ingredients"]).
Definition comparison_engine : TemplateEngine :=
  TemplateEngine.register_template TemplateEngine.init comparison.
Definition comparison_context : store :=
  [[("product_a_full", VDict 1%nat); ("product_a", VDict 3%nat);
    ("product_b", VDict 2%nat)];
   [("metadata", VStr "draft")];
   [("name", VStr "B"); ("key_ingredients", VList [VStr "Z"])];
   [("name", VStr "A"); ("key_ingredients", VList [VStr "X"])]].

(** A page that shows a record without its metadata, and a context that
    is one of its own values: the object at location 0 is bound, in
    itself, under the name of the field. *)
Definition self_page : TemplateDefinition :=
  template "self_page"
    [field "me" "block" false (Some [("include_metadata", VBool false)])]
    None.
Definition self_engine : TemplateEngine :=
  TemplateEngine.register_template TemplateEngine.init self_page.
Definition self_context : store :=
  [[("metadata", VStr "draft"); ("me", VDict 0%nat)]].

(** the text of the block a document has under [k] *)
Definition block_text (s : store) (doc : Document) (k : string)
    : option value :=
  match dict_get (doc_content doc) k with
  | Some (VDict l) => dict_get (deref s l) "content"
  | _ => None
  end.

End Examples.

(** ** Notions the further statements use *)

(** The enriched copy of a context [d0]: it has every entry of [d0], and
    no key besides those of [d0] and the declared dependencies. *)
Definition enriched (d0 : dict) (deps : list string) (le : loc) (s : store)
    : Prop :=
  (le < length s)%nat /\
  (forall k v, dict_get d0 k = Some v -> dict_get (deref s le) k = Some v) /\
  (forall k, In k (dict_keys (deref s le)) ->
             In k (dict_keys d0) \/ In k deps).

(** What became of the objects of [s0]: they are all there, none has a
    new entry, and every key but "metadata" is bound as it was. *)
Definition kept (s0 s : store) : Prop :=
  (length s0 <= length s)%nat /\
  forall l, (l < length s0)%nat ->
    incl (deref s l) (deref s0 l) /\
    forall k, k <> "metadata" ->
              dict_get (deref s l) k = dict_get (deref s0 l) k.

(** the same, with the enriched copy an object made after [s0] *)
Definition kept_with (s0 : store) (le : loc) (s : store) : Prop :=
  kept s0 s /\ (length s0 <= le)%nat /\ (le < length s)%nat.

(** ** The templates that come with the engine (templates/*.py) *)

Definition template_field (n t : string) (req : bool) (dflt : value)
    (fmt : option dict) : TemplateField :=
  {| name := n; field_type := t; required := req; default_value := dflt;
     validation_rules := None; formatting := fmt |}.

Definition create_product_template : TemplateDefinition :=
  {| tpl_name := "product_page";
     description := "Comprehensive product description page";
     fields :=
       [template_field "product_name" "text" true VNone
          (Some [("capitalize", VBool true)]);
        template_field "tagline" "text" false (VStr "Skincare product") None;
        template_field "category" "text" false VNone
          (Some [("capitalize", VBool true)]);
        template_field "description" "text" true VNone None;
        template_field "key_features" "list" true VNone
          (Some [("max_items", VInt 6)]);
        template_field "ingredients" "block" true VNone None;
        template_field "benefits" "block" true VNone None;
        template_field "usage" "block" true VNone None;
        template_field "safety" "block" false VNone None;
        template_field "skin_type" "block" true VNone None;
        template_field "price" "block" true VNone None];
     dependencies :=
       Some ["benefits"; "usage"; "ingredients"; "safety"; "skin_type"; "price"];
     output_format := "json";
     tpl_metadata :=
       Some [("page_type", VStr "product");
             ("requires_full_product_data", VBool true);
             ("supports_rich_content", VBool true)] |}.

Definition create_comparison_template : TemplateDefinition :=
  {| tpl_name := "comparison_page";
     description := "Product comparison page between two products";
     fields :=
       [template_field "page_title" "text" true VNone
          (Some [("capitalize", VBool true)]);
        template_field "introduction" "text" true VNone None;
        template_field "product_a" "structured" true VNone None;
        template_field "product_b" "structured" true VNone None;
        template_field "comparison_ingredients" "block" true VNone None;
        template_field "comparison_benefits" "block" true VNone None;
        template_field "comparison_prices" "block" true VNone None;
        template_field "key_differences" "list" true VNone
          (Some [("max_items", VInt 5)]);
        template_field "recommendation" "text" false VNone None;
        template_field "comparison_summary" "structured" true VNone None];
     dependencies :=
       Some ["comparison_ingredients"; "comparison_benefits";
             "comparison_prices"];
     output_format := "json";
     tpl_metadata :=
       Some [("page_type", VStr "comparison");
             ("requires_two_products", VBool true);
             ("supports_side_by_side", VBool true)] |}.

Definition create_faq_template : TemplateDefinition :=
  {| tpl_name := "faq_page";
     description := "FAQ page with categorized question-answer pairs";
     fields :=
       [template_field "page_title" "text" true
          (VStr "Frequently Asked Questions")
          (Some [("capitalize", VBool true)]);
        template_field "product_name" "text" true VNone
          (Some [("capitalize", VBool true)]);
        template_field "introduction" "text" false
          (VStr "Find answers to common questions about our product.") None;
        template_field "faq_items" "list" true VNone
          (Some [("max_items", VInt 20)]);
        template_field "faq_by_category" "structured" false VNone None;
        template_field "categories" "list" false VNone
          (Some [("unique", VBool true)]);
        template_field "total_questions" "number" false VNone None];
     dependencies := Some [];
     output_format := "json";
     tpl_metadata :=
       Some [("page_type", VStr "faq");
             ("min_questions", VInt 20);
             ("supports_categorization", VBool true)] |}.

(** the global [template_engine] once [content_generator_agent] has
    imported the three template modules: the comparison page registers
    first, then the FAQ page, then the product page *)
Definition template_engine : TemplateEngine :=
  TemplateEngine.register_template
    (TemplateEngine.register_template
       (TemplateEngine.register_template TemplateEngine.init
          create_comparison_template)
       create_faq_template)
    create_product_template.

(** ** Formatting options that cannot make a coercion raise *)

(** an option that is not set *)
Definition unset (v : value) : bool :=
  match v with VNone | VBool false => true | _ => false end.

(** an option that is not set, or is an integer *)
Definition is_index (v : value) : bool :=
  match v with VNone | VBool _ | VInt _ => true | _ => false end.

Definition well_formatted (field : TemplateField) : bool :=
  let opt := option_of (formatting field) in
  if String.eqb (field_type field) "text" then is_index (opt "max_length")
  else if String.eqb (field_type field) "list"
  then is_index (opt "max_items") && unset (opt "unique")
  else if String.eqb (field_type field) "block" then unset (opt "content_only")
  else true.

(** the texts a record has under [k]: none when the key is absent *)
Definition texts (s : store) (record : loc) (k : string)
    : option (list string) :=
  match dict_get (deref s record) k with
  | None => Some []
  | Some (VList xs) =>
      match all_str xs with Ok l => Some l | Raise _ => None end
  | Some _ => None
  end.

(** a subject record whose sequence attributes are lists of texts *)
Definition typed_record (s : store) (record : loc) : Prop :=
  forall k, In k ["benefits"; "key_ingredients"; "skin_types"] ->
            exists l, texts s record k = Some l.

Definition single_subject (g : generator) : bool :=
  match g with
  | BenefitsBlock_generate | UsageBlock_generate | IngredientsBlock_generate
  | SafetyBlock_generate | SkinTypeBlock_generate | PriceBlock_generate => true
  | _ => false
  end.

(** [s0] with objects added after it *)
Definition extends (s0 s : store) : Prop := exists added, s = s0 ++ added.

(** the state of a block coercion that has made its result *)
Definition made (s0 : store) (result : loc) (s : store) : Prop :=
  extends s0 s /\ (length s0 <= result)%nat /\ (result < length s)%nat /\
  dict_has (deref s result) "content" = true.

(** what [max_length] makes of a text *)
Definition truncated (s : store) (formatting : option dict) (text : string)
    : outcome value :=
  if truthy s (option_of formatting "max_length")
  then let? n := as_index (option_of formatting "max_length") in
       Ok (VStr (str_slice_to n text))
  else Ok (VStr text).

(** [text.isascii()]: the texts on which the case conversions of the
    embedding are those of Python *)
Definition isascii (text : string) : bool :=
  forallb (fun c => (nat_of_ascii c <? 128)%nat) (list_ascii_of_string text).

(** A page that shows the price block of a product.  The context, at
    location 0, has the record of the product, at location 1. *)
Definition price_field : TemplateField :=
  Examples.field "price" "block" true None.
Definition price_page : TemplateDefinition :=
  Examples.template "price_page" [price_field] (Some ["price"]).
Definition price_engine : TemplateEngine :=
  TemplateEngine.register_template TemplateEngine.init price_page.
Definition price_context : store :=
  [[("product_data", VDict 1%nat)];
   [("name", VStr "Serum"); ("price", VStr "699")]].

(** ** Values that CPython converts to text *)

(** [str] of an int raises [ValueError] when the int has more than 4300
    digits ([sys.int_max_str_digits]), and [str] of a structure nested
    deeper than the recursion limit raises [RecursionError]; [py_str] has
    neither limit.  On a plain value, that is [None], a boolean, a text or
    an int of at most 4300 digits, [str] returns, and [py_str] is what it
    returns. *)
Definition int_max_str_digits : Z := 4300.

Definition plain (v : value) : bool :=
  match v with
  | VNone | VBool _ | VStr _ => true
  | VInt n => Z.abs n <? 10 ^ int_max_str_digits
  | _ => false
  end.

Definition is_block (v : value) : bool :=
  match v with VBlock _ _ _ => true | _ => false end.

(** [n] is a declared dependency of the template *)
Definition declared (template : TemplateDefinition) (n : string) : bool :=
  match dependencies template with
  | Some deps => existsb (String.eqb n) deps
  | None => false
  end.

(** What the coercion of a field converts to text is plain.  A text field
    converts its raw value, [data.get(name, default_value)]: that value is
    plain, and it is the context's or the default, not a block generated
    for a dependency of that name.  A block field converts its raw value
    unless it is a dict or a [ContentBlock].  The other fields convert
    nothing. *)
Definition converts_plain (s : store) (data : loc)
    (template : TemplateDefinition) (field : TemplateField) : bool :=
  let raw :=
    default (default_value field) (dict_get (deref s data) (name field)) in
  if String.eqb (field_type field) "text"
  then plain raw &&
       (dict_has (deref s data) (name field)
        || negb (declared template (name field)))
  else if String.eqb (field_type field) "block"
  then plain raw || TemplateEngine.is_dict raw || is_block raw
  else true.

(** the values of a record, the three sequence attributes apart, are
    plain *)
Definition plain_record (s : store) (record : loc) : Prop :=
  forall k v,
    dict_get (deref s record) k = Some v ->
    ~ In k ["benefits"; "key_ingredients"; "skin_types"] ->
    plain v = true.

(** A product page context: texts and a number under the names of the
    text and block fields, and the record of the product at location 1. *)
Definition product_context : store :=
  [[("product_name", VStr "serum"); ("description", VStr "A light serum.");
    ("price", VInt 699); ("product_data", VDict 1%nat)];
   [("name", VStr "Serum"); ("benefits", VList [VStr "Glow"])]].

(** * Properties *)

(** ** Dict objects *)

Lemma dict_has_true {A} (d : list (string * A)) k :
  dict_has d k = true <-> exists v, dict_get d k = Some v.
Proof.
  unfold dict_has. destruct (dict_get d k); split; eauto.
  - discriminate.
  - intros [v Hv]. discriminate.
Qed.

Lemma dict_has_false {A} (d : list (string * A)) k :
  dict_has d k = false <-> dict_get d k = None.
Proof. unfold dict_has. destruct (dict_get d k); split; congruence. Qed.

Lemma dict_get_set_eq {A} (d : list (string * A)) k v :
  dict_get (dict_set d k v) k = Some v.
Proof.
  induction d as [|[k' v'] d IH]; simpl.
  - now rewrite String.eqb_refl.
  - destruct (String.eqb k' k) eqn:E; simpl.
    + now rewrite String.eqb_refl.
    + now rewrite E.
Qed.

Lemma dict_get_set_ne {A} (d : list (string * A)) k k' v :
  k <> k' -> dict_get (dict_set d k v) k' = dict_get d k'.
Proof.
  intros Hne. induction d as [|[k0 v0] d IH]; simpl.
  - destruct (String.eqb k k') eqn:E; [|reflexivity].
    apply String.eqb_eq in E. contradiction.
  - destruct (String.eqb k0 k) eqn:E; simpl.
    + apply String.eqb_eq in E. subst k0.
      destruct (String.eqb k k') eqn:E'; [|reflexivity].
      apply String.eqb_eq in E'. contradiction.
    + now rewrite IH.
Qed.

Lemma dict_keys_set {A} (d : list (string * A)) k v k' :
  In k' (dict_keys (dict_set d k v)) <-> k' = k \/ In k' (dict_keys d).
Proof.
  unfold dict_keys. induction d as [|[k0 v0] d IH]; simpl.
  - intuition.
  - destruct (String.eqb k0 k) eqn:E; simpl.
    + apply String.eqb_eq in E. subst k0. intuition.
    + rewrite IH. intuition.
Qed.

Lemma dict_get_pop_None {A} (d : list (string * A)) k k' :
  dict_get d k = None -> dict_get (dict_pop d k') k = None.
Proof.
  induction d as [|[k0 v0] d IH]; simpl; [reflexivity|].
  destruct (String.eqb k0 k) eqn:E; [discriminate|].
  intros H. destruct (String.eqb k0 k'); simpl; [exact H|].
  rewrite E. now apply IH.
Qed.

Lemma dict_get_In {A} (d : list (string * A)) k v :
  dict_get d k = Some v -> In (k, v) d.
Proof.
  induction d as [|[k0 v0] d IH]; simpl; [discriminate|].
  destruct (String.eqb k0 k) eqn:E.
  - apply String.eqb_eq in E. intros [= ->]. subst. now left.
  - intros H. right. now apply IH.
Qed.

Lemma dict_pop_incl {A} (d : list (string * A)) k :
  incl (dict_pop d k) d.
Proof.
  induction d as [|[k0 v0] d IH]; simpl; [apply incl_refl|].
  destruct (String.eqb k0 k).
  - now apply incl_tl, incl_refl.
  - intros x [<-|H]; [now left|right; now apply IH].
Qed.

Lemma dict_set_In {A} (d : list (string * A)) k v x :
  In x (dict_set d k v) -> x = (k, v) \/ In x d.
Proof.
  induction d as [|[k0 v0] d IH]; simpl.
  - intros [<-|[]]. now left.
  - destruct (String.eqb k0 k); simpl.
    + intros [<-|H]; auto.
    + intros [<-|H]; auto. destruct (IH H); auto.
Qed.

(** ** The store *)

Lemma deref_app (s t : store) l :
  (l < length s)%nat -> deref (s ++ t) l = deref s l.
Proof. intros H. unfold deref. now rewrite lookup_app_l. Qed.

Lemma deref_insert_eq (s : store) l d :
  (l < length s)%nat -> deref (<[l := d]> s) l = d.
Proof. intros H. unfold deref. now rewrite list_lookup_insert_eq. Qed.

Lemma deref_insert_ne (s : store) l l' d :
  l <> l' -> deref (<[l := d]> s) l' = deref s l'.
Proof. intros H. unfold deref. now rewrite list_lookup_insert_ne. Qed.

(** ** The order of the checks in [render_template] *)

Lemma check_dependencies_raises e deps data s :
  (exists dep, In dep deps /\ unsatisfied e s data dep = true) ->
  exists missing,
    missing <> [] /\
    (forall dep, In dep missing <-> In dep deps /\ unsatisfied e s data dep = true) /\
    TemplateEngine._check_dependencies e deps data s
    = (Raise (ValueError (MissingDependencies missing)), s).
Proof.
  intros (dep & Hin & Hun).
  exists (List.filter (unsatisfied e s data) deps). split; [|split].
  - intros Hnil.
    assert (H : In dep (List.filter (unsatisfied e s data) deps))
      by (apply filter_In; auto).
    rewrite Hnil in H. destruct H.
  - intros d. apply filter_In.
  - unfold TemplateEngine._check_dependencies, bind, reading.
    fold (unsatisfied e s data).
    destruct (List.filter (unsatisfied e s data) deps) eqn:E; [|reflexivity].
    assert (H : In dep (List.filter (unsatisfied e s data) deps))
      by (apply filter_In; auto).
    rewrite E in H. destruct H.
Qed.

Lemma check_dependencies_passes e deps data s :
  (forall dep, In dep deps -> unsatisfied e s data dep = false) ->
  TemplateEngine._check_dependencies e deps data s = (Ok tt, s).
Proof.
  intros Hall.
  unfold TemplateEngine._check_dependencies, bind, reading.
  fold (unsatisfied e s data).
  assert (E : List.filter (unsatisfied e s data) deps = []).
  { induction deps as [|d deps IH]; [reflexivity|]. simpl.
    rewrite (Hall d) by now left. apply IH. intros; apply Hall; now right. }
  now rewrite E.
Qed.

(** ** Computations that always return *)

Lemma returns_ret {A} (a : A) : returns (ret a).
Proof. intros s. now exists a, s. Qed.

Lemma returns_bind {A B} (m : M A) (k : A -> M B) :
  returns m -> (forall a, returns (k a)) -> returns (bind m k).
Proof.
  intros Hm Hk s. destruct (Hm s) as (a & s1 & E).
  destruct (Hk a s1) as (b & s2 & E2).
  exists b, s2. unfold bind. now rewrite E.
Qed.

Lemma returns_reading {A} (f : store -> A) :
  returns (reading (fun s => Ok (f s))).
Proof. intros s. now exists (f s), s. Qed.

Lemma returns_alloc d : returns (alloc d).
Proof. intros s. now exists (length s), (s ++ [d]). Qed.

Lemma returns_try m : returns (try_ m).
Proof.
  intros s. unfold try_. destruct (m s) as [[a|e] s1]; now exists tt, s1.
Qed.

Lemma returns_for_each {A} (xs : list A) body :
  (forall x, returns (body x)) -> returns (for_each xs body).
Proof.
  intros H. induction xs as [|x xs IH]; simpl.
  - apply returns_ret.
  - apply returns_bind; auto.
Qed.

Lemma generate_content_blocks_returns e template data :
  returns (TemplateEngine._generate_content_blocks e template data).
Proof.
  unfold TemplateEngine._generate_content_blocks.
  apply returns_bind; [apply returns_reading|]. intros copy.
  apply returns_bind; [apply returns_alloc|]. intros enriched_data.
  assert (Hloop : forall deps,
    returns (bind (for_each deps (fun dep =>
        bind (reading (fun s => Ok (dict_has (deref s enriched_data) dep)))
          (fun present =>
            match dict_get (block_generators e) dep with
            | Some g =>
                if negb present
                then try_ (TemplateEngine.generate_dependency
                             data enriched_data dep g)
                else ret tt
            | None => ret tt
            end))) (fun _ => ret enriched_data))).
  { intros deps. apply returns_bind; [|intros; apply returns_ret].
    apply returns_for_each. intros dep.
    apply returns_bind; [apply returns_reading|]. intros present.
    destruct (dict_get (block_generators e) dep); [|apply returns_ret].
    destruct (negb present); [apply returns_try|apply returns_ret]. }
  destruct (dependencies template) as [[|d deps]|];
    [apply returns_ret|apply Hloop|apply returns_ret].
Qed.

Lemma render_template_missing e template_name template deps data output_format s :
  dict_get (templates e) template_name = Some template ->
  dependencies template = Some deps ->
  (exists dep, In dep deps /\ unsatisfied e s data dep = true) ->
  exists missing,
    missing <> [] /\
    (forall dep, In dep missing <-> In dep deps /\ unsatisfied e s data dep = true) /\
    TemplateEngine.render_template e template_name data output_format s
    = (Raise (ValueError (MissingDependencies missing)), s).
Proof.
  intros Ht Hd Hex.
  destruct (check_dependencies_raises e deps data s Hex)
    as (missing & Hne & Hiff & Hraise).
  exists missing. split; [exact Hne|]. split; [exact Hiff|].
  unfold TemplateEngine.render_template. rewrite Ht, Hd.
  destruct deps as [|d deps].
  - destruct Hex as (dep & [] & _).
  - unfold bind at 1. now rewrite Hraise.
Qed.

Lemma render_template_no_renderer e template_name template data output_format s :
  dict_get (templates e) template_name = Some template ->
  dict_get (renderers e) output_format = None ->
  (forall deps dep, dependencies template = Some deps -> In dep deps ->
                    unsatisfied e s data dep = false) ->
  exists s',
    TemplateEngine.render_template e template_name data output_format s
    = (Raise (ValueError (RendererNotFound output_format)), s').
Proof.
  intros Ht Hr Hsat.
  unfold TemplateEngine.render_template. rewrite Ht, Hr.
  assert (Hcheck :
    (match dependencies template with
     | None | Some [] => ret tt
     | Some deps => TemplateEngine._check_dependencies e deps data
     end) s = (Ok tt, s)).
  { destruct (dependencies template) as [[|d deps]|] eqn:Hd; try reflexivity.
    apply check_dependencies_passes. intros dep Hin. now apply (Hsat (d :: deps)). }
  unfold bind at 1. rewrite Hcheck.
  destruct (generate_content_blocks_returns e template data s) as (l & s1 & E).
  exists s1. unfold bind. now rewrite E.
Qed.

(** C2.  A render call on a registered template that declares a
    dependency which is neither a key of the supplied context nor a
    registered block generator raises the [ValueError] of missing
    dependencies (the specification's UnsatisfiedDependency), carrying the
    list of exactly the missing names; the store is left as it was: no
    field has been coerced and no document content has been produced. *)
Theorem unsatisfied_dependency_raised
    e template_name template deps data output_format s :
  dict_get (templates e) template_name = Some template ->
  dependencies template = Some deps ->
  (exists dep, In dep deps /\ unsatisfied e s data dep = true) ->
  exists missing,
    missing <> [] /\
    (forall dep, In dep missing <-> In dep deps /\ unsatisfied e s data dep = true) /\
    TemplateEngine.render_template e template_name data output_format s
    = (Raise (ValueError (MissingDependencies missing)), s).
Proof. apply render_template_missing. Qed.

(** C4, as the code has it.  [render_template] checks the declared
    dependencies before it looks for the output handler: with a registered
    template and an unregistered output format, the failure is the
    [ValueError] of missing dependencies whenever a declared dependency is
    neither in the context nor backed by a generator, and the [ValueError]
    of the missing renderer only when every declared dependency is
    satisfied. *)
Theorem dependencies_checked_before_format
    e template_name template data output_format s :
  dict_get (templates e) template_name = Some template ->
  dict_get (renderers e) output_format = None ->
  ((exists deps dep, dependencies template = Some deps /\ In dep deps /\
                     unsatisfied e s data dep = true) ->
   exists missing,
     missing <> [] /\
     TemplateEngine.render_template e template_name data output_format s
     = (Raise (ValueError (MissingDependencies missing)), s)) /\
  ((forall deps dep, dependencies template = Some deps -> In dep deps ->
                     unsatisfied e s data dep = false) ->
   exists s',
     TemplateEngine.render_template e template_name data output_format s
     = (Raise (ValueError (RendererNotFound output_format)), s')).
Proof.
  intros Ht Hr. split.
  - intros (deps & dep & Hd & Hin & Hun).
    destruct (render_template_missing e template_name template deps data
                output_format s Ht Hd) as (missing & Hne & _ & E); eauto.
  - now apply render_template_no_renderer.
Qed.

(** ** The question-answering generator *)

Lemma matches_cons k keywords q :
  matches (k :: keywords) q = Str.contains k q || matches keywords q.
Proof. reflexivity. Qed.

Lemma matches_nil q : matches [] q = false.
Proof. reflexivity. Qed.

Lemma any_in_matches keywords q :
  QuestionAnswerBlock.any_in keywords q = matches keywords q.
Proof. reflexivity. Qed.

(** the classification is that of the first matching rule of the
    classifier's own list *)
Lemma classify_first_match q :
  QuestionAnswerBlock._classify_question q
  = rule_label (first_match classification_list (Str.lower q)).
Proof.
  unfold QuestionAnswerBlock._classify_question, classification_list,
    first_match.
  change QuestionAnswerBlock.any_in with matches.
  destruct (matches ["what is"; "what are"] (Str.lower q)); [reflexivity|].
  destruct (matches ["how to"; "apply"; "use"] (Str.lower q)); [reflexivity|].
  destruct (matches ["safe"; "side effect"; "precaution"] (Str.lower q));
    [reflexivity|].
  destruct (matches ["skin type"; "suitable"] (Str.lower q)); [reflexivity|].
  rewrite matches_cons, matches_nil, orb_false_r.
  now destruct (Str.contains "price" (Str.lower q)).
Qed.

(** C8, as the code has it.  The answer of the question-answering
    generator is chosen by the first matching rule of the ordered list
    price, informational, usage, safety, skin type, fallback; so a question
    with a price keyword is answered by the price rule whatever else it
    contains.  The [question_type] fact is computed apart, by
    [_classify_question]: it is the label of the first matching rule of the
    classifier's own list, informational, usage, safety, skin type, price,
    and "general" when none matches; so it is "informational" for every
    question containing "what is" or "what are", a price keyword or not. *)
Theorem answer_by_first_matching_rule s q product_data :
  QuestionAnswerBlock.generate_answer s (VStr q) product_data
  = (let? answer :=
       rule_answer (first_match rule_list (Str.lower q)) s (Str.lower q)
         product_data in
     Ok {| block_type := "qa_answer";
           content := answer;
           metadata :=
             Some [("question_type",
                    VStr (rule_label
                            (first_match classification_list
                               (Str.lower q))))] |})
  /\ QuestionAnswerBlock._classify_question q
     = rule_label (first_match classification_list (Str.lower q))
  /\ (Str.contains "price" (Str.lower q) = true ->
      first_match rule_list (Str.lower q) = PriceRule)
  /\ (Str.contains "what is" (Str.lower q) = true \/
      Str.contains "what are" (Str.lower q) = true ->
      QuestionAnswerBlock._classify_question q = "informational").
Proof.
  split; [|split; [|split]].
  - unfold QuestionAnswerBlock.generate_answer. cbn [obind].
    rewrite classify_first_match.
    unfold rule_answer, rule_list, first_match, obind.
    rewrite !matches_cons, !matches_nil, !orb_false_r.
    destruct (py_get s product_data "name" (VStr "this product"));
      [|reflexivity].
    destruct (Str.contains "price" (Str.lower q)); [reflexivity|].
    destruct (Str.contains "what is" (Str.lower q) ||
              Str.contains "what are" (Str.lower q)); [reflexivity|].
    destruct (Str.contains "how to use" (Str.lower q) ||
              Str.contains "apply" (Str.lower q)); [reflexivity|].
    destruct (Str.contains "side effect" (Str.lower q) ||
              Str.contains "safe" (Str.lower q)); [reflexivity|].
    destruct (Str.contains "skin type" (Str.lower q) ||
              Str.contains "suitable" (Str.lower q)); reflexivity.
  - apply classify_first_match.
  - intros H. unfold rule_list, first_match.
    now rewrite matches_cons, H.
  - intros H. rewrite classify_first_match.
    unfold classification_list, first_match.
    rewrite !matches_cons.
    destruct H as [H|H]; rewrite H; [reflexivity|].
    now rewrite orb_true_r.
Qed.

(** ** List coercion *)

Lemma py_eqb_sym a b : py_eqb a b = py_eqb b a.
Proof.
  destruct a, b; simpl; try reflexivity;
    try apply Z.eqb_sym; try apply String.eqb_sym.
Qed.

Lemma py_eqb_refl a : hashable a = true -> py_eqb a a = true.
Proof.
  destruct a; simpl; try discriminate; intros _;
    try reflexivity; try apply Z.eqb_refl; try apply String.eqb_refl.
Qed.

Lemma py_eqb_trans a b c :
  py_eqb a b = true -> py_eqb b c = true -> py_eqb a c = true.
Proof.
  destruct a, b; simpl; try discriminate; destruct c; simpl;
    try discriminate; try reflexivity;
    rewrite ?Z.eqb_eq, ?String.eqb_eq; congruence.
Qed.

Lemma py_mem_true x xs :
  py_mem x xs = true <-> exists y, In y xs /\ py_eqb x y = true.
Proof. unfold py_mem. apply existsb_exists. Qed.

Lemma py_mem_app x xs ys : py_mem x (xs ++ ys) = py_mem x xs || py_mem x ys.
Proof. unfold py_mem. apply existsb_app. Qed.

(** an item equal to a member is a member *)
Lemma py_mem_eqb x y xs :
  py_eqb x y = true -> py_mem x xs = py_mem y xs.
Proof.
  intros E. destruct (py_mem y xs) eqn:Hy.
  - apply py_mem_true in Hy as (z & Hz & Eyz). apply py_mem_true.
    exists z. split; [exact Hz|]. eapply py_eqb_trans; eauto.
  - destruct (py_mem x xs) eqn:Hx; [|reflexivity].
    apply py_mem_true in Hx as (z & Hz & Exz).
    assert (py_mem y xs = true); [|congruence].
    apply py_mem_true. exists z. split; [exact Hz|].
    eapply py_eqb_trans; [|exact Exz]. now rewrite py_eqb_sym.
Qed.

Lemma filter_filter_comm {A} (f g : A -> bool) xs :
  List.filter f (List.filter g xs) = List.filter g (List.filter f xs).
Proof.
  induction xs as [|x xs IH]; simpl; [reflexivity|].
  destruct (f x) eqn:Ef, (g x) eqn:Eg; simpl; rewrite ?Ef, ?Eg, IH; reflexivity.
Qed.

Lemma filter_all_true {A} (f : A -> bool) xs :
  (forall x, In x xs -> f x = true) -> List.filter f xs = xs.
Proof.
  intros H. induction xs as [|x xs IH]; simpl; [reflexivity|].
  rewrite (H x) by now left. rewrite IH; [reflexivity|].
  intros; apply H; now right.
Qed.

Lemma first_seen_hashable xs :
  Forall (fun x => hashable x = true) xs ->
  Forall (fun x => hashable x = true) (first_seen xs).
Proof.
  induction 1 as [|x xs Hx Hxs IH]; simpl; constructor; [exact Hx|].
  apply List.Forall_forall. intros y Hy. apply filter_In in Hy as [Hy _].
  rewrite List.Forall_forall in IH. now apply IH.
Qed.

(** Inserting keys one by one keeps the first occurrence of each. *)
Lemma insert_keys_first_seen xs : forall seen,
  Forall (fun x => hashable x = true) xs ->
  insert_keys seen xs
  = Ok (seen ++ List.filter (fun y => negb (py_mem y seen)) (first_seen xs)).
Proof.
  induction xs as [|x xs IH]; intros seen Hh; simpl.
  - now rewrite app_nil_r.
  - inversion Hh as [|? ? Hx Hxs]; subst. rewrite Hx.
    destruct (py_mem x seen) eqn:Hm; simpl.
    + rewrite IH by assumption. f_equal. f_equal.
      rewrite filter_filter_comm. symmetry.
      apply filter_all_true. intros y Hy. apply filter_In in Hy as [_ Hy].
      destruct (py_eqb x y) eqn:E; [|reflexivity].
      apply negb_true_iff in Hy.
      rewrite (py_mem_eqb y x) in Hy by now rewrite py_eqb_sym. congruence.
    + rewrite IH by assumption. rewrite <- app_assoc. simpl. f_equal. f_equal.
      f_equal. rewrite filter_filter_comm.
      assert (Hin : forall y, negb (py_mem y (seen ++ [x]))
                     = negb (py_mem y seen) && negb (py_eqb x y)).
      { intros y. rewrite py_mem_app, negb_orb. f_equal.
        unfold py_mem. simpl. now rewrite orb_false_r, py_eqb_sym. }
      clear IH. induction (first_seen xs) as [|y ys IHy]; simpl; [reflexivity|].
      rewrite Hin. destruct (negb (py_mem y seen)); simpl.
      * destruct (py_eqb x y); simpl; rewrite IHy; reflexivity.
      * exact IHy.
Qed.

Lemma fromkeys_first_seen xs :
  Forall (fun x => hashable x = true) xs -> fromkeys xs = Ok (first_seen xs).
Proof.
  intros H. unfold fromkeys. rewrite insert_keys_first_seen by assumption.
  simpl. f_equal. now apply filter_all_true.
Qed.


Lemma option_of_not_given formatting k :
  given formatting = false -> option_of formatting k = VNone.
Proof. destruct formatting as [[|? ?]|]; simpl; try discriminate; reflexivity. Qed.

(** *** The items of the code are those of the specification *)

Lemma append_cons c a b : String c a +:+ b = String c (a +:+ b).
Proof. reflexivity. Qed.

Lemma append_assoc a b c : (a +:+ b) +:+ c = a +:+ b +:+ c.
Proof.
  induction a as [|x a IH]; [reflexivity|].
  rewrite !append_cons. now rewrite IH.
Qed.
















(** ** Single-subject generators on a record without the attribute *)

Lemma contains_app_r needle a b :
  Str.contains needle b = true -> Str.contains needle (a +:+ b) = true.
Proof.
  intros H. induction a as [|c a IH]; [exact H|].
  rewrite append_cons. simpl. rewrite IH. apply orb_true_r.
Qed.

Lemma states_unavailable_app a b :
  states_unavailable b = true -> states_unavailable (a +:+ b) = true.
Proof.
  unfold states_unavailable. intros H. apply orb_true_iff in H as [H|H];
    apply orb_true_iff; [left|right]; now apply contains_app_r.
Qed.

Lemma missing_list_get s record k :
  missing_list s record k ->
  py_get s (VDict record) k (VList []) = Ok (VList []).
Proof. unfold py_get. intros [-> | ->]; reflexivity. Qed.

Lemma missing_text_get s record k :
  missing_text s record k ->
  py_get s (VDict record) k VNone = Ok VNone.
Proof. unfold py_get. intros [-> | ->]; reflexivity. Qed.

Lemma name_get s record :
  py_get s (VDict record) "name" (VStr "this product")
  = Ok (default (VStr "this product") (dict_get (deref s record) "name")).
Proof. reflexivity. Qed.

(** C7.  Each of the six single-subject generators (benefits, usage,
    ingredients, safety, skin type, price), given a record that lacks the
    attribute it is about, returns a block, and the text of the block says
    that the information is not provided (not specified, for skin
    types). *)
Theorem missing_attribute_reported s record g :
  missing_attribute s record g ->
  reports_unavailable (call g [VDict record] s)
    (unavailable_text g (shown_name s record)).
Proof.
  unfold reports_unavailable, shown_name.
  destruct g; simpl; intros Hm; try contradiction.
  - unfold BenefitsBlock.generate.
    rewrite (missing_list_get _ _ _ Hm), name_get. simpl.
    eexists. split; [reflexivity|]. split; [reflexivity|].
    do 2 apply states_unavailable_app. reflexivity.
  - unfold UsageBlock.generate.
    rewrite (missing_text_get _ _ _ Hm), name_get. simpl.
    eexists. split; [reflexivity|]. split; [reflexivity|].
    do 2 apply states_unavailable_app. reflexivity.
  - unfold IngredientsBlock.generate.
    rewrite (missing_list_get _ _ _ Hm), name_get. simpl.
    destruct (py_get s (VDict record) "concentration" VNone) eqn:E;
      [|discriminate E]. simpl.
    eexists. split; [reflexivity|]. split; [reflexivity|].
    do 2 apply states_unavailable_app. reflexivity.
  - unfold SafetyBlock.generate.
    rewrite (missing_text_get _ _ _ Hm), name_get. simpl.
    eexists. split; [reflexivity|]. split; [reflexivity|].
    do 2 apply states_unavailable_app. reflexivity.
  - unfold SkinTypeBlock.generate.
    rewrite (missing_list_get _ _ _ Hm), name_get. simpl.
    eexists. split; [reflexivity|]. split; [reflexivity|].
    do 2 apply states_unavailable_app. reflexivity.
  - unfold PriceBlock.generate.
    rewrite (missing_text_get _ _ _ Hm), name_get. simpl.
    eexists. split; [reflexivity|]. split; [reflexivity|].
    do 2 apply states_unavailable_app. reflexivity.
Qed.

(** ** Comparing the ingredients of two records *)

Lemma all_str_map l : all_str (map VStr l) = Ok l.
Proof. induction l as [|x l IH]; simpl; [reflexivity|]. now rewrite IH. Qed.

Lemma all_str_inv xs : forall l, all_str xs = Ok l -> xs = map VStr l.
Proof.
  induction xs as [|x xs IH]; simpl; intros l H.
  - now inversion H.
  - destruct x; try discriminate.
    destruct (all_str xs) as [l'|] eqn:E; simpl in H; [|discriminate].
    inversion H; subst. simpl. f_equal. now apply IH.
Qed.

Lemma filter_map_str (f : value -> bool) l :
  List.filter f (map VStr l) = map VStr (List.filter (fun x => f (VStr x)) l).
Proof.
  induction l as [|x l IH]; simpl; [reflexivity|].
  destruct (f (VStr x)); simpl; now rewrite IH.
Qed.

Lemma first_seen_map_str l : first_seen (map VStr l) = map VStr (sdedup l).
Proof.
  induction l as [|x l IH]; simpl; [reflexivity|].
  now rewrite IH, filter_map_str.
Qed.

Lemma hashable_map_str l : Forall (fun x => hashable x = true) (map VStr l).
Proof. induction l; simpl; constructor; auto. Qed.

Lemma py_set_strings s l :
  py_set s (VList (map VStr l)) = Ok (map VStr (sdedup l)).
Proof.
  unfold py_set. simpl.
  rewrite insert_keys_first_seen by apply hashable_map_str. simpl.
  rewrite filter_all_true by reflexivity. now rewrite first_seen_map_str.
Qed.

Lemma py_mem_map_str x l : py_mem (VStr x) (map VStr l) = smem x l.
Proof.
  unfold py_mem, smem. induction l as [|y l IH]; simpl; [reflexivity|].
  now rewrite IH.
Qed.

Lemma set_inter_strings a b :
  set_inter (map VStr a) (map VStr b)
  = map VStr (List.filter (fun x => smem x b) a).
Proof.
  unfold set_inter. rewrite filter_map_str. f_equal.
  induction a as [|x a IH]; simpl; [reflexivity|].
  now rewrite py_mem_map_str, IH.
Qed.

Lemma set_diff_strings a b :
  set_diff (map VStr a) (map VStr b)
  = map VStr (List.filter (fun x => negb (smem x b)) a).
Proof.
  unfold set_diff. rewrite filter_map_str. f_equal.
  induction a as [|x a IH]; simpl; [reflexivity|].
  now rewrite py_mem_map_str, IH.
Qed.

Lemma smem_In x l : smem x l = true <-> In x l.
Proof.
  unfold smem. rewrite existsb_exists. split.
  - intros (y & Hy & E). apply String.eqb_eq in E. now subst.
  - intros H. exists x. split; [exact H|apply String.eqb_refl].
Qed.

Lemma sdedup_In x l : In x (sdedup l) <-> In x l.
Proof.
  induction l as [|y l IH]; simpl; [reflexivity|].
  rewrite filter_In, IH. split.
  - intros [H|[H _]]; auto.
  - intros [H|H]; [now left|].
    destruct (String.eqb y x) eqn:E.
    + apply String.eqb_eq in E. now left.
    + right. split; [exact H|]. simpl. rewrite ?E. reflexivity.
Qed.

Lemma sdedup_NoDup l : List.NoDup (sdedup l).
Proof.
  induction l as [|y l IH]; simpl; constructor.
  - rewrite filter_In. intros [_ H]. now rewrite String.eqb_refl in H.
  - now apply List.NoDup_filter.
Qed.

Lemma part_strings l lead :
  ComparisonBlock.part (map VStr l) (Ok lead) = Ok (sentence l lead).
Proof.
  unfold ComparisonBlock.part, sentence, join_values.
  rewrite all_str_map. destruct l; reflexivity.
Qed.

Lemma ingredients_get s record l :
  ingredients s record = Some l ->
  py_get s (VDict record) "key_ingredients" (VList []) = Ok (VList (map VStr l)).
Proof.
  unfold ingredients, py_get.
  destruct (dict_get (deref s record) "key_ingredients") as [v|].
  - destruct v; try discriminate.
    destruct (all_str xs) as [l'|] eqn:E; [|discriminate].
    intros [= <-]. simpl. now rewrite (all_str_inv _ _ E).
  - now intros [= <-].
Qed.

(** What [compare_ingredients] returns for two records with a name and
    lists of texts as ingredients. *)
Lemma compare_ingredients_strings s a b na nb la lb :
  dict_get (deref s a) "name" = Some na ->
  dict_get (deref s b) "name" = Some nb ->
  ingredients s a = Some la ->
  ingredients s b = Some lb ->
  let sa := sdedup la in
  let sb := sdedup lb in
  let common := List.filter (fun x => smem x sb) sa in
  let unique_a := List.filter (fun x => negb (smem x sb)) sa in
  let unique_b := List.filter (fun x => negb (smem x sa)) sb in
  ComparisonBlock.compare_ingredients s (VDict a) (VDict b)
  = Ok {| block_type := "ingredient_comparison";
          content :=
            VStr (ComparisonBlock.finish
                    (sentence common "Both products contain "
                     ++ sentence unique_a (py_str s na +:+ " uniquely features ")
                     ++ sentence unique_b (py_str s nb +:+ " uniquely features "))
                    "Both products have distinct ingredient formulations.");
          metadata :=
            Some [("common_ingredients", VInt (Z.of_nat (length common)));
                  ("unique_a", VInt (Z.of_nat (length unique_a)));
                  ("unique_b", VInt (Z.of_nat (length unique_b)))] |}.
Proof.
  intros Hna Hnb Ha Hb sa sb common unique_a unique_b.
  unfold ComparisonBlock.compare_ingredients.
  rewrite (ingredients_get _ _ _ Ha). cbn [obind].
  rewrite py_set_strings. cbn [obind].
  rewrite (ingredients_get _ _ _ Hb). cbn [obind].
  rewrite py_set_strings. cbn [obind].
  rewrite set_inter_strings, !set_diff_strings.
  unfold ComparisonBlock.named, py_getitem. rewrite Hna, Hnb. cbn [obind].
  rewrite !part_strings. cbn [obind]. rewrite !length_map. reflexivity.
Qed.

Lemma size_filter_NoDup (f : string -> bool) (l : list string) :
  List.NoDup l ->
  size (list_to_set (List.filter f l) : gset string) = length (List.filter f l).
Proof.
  intros H. apply size_list_to_set, NoDup_ListNoDup. now apply List.NoDup_filter.
Qed.

Lemma elem_of_filter_set (f : string -> bool) (l : list string) x :
  x ∈ (list_to_set (List.filter f l) : gset string) <-> In x l /\ f x = true.
Proof. rewrite elem_of_list_to_set, list_elem_of_In. apply filter_In. Qed.

Lemma elem_of_set_In (l : list string) x :
  x ∈ (list_to_set l : gset string) <-> In x l.
Proof. now rewrite elem_of_list_to_set, list_elem_of_In. Qed.

Lemma inter_as_filter (la lb : list string) :
  (list_to_set la ∩ list_to_set lb : gset string)
  = list_to_set (List.filter (fun x => smem x (sdedup lb)) (sdedup la)).
Proof.
  apply set_eq. intros x.
  rewrite elem_of_intersection, elem_of_filter_set, !elem_of_set_In.
  rewrite smem_In, !sdedup_In. reflexivity.
Qed.

Lemma diff_as_filter (la lb : list string) :
  (list_to_set la ∖ list_to_set lb : gset string)
  = list_to_set (List.filter (fun x => negb (smem x (sdedup lb))) (sdedup la)).
Proof.
  apply set_eq. intros x.
  rewrite elem_of_difference, elem_of_filter_set, !elem_of_set_In.
  rewrite negb_true_iff, sdedup_In. split.
  - intros [H1 H2]. split; [exact H1|].
    destruct (smem x (sdedup lb)) eqn:E; [|reflexivity].
    apply (proj1 (smem_In _ _)) in E. apply (proj1 (sdedup_In _ _)) in E.
    now destruct H2.
  - intros [H1 H2]. split; [exact H1|]. intros H.
    apply (proj2 (sdedup_In _ _)) in H. apply (proj2 (smem_In _ _)) in H.
    congruence.
Qed.

(** C5.  For two subject records, each with a name and a list of texts
    as key ingredients, the facts of the ingredients comparison count the
    sets: [common_ingredients] is the size of the intersection of the two
    sets of ingredients, [unique_a] and [unique_b] the sizes of the two
    differences.  For ingredients X, Y against Y, Z the counts are 1, 1, 1
    and the text names X in the sentence about the first product alone and
    Z in the sentence about the second alone. *)
Theorem comparison_ingredients_counts s a b na nb la lb :
  dict_get (deref s a) "name" = Some na ->
  dict_get (deref s b) "name" = Some nb ->
  ingredients s a = Some la ->
  ingredients s b = Some lb ->
  exists block,
    ComparisonBlock.compare_ingredients s (VDict a) (VDict b) = Ok block /\
    fact block "common_ingredients"
    = Some (VInt (Z.of_nat (size (list_to_set la ∩ list_to_set lb : gset string)))) /\
    fact block "unique_a"
    = Some (VInt (Z.of_nat (size (list_to_set la ∖ list_to_set lb : gset string)))) /\
    fact block "unique_b"
    = Some (VInt (Z.of_nat (size (list_to_set lb ∖ list_to_set la : gset string)))) /\
    (la = ["X"; "Y"] -> lb = ["Y"; "Z"] ->
     fact block "common_ingredients" = Some (VInt 1) /\
     fact block "unique_a" = Some (VInt 1) /\
     fact block "unique_b" = Some (VInt 1) /\
     content block
     = VStr ("Both products contain Y. "
             +:+ py_str s na +:+ " uniquely features X. "
             +:+ py_str s nb +:+ " uniquely features Z.")).
Proof.
  intros Hna Hnb Ha Hb.
  eexists. split; [now apply (compare_ingredients_strings s a b na nb la lb)|].
  unfold fact. cbn [metadata dict_get String.eqb Ascii.eqb Bool.eqb].
  rewrite inter_as_filter, !diff_as_filter.
  rewrite !size_filter_NoDup by apply sdedup_NoDup.
  split; [reflexivity|]. split; [reflexivity|]. split; [reflexivity|].
  intros -> ->. split; [reflexivity|]. split; [reflexivity|].
  split; [reflexivity|].
  cbn [content]. f_equal. unfold ComparisonBlock.finish, sentence. simpl.
  unfold Str.join. simpl. rewrite !append_assoc. reflexivity.
Qed.

(** ** Rules for store-passing computations *)

Lemma hoare_ret {A} (P : store -> Prop) (a : A) Q E :
  (forall s, P s -> Q a s) -> hoare P (ret a) Q E.
Proof. intros H s Hs. now apply H. Qed.

Lemma hoare_raise {A} (P : store -> Prop) e (Q : A -> store -> Prop) E :
  (forall s, P s -> E s) -> hoare P (raise e) Q E.
Proof. intros H s Hs. now apply H. Qed.

Lemma hoare_bind {A B} P (m : M A) (k : A -> M B) Q R E :
  hoare P m Q E -> (forall a, hoare (Q a) (k a) R E) -> hoare P (bind m k) R E.
Proof.
  intros Hm Hk s Hs. unfold bind. specialize (Hm s Hs).
  destruct (m s) as [[a|e] s1]; [|exact Hm]. now apply Hk.
Qed.

Lemma hoare_reading {A} P (f : store -> outcome A) Q E :
  (forall s, P s -> match f s with Ok a => Q a s | Raise _ => E s end) ->
  hoare P (reading f) Q E.
Proof.
  intros H s Hs. unfold reading. specialize (H s Hs). now destruct (f s).
Qed.

Lemma hoare_alloc P d Q E :
  (forall s, P s -> Q (length s) (s ++ [d])) -> hoare P (alloc d) Q E.
Proof. intros H s Hs. now apply H. Qed.

Lemma hoare_modify P l f Q E :
  (forall s, P s -> Q tt (<[l := f (deref s l)]> s)) -> hoare P (modify l f) Q E.
Proof. intros H s Hs. now apply H. Qed.

Lemma hoare_try P m (Q : unit -> store -> Prop) E :
  hoare P m (fun _ => Q tt) (Q tt) -> hoare P (try_ m) Q E.
Proof.
  intros H s Hs. unfold try_. specialize (H s Hs).
  now destruct (m s) as [[a|e] s1].
Qed.

Lemma hoare_conseq {A} (P P' : store -> Prop) (m : M A) (Q Q' : A -> store -> Prop)
    (E E' : store -> Prop) :
  hoare P' m Q' E' ->
  (forall s, P s -> P' s) -> (forall a s, Q' a s -> Q a s) ->
  (forall s, E' s -> E s) ->
  hoare P m Q E.
Proof.
  intros H HP HQ HE s Hs. specialize (H s (HP s Hs)).
  destruct (m s) as [[a|e] s1]; auto.
Qed.

Lemma hoare_for_each {A} (I : store -> Prop) (xs : list A) body E :
  (forall x, In x xs -> hoare I (body x) (fun _ => I) E) ->
  hoare I (for_each xs body) (fun _ => I) E.
Proof.
  induction xs as [|x xs IH]; intros H; simpl.
  - now apply hoare_ret.
  - eapply hoare_bind; [apply H; now left|].
    intros u. apply IH. intros y Hy. apply H. now right.
Qed.

Lemma hoare_fold_m {A B} (J : B -> store -> Prop) (f : B -> A -> M B) xs E :
  (forall acc x, In x xs -> hoare (J acc) (f acc x) J E) ->
  forall acc, hoare (J acc) (fold_m f xs acc) J E.
Proof.
  induction xs as [|x xs IH]; intros H acc; simpl.
  - now apply hoare_ret.
  - eapply hoare_bind; [apply H; now left|].
    intros acc'. apply IH. intros a y Hy. apply H. now right.
Qed.

Lemma fold_m_app {A B} (f : B -> A -> M B) xs ys : forall acc s,
  fold_m f (xs ++ ys) acc s = bind (fold_m f xs acc) (fold_m f ys) s.
Proof.
  induction xs as [|x xs IH]; intros acc s; simpl.
  - reflexivity.
  - unfold bind in *.
    destruct (f acc x s) as [[a|e] s1]; [|reflexivity].
    apply IH.
Qed.

Lemma hoare_pure {A} (P : store -> Prop) (phi : Prop) (m : M A) Q E :
  (phi -> hoare P m Q E) -> hoare (fun s => P s /\ phi) m Q E.
Proof. intros H s [Hs Hphi]. now apply H. Qed.

(** ** What coercing a field does to the store *)

Section FieldInvariant.

(** [P] is a property of the store that new objects do not disturb and
    that survives the removal of the metadata key from the objects at
    the locations [ok], the new ones among them. *)
Variable P : store -> Prop.
Variable ok : loc -> Prop.
Hypothesis P_alloc : forall s d, P s -> P (s ++ [d]).
Hypothesis P_fresh : forall s, P s -> ok (length s).
Hypothesis P_pop : forall s l,
  P s -> ok l -> P (<[l := dict_pop (deref s l) "metadata"]> s).

Lemma process_block_field_inv v formatting :
  (forall l, v = VDict l -> ok l) ->
  hoare P (JSONTemplateRenderer._process_block_field v formatting)
    (fun _ => P) P.
Proof.
  intros Hv. unfold JSONTemplateRenderer._process_block_field.
  apply hoare_bind with (Q := fun result s => P s /\ ok result).
  - assert (Hother : forall text_of : store -> string,
      hoare P
        (bind (reading (fun s => Ok (text_of s)))
           (fun text => alloc [("content", VStr text); ("type", VStr "text")]))
        (fun result s => P s /\ ok result) P).
    { intros text_of. eapply hoare_bind.
      - apply hoare_reading with (Q := fun _ => P). auto.
      - intros text. apply hoare_alloc. auto. }
    destruct v as [| | | | |l|bt c md]; try apply Hother.
    + apply hoare_ret. auto.
    + apply hoare_bind with (Q := fun _ => P).
      * intros s Hs. destruct md as [l|]; simpl.
        -- destruct (nonempty (deref s l)); simpl; auto.
        -- auto.
      * intros m. apply hoare_alloc. auto.
  - intros result. apply hoare_pure. intros Hok.
    destruct (given formatting); [|now apply hoare_ret].
    apply hoare_bind with (Q := fun _ => P).
    + destruct (option_of formatting "include_metadata") as [|[|]| | | | |];
        try (now apply hoare_ret).
      apply hoare_modify. auto.
    + intros _. apply hoare_bind with (Q := fun _ => P).
      * apply hoare_reading. auto.
      * intros [|]; [|now apply hoare_ret].
        apply hoare_reading. intros s Hs.
        now destruct (py_getitem s (VDict result) "content").
Qed.

Lemma process_structured_field_inv v formatting :
  hoare P (JSONTemplateRenderer._process_structured_field v formatting)
    (fun _ => P) P.
Proof.
  unfold JSONTemplateRenderer._process_structured_field.
  assert (Hwrap : hoare P
    (bind (alloc [("value", v)]) (fun l => ret (VDict l))) (fun _ => P) P).
  { apply hoare_bind with (Q := fun _ => P).
    - apply hoare_alloc. auto.
    - intros l. now apply hoare_ret. }
  destruct v; try exact Hwrap. now apply hoare_ret.
Qed.

Lemma process_field_inv field data :
  (forall s l, P s ->
     default (default_value field) (dict_get (deref s data) (name field))
     = VDict l -> ok l) ->
  hoare P (JSONTemplateRenderer._process_field field data) (fun _ => P) P.
Proof.
  intros Hraw. unfold JSONTemplateRenderer._process_field.
  apply hoare_bind
    with (Q := fun raw s => P s /\ forall l, raw = VDict l -> ok l).
  - apply hoare_reading. intros s Hs. split; [exact Hs|].
    intros l. now apply Hraw.
  - intros raw. apply hoare_pure. intros Hok.
    assert (Hrest : hoare P
      (if String.eqb (field_type field) "text" then
         reading (fun s =>
           JSONTemplateRenderer._process_text_field s raw (formatting field))
       else if String.eqb (field_type field) "list" then
         reading (fun s =>
           JSONTemplateRenderer._process_list_field s raw (formatting field))
       else if String.eqb (field_type field) "block" then
         JSONTemplateRenderer._process_block_field raw (formatting field)
       else if String.eqb (field_type field) "structured" then
         JSONTemplateRenderer._process_structured_field raw (formatting field)
       else ret raw) (fun _ => P) P).
    { destruct (String.eqb (field_type field) "text").
      { apply hoare_reading. intros s Hs.
        now destruct (JSONTemplateRenderer._process_text_field s raw _). }
      destruct (String.eqb (field_type field) "list").
      { apply hoare_reading. intros s Hs.
        now destruct (JSONTemplateRenderer._process_list_field s raw _). }
      destruct (String.eqb (field_type field) "block").
      { now apply process_block_field_inv. }
      destruct (String.eqb (field_type field) "structured").
      { apply process_structured_field_inv. }
      now apply hoare_ret. }
    destruct raw; try exact Hrest. now apply hoare_ret.
Qed.

End FieldInvariant.

(** A field whose raw value is [None] is coerced to [None]. *)
Lemma process_field_none (P : store -> Prop) field data :
  (forall s, P s ->
     default (default_value field) (dict_get (deref s data) (name field))
     = VNone) ->
  hoare P (JSONTemplateRenderer._process_field field data)
    (fun v s => P s /\ v = VNone) P.
Proof.
  intros Hraw. unfold JSONTemplateRenderer._process_field.
  apply hoare_bind with (Q := fun raw s => P s /\ raw = VNone).
  - apply hoare_reading. intros s Hs. split; [exact Hs|]. now apply Hraw.
  - intros raw. apply hoare_pure. intros ->. apply hoare_ret. auto.
Qed.

(** ** Fields without a value *)

Lemma dict_get_None_keys {A} (d : list (string * A)) k :
  dict_get d k = None <-> ~ In k (dict_keys d).
Proof.
  unfold dict_keys. induction d as [|[k0 v0] d IH]; simpl.
  - intuition.
  - destruct (String.eqb k0 k) eqn:E.
    + apply String.eqb_eq in E. split; [discriminate|]. intros H. destruct H. now left.
    + apply String.eqb_neq in E. rewrite IH. intuition.
Qed.

Lemma lacks_alloc data k s d : lacks data k s -> lacks data k (s ++ [d]).
Proof.
  intros [Hl Hg]. split.
  - rewrite length_app. lia.
  - now rewrite deref_app.
Qed.

Lemma lacks_pop data k s l :
  lacks data k s -> lacks data k (<[l := dict_pop (deref s l) "metadata"]> s).
Proof.
  intros [Hl Hg]. split.
  - now rewrite length_insert.
  - destruct (Nat.eq_dec l data) as [->|Hne].
    + rewrite deref_insert_eq by assumption. now apply dict_get_pop_None.
    + now rewrite deref_insert_ne.
Qed.

Lemma render_field_other data k v field content :
  name field <> k ->
  hoare (rendering data k v content)
    (JSONTemplateRenderer.render_field data content field)
    (rendering data k v) (fun _ => True).
Proof.
  intros Hne. unfold JSONTemplateRenderer.render_field.
  apply hoare_bind
    with (Q := fun _ s => rendering data k v content s).
  - apply hoare_pure. intros Hv.
    eapply hoare_conseq.
    + apply (process_field_inv (lacks data k) (fun _ => True)).
      * apply lacks_alloc.
      * auto.
      * intros s l Hs _. now apply lacks_pop.
      * auto.
    + auto.
    + intros a s Hs. now split.
    + auto.
  - intros field_value.
    destruct (negb (JSONTemplateRenderer.is_none field_value)
              || negb (required field)).
    + apply hoare_ret. intros s [Hs Hv]. split; [exact Hs|].
      now rewrite dict_get_set_ne.
    + now apply hoare_ret.
Qed.

Lemma render_field_omitted data k field content :
  name field = k ->
  default_value field = VNone ->
  hoare (rendering data k None content)
    (JSONTemplateRenderer.render_field data content field)
    (rendering data k (if required field then None else Some VNone))
    (fun _ => True).
Proof.
  intros Hk Hd. unfold JSONTemplateRenderer.render_field.
  apply hoare_bind
    with (Q := fun fv s => rendering data k None content s /\ fv = VNone).
  - apply hoare_pure. intros Hv.
    eapply hoare_conseq.
    + apply (process_field_none (lacks data k)).
      intros s [_ Hs]. now rewrite Hk, Hs, Hd.
    + auto.
    + intros a s [Hs ->]. split; [split; assumption|reflexivity].
    + auto.
  - intros fv. apply hoare_pure. intros ->. simpl.
    destruct (required field); simpl.
    + now apply hoare_ret.
    + apply hoare_ret. intros s [Hs _]. split; [exact Hs|].
      rewrite <- Hk. apply dict_get_set_eq.
Qed.

Lemma render_fields_other data k v xs :
  (forall g, In g xs -> name g <> k) ->
  forall content,
    hoare (rendering data k v content)
      (fold_m (JSONTemplateRenderer.render_field data) xs content)
      (rendering data k v) (fun _ => True).
Proof.
  intros H. apply hoare_fold_m with (J := rendering data k v).
  intros acc g Hg. apply render_field_other. now apply H.
Qed.

Lemma NoDup_names_split (pre post : list TemplateField) field :
  List.NoDup (map name (pre ++ field :: post)) ->
  forall g, In g pre \/ In g post -> name g <> name field.
Proof.
  rewrite map_app. simpl. intros H g Hg E.
  apply List.NoDup_remove_2 in H. apply H. rewrite <- E.
  apply in_or_app. destruct Hg as [Hg|Hg]; [left|right]; now apply in_map.
Qed.

(** C1, as the code has it.  In a template whose field names are all
    different, a field with no default whose name is not a key of the
    render data is left out of the content of the document when it is
    required, and is a key of the content, bound to [None], when it is not
    required. *)
Theorem render_omission_law template data s doc s' field :
  JSONTemplateRenderer.render template data s = (Ok doc, s') ->
  (data < length s)%nat ->
  List.NoDup (map name (fields template)) ->
  In field (fields template) ->
  default_value field = VNone ->
  dict_get (deref s data) (name field) = None ->
  (required field = true ->
   ~ In (name field) (dict_keys (doc_content doc))) /\
  (required field = false ->
   In (name field) (dict_keys (doc_content doc)) /\
   dict_get (doc_content doc) (name field) = Some VNone).
Proof.
  intros Hrender Hdata Hnodup Hin Hdefault Habsent.
  assert (Hget : dict_get (doc_content doc) (name field)
                 = if required field then None else Some VNone).
  { destruct (in_split _ _ Hin) as (pre & post & Hsplit).
    rewrite Hsplit in Hnodup.
    pose proof (NoDup_names_split pre post field Hnodup) as Hother.
    assert (Hloop : hoare (rendering data (name field) None [])
              (fold_m (JSONTemplateRenderer.render_field data)
                 (fields template) [])
              (rendering data (name field)
                 (if required field then None else Some VNone))
              (fun _ => True)).
    { intros s0 Hs0. rewrite Hsplit, fold_m_app.
      revert s0 Hs0. eapply hoare_bind.
      - apply render_fields_other. intros g Hg. apply Hother. now left.
      - intros content. simpl. eapply hoare_bind.
        + now apply render_field_omitted.
        + intros content'. apply render_fields_other.
          intros g Hg. apply Hother. now right. }
    unfold JSONTemplateRenderer.render, bind in Hrender.
    specialize (Hloop s). 
    destruct (fold_m (JSONTemplateRenderer.render_field data)
                (fields template) [] s) as [[content|e] s1];
      [|discriminate].
    inversion Hrender; subst. simpl.
    apply Hloop. repeat split; auto. }
  split; intros Hreq; rewrite Hreq in Hget.
  - now apply dict_get_None_keys.
  - split; [|exact Hget].
    destruct (in_dec string_dec (name field) (dict_keys (doc_content doc)))
      as [H|H]; [exact H|].
    apply dict_get_None_keys in H. congruence.
Qed.

(** ** The caller's mapping *)

Lemma framed_alloc data d0 le s d :
  framed data d0 le s -> framed data d0 le (s ++ [d]).
Proof.
  intros (Hd & Hlt & Hle & Hv). repeat split.
  - rewrite lookup_app_l; [exact Hd|]. lia.
  - exact Hlt.
  - rewrite length_app. lia.
  - now rewrite deref_app.
Qed.

Lemma framed_fresh data d0 le s : framed data d0 le s -> length s <> data.
Proof. intros (_ & Hlt & Hle & _). lia. Qed.

Lemma framed_pop data d0 le s l :
  framed data d0 le s -> l <> data ->
  framed data d0 le (<[l := dict_pop (deref s l) "metadata"]> s).
Proof.
  intros (Hd & Hlt & Hle & Hv) Hne. repeat split.
  - now rewrite list_lookup_insert_ne.
  - exact Hlt.
  - now rewrite length_insert.
  - destruct (Nat.eq_dec l le) as [->|Hl].
    + rewrite deref_insert_eq by assumption.
      intros kv Hkv. apply Hv. now apply (dict_pop_incl _ "metadata").
    + now rewrite deref_insert_ne.
Qed.

Lemma framed_set data d0 le s k v :
  framed data d0 le s -> v <> VDict data ->
  framed data d0 le (<[le := dict_set (deref s le) k v]> s).
Proof.
  intros (Hd & Hlt & Hle & Hv) Hne. repeat split.
  - rewrite list_lookup_insert_ne; [exact Hd|]. lia.
  - exact Hlt.
  - now rewrite length_insert.
  - rewrite deref_insert_eq by assumption.
    intros kv Hkv. destruct (dict_set_In _ _ _ _ Hkv) as [->|H]; auto.
Qed.

Lemma generate_into_framed data d0 le dep g args :
  hoare (framed data d0 le) (TemplateEngine.generate_into le dep g args)
    (fun _ => framed data d0 le) (framed data d0 le).
Proof.
  unfold TemplateEngine.generate_into.
  apply hoare_bind with (Q := fun _ => framed data d0 le).
  - apply hoare_reading. intros s Hs. now destruct (call g args s).
  - intros b.
    apply hoare_bind
      with (Q := fun block s => framed data d0 le s /\ block <> VDict data).
    + unfold new_block. destruct (metadata b) as [d|].
      * apply hoare_bind with (Q := fun _ => framed data d0 le).
        -- apply hoare_alloc. intros s Hs. now apply framed_alloc.
        -- intros l. apply hoare_ret. intros s Hs. now split.
      * apply hoare_ret. intros s Hs. now split.
    + intros block. apply hoare_pure. intros Hblock.
      apply hoare_modify. intros s Hs. now apply framed_set.
Qed.

Lemma generate_dependency_framed data d0 le dep g :
  hoare (framed data d0 le) (TemplateEngine.generate_dependency data le dep g)
    (fun _ => framed data d0 le) (framed data d0 le).
Proof.
  assert (Hread : forall (A : Type) (f : store -> A),
    hoare (framed data d0 le) (reading (fun s => Ok (f s)))
      (fun _ => framed data d0 le) (framed data d0 le)).
  { intros A f. apply hoare_reading. auto. }
  assert (Hitem : forall k,
    hoare (framed data d0 le) (reading (fun s => py_getitem s (VDict data) k))
      (fun _ => framed data d0 le) (framed data d0 le)).
  { intros k. apply hoare_reading. intros s Hs.
    now destruct (py_getitem s (VDict data) k). }
  unfold TemplateEngine.generate_dependency, TemplateEngine.data_get.
  destruct (Str.startswith dep "comparison").
  - repeat (eapply hoare_bind; [apply Hread|intros ?]).
    destruct (_ && _); [|now apply hoare_ret].
    destruct (_ || _); [apply generate_into_framed|now apply hoare_ret].
  - destruct (Str.endswith dep "_answer").
    + repeat (eapply hoare_bind; [apply Hread|intros ?]).
      destruct (_ && _); [|now apply hoare_ret].
      repeat (eapply hoare_bind; [apply Hitem|intros ?]).
      apply generate_into_framed.
    + eapply hoare_bind; [apply Hread|intros has_p].
      destruct has_p; [|now apply hoare_ret].
      eapply hoare_bind; [apply Hitem|intros ?].
      apply generate_into_framed.
Qed.

(** the caller's mapping is [d0], none of whose values is the mapping *)
Lemma generate_content_blocks_framed e template data d0 :
  (forall kv, In kv d0 -> snd kv <> VDict data) ->
  hoare (fun s => s !! data = Some d0)
    (TemplateEngine._generate_content_blocks e template data)
    (framed data d0) (fun s => s !! data = Some d0).
Proof.
  intros Hd0. unfold TemplateEngine._generate_content_blocks.
  apply hoare_bind
    with (Q := fun copy s => s !! data = Some d0 /\ copy = d0).
  { apply hoare_reading. intros s Hs. split; [exact Hs|].
    unfold deref. now rewrite Hs. }
  intros copy. apply hoare_pure. intros ->.
  apply hoare_bind with (Q := framed data d0).
  { apply hoare_alloc. intros s Hs.
    pose proof (lookup_lt_Some _ _ _ Hs) as Hlt. repeat split.
    - now rewrite lookup_app_l.
    - exact Hlt.
    - rewrite length_app. simpl. lia.
    - unfold deref. rewrite lookup_app_r by lia.
      rewrite Nat.sub_diag. simpl. exact Hd0. }
  intros le.
  assert (Hloop : forall deps,
    hoare (framed data d0 le)
      (bind (for_each deps (fun dep =>
          bind (reading (fun s => Ok (dict_has (deref s le) dep)))
            (fun present =>
              match dict_get (block_generators e) dep with
              | Some g =>
                  if negb present
                  then try_ (TemplateEngine.generate_dependency data le dep g)
                  else ret tt
              | None => ret tt
              end))) (fun _ => ret le))
      (framed data d0) (fun s => s !! data = Some d0)).
  { intros deps. apply hoare_bind with (Q := fun _ => framed data d0 le).
    - apply hoare_for_each. intros dep _.
      apply hoare_bind with (Q := fun _ => framed data d0 le).
      + apply hoare_reading. auto.
      + intros present.
        destruct (dict_get (block_generators e) dep); [|now apply hoare_ret].
        destruct (negb present); [|now apply hoare_ret].
        apply hoare_try. apply generate_dependency_framed.
    - intros _. now apply hoare_ret. }
  destruct (dependencies template) as [[|d deps]|];
    [now apply hoare_ret|apply Hloop|now apply hoare_ret].
Qed.

Lemma render_framed template data d0 le :
  (forall field, In field (fields template) ->
                 default_value field <> VDict data) ->
  hoare (framed data d0 le) (JSONTemplateRenderer.render template le)
    (fun _ => framed data d0 le) (framed data d0 le).
Proof.
  intros Hdefault. unfold JSONTemplateRenderer.render.
  apply hoare_bind with (Q := fun _ => framed data d0 le).
  - apply hoare_fold_m with (J := fun _ => framed data d0 le).
    intros content field Hin. unfold JSONTemplateRenderer.render_field.
    apply hoare_bind with (Q := fun _ => framed data d0 le).
    + apply (process_field_inv (framed data d0 le) (fun l => l <> data)).
      * intros s d. apply framed_alloc.
      * intros s. apply framed_fresh.
      * intros s l. apply framed_pop.
      * intros s l (_ & _ & _ & Hv) Hraw.
        destruct (dict_get (deref s le) (name field)) as [v|] eqn:E;
          simpl in Hraw.
        -- subst v. apply dict_get_In in E. specialize (Hv _ E). simpl in Hv.
           congruence.
        -- specialize (Hdefault field Hin). congruence.
    + intros fv. destruct (_ || _); now apply hoare_ret.
  - intros content. now apply hoare_ret.
Qed.

Lemma render_template_framed e template_name data output_format d0 :
  (forall kv, In kv d0 -> snd kv <> VDict data) ->
  (forall template field,
     dict_get (templates e) template_name = Some template ->
     In field (fields template) -> default_value field <> VDict data) ->
  hoare (fun s => s !! data = Some d0)
    (TemplateEngine.render_template e template_name data output_format)
    (fun _ s => s !! data = Some d0) (fun s => s !! data = Some d0).
Proof.
  intros Hd0 Hdefault. unfold TemplateEngine.render_template.
  destruct (dict_get (templates e) template_name) as [template|] eqn:Ht;
    [|now apply hoare_raise].
  apply hoare_bind with (Q := fun _ s => s !! data = Some d0).
  { destruct (dependencies template) as [[|d deps]|];
      try (now apply hoare_ret).
    unfold TemplateEngine._check_dependencies.
    apply hoare_bind with (Q := fun _ s => s !! data = Some d0).
    - apply hoare_reading. auto.
    - intros missing. destruct (nonempty missing);
        [now apply hoare_raise|now apply hoare_ret]. }
  intros _. 
  apply hoare_bind with (Q := framed data d0).
  { now apply generate_content_blocks_framed. }
  intros le. destruct (dict_get (renderers e) output_format) as [[]|].
  - eapply hoare_conseq.
    + apply (render_framed template data d0 le). intros field Hin.
      now apply (Hdefault template).
    + auto.
    + intros a s Hs. apply Hs.
    + intros s Hs. apply Hs.
  - apply hoare_raise. intros s Hs. apply Hs.
Qed.

(** X20.  [render_template] works on a copy of the mapping it is given:
    when the mapping is an object of the store, and neither one of its own
    values nor the default of a field of the template, then when the call
    is over, whether it returned or raised, the caller's mapping has the
    keys it had, bound to the values it had. *)
Theorem render_template_keeps_caller_mapping
    e template_name data output_format s r s' :
  TemplateEngine.render_template e template_name data output_format s = (r, s') ->
  (data < length s)%nat ->
  (forall kv, In kv (deref s data) -> snd kv <> VDict data) ->
  (forall template field,
     dict_get (templates e) template_name = Some template ->
     In field (fields template) -> default_value field <> VDict data) ->
  s' !! data = s !! data.
Proof.
  intros Hrun Hvalid Hself Hdefault.
  unfold deref in Hself.
  destruct (s !! data) as [d0|] eqn:Hd0;
    [|apply lookup_ge_None in Hd0; lia].
  pose proof (render_template_framed e template_name data output_format d0
                Hself Hdefault s Hd0) as H.
  rewrite Hrun in H. now destruct r.
Qed.

(** ** The statements at work *)

(** C1 does not hold as stated: the optional field [subtitle]
    has no default and no value in the context, and yet it is a key of the
    content of the document, bound to [None]. *)
Lemma optional_field_emitted_as_null :
  default_value Examples.subtitle = VNone /\
  required Examples.subtitle = false /\
  dict_get (deref Examples.empty_context 0%nat) (name Examples.subtitle) = None /\
  exists doc s',
    JSONTemplateRenderer.render Examples.page 0%nat Examples.empty_context
    = (Ok doc, s') /\
    doc_content doc = [("subtitle", VNone)] /\
    In (name Examples.subtitle) (dict_keys (doc_content doc)).
Proof.
  repeat split. eexists. eexists. split; [reflexivity|].
  split; [reflexivity|]. now left.
Qed.

Lemma render_omission_law_witness :
  (required Examples.title = true ->
   ~ In (name Examples.title) (dict_keys [("subtitle", VNone)])) /\
  (required Examples.title = false ->
   In (name Examples.title) (dict_keys [("subtitle", VNone)]) /\
   dict_get [("subtitle", VNone)] (name Examples.title) = Some VNone).
Proof.
  apply (render_omission_law Examples.page 0%nat Examples.empty_context
           {| doc_template_name := "page"; doc_metadata := [];
              doc_content := [("subtitle", VNone)] |}
           Examples.empty_context Examples.title).
  - reflexivity.
  - simpl. lia.
  - simpl. constructor.
    + simpl. intros [H|[]]. discriminate H.
    + constructor; [simpl; tauto|constructor].
  - now left.
  - reflexivity.
  - reflexivity.
Defined.

Lemma unsatisfied_dependency_raised_witness :
  exists missing,
    missing <> [] /\
    (forall dep,
       In dep missing <->
       In dep ["nonexistent_block"] /\
       unsatisfied Examples.needy_engine Examples.empty_context 0%nat dep = true) /\
    TemplateEngine.render_template Examples.needy_engine "needy" 0%nat "json"
      Examples.empty_context
    = (Raise (ValueError (MissingDependencies missing)), Examples.empty_context).
Proof.
  apply (unsatisfied_dependency_raised Examples.needy_engine "needy"
           Examples.needy ["nonexistent_block"] 0%nat "json"
           Examples.empty_context).
  - reflexivity.
  - reflexivity.
  - exists "nonexistent_block". split; [now left|reflexivity].
Defined.

(** C4 does not hold as stated: with the unregistered format
    "xml" and the unsatisfied dependency "nonexistent_block", the failure
    is the one of the missing dependencies, not the one of the missing
    renderer. *)
Lemma dependencies_reported_not_renderer :
  dict_get (templates Examples.needy_engine) "needy" = Some Examples.needy /\
  dict_get (renderers Examples.needy_engine) "xml" = None /\
  unsatisfied Examples.needy_engine Examples.empty_context 0%nat
    "nonexistent_block" = true /\
  TemplateEngine.render_template Examples.needy_engine "needy" 0%nat "xml"
    Examples.empty_context
  = (Raise (ValueError (MissingDependencies ["nonexistent_block"])),
     Examples.empty_context) /\
  fst (TemplateEngine.render_template Examples.needy_engine "needy" 0%nat "xml"
         Examples.empty_context)
  <> Raise (ValueError (RendererNotFound "xml")).
Proof. repeat split. discriminate. Qed.

Lemma dependencies_checked_before_format_witness :
  ((exists deps dep,
      dependencies Examples.needy = Some deps /\ In dep deps /\
      unsatisfied Examples.needy_engine Examples.empty_context 0%nat dep = true) ->
   exists missing,
     missing <> [] /\
     TemplateEngine.render_template Examples.needy_engine "needy" 0%nat "xml"
       Examples.empty_context
     = (Raise (ValueError (MissingDependencies missing)),
        Examples.empty_context)) /\
  ((forall deps dep,
      dependencies Examples.needy = Some deps -> In dep deps ->
      unsatisfied Examples.needy_engine Examples.empty_context 0%nat dep = false) ->
   exists s',
     TemplateEngine.render_template Examples.needy_engine "needy" 0%nat "xml"
       Examples.empty_context
     = (Raise (ValueError (RendererNotFound "xml")), s')).
Proof.
  apply (dependencies_checked_before_format Examples.needy_engine "needy"
           Examples.needy 0%nat "xml" Examples.empty_context).
  - reflexivity.
  - reflexivity.
Defined.

(** C3, the code at the failing input: a block field with [content_only]
    set, given a mapping without a content key, raises [KeyError], and the
    render call raises with it. *)
Theorem block_field_content_only_raises :
  JSONTemplateRenderer._process_field Examples.summary 0%nat
    Examples.summary_context
  = (Raise (KeyError (VStr "content")), Examples.summary_context) /\
  JSONTemplateRenderer.render Examples.summary_page 0%nat
    Examples.summary_context
  = (Raise (KeyError (VStr "content")), Examples.summary_context).
Proof. split; reflexivity. Qed.

Lemma comparison_ingredients_counts_witness :
  exists block,
    ComparisonBlock.compare_ingredients
      [Examples.product_a; Examples.product_b] (VDict 0%nat) (VDict 1%nat)
    = Ok block /\
    fact block "common_ingredients"
    = Some (VInt (Z.of_nat (size (list_to_set ["X"; "Y"] ∩ list_to_set ["Y"; "Z"]
                                  : gset string)))) /\
    fact block "unique_a"
    = Some (VInt (Z.of_nat (size (list_to_set ["X"; "Y"] ∖ list_to_set ["Y"; "Z"]
                                  : gset string)))) /\
    fact block "unique_b"
    = Some (VInt (Z.of_nat (size (list_to_set ["Y"; "Z"] ∖ list_to_set ["X"; "Y"]
                                  : gset string)))) /\
    (["X"; "Y"] = ["X"; "Y"] -> ["Y"; "Z"] = ["Y"; "Z"] ->
     fact block "common_ingredients" = Some (VInt 1) /\
     fact block "unique_a" = Some (VInt 1) /\
     fact block "unique_b" = Some (VInt 1) /\
     content block
     = VStr ("Both products contain Y. "
             +:+ py_str [Examples.product_a; Examples.product_b] (VStr "A")
             +:+ " uniquely features X. "
             +:+ py_str [Examples.product_a; Examples.product_b] (VStr "B")
             +:+ " uniquely features Z.")).
Proof.
  apply (comparison_ingredients_counts
           [Examples.product_a; Examples.product_b] 0%nat 1%nat
           (VStr "A") (VStr "B") ["X"; "Y"] ["Y"; "Z"]); reflexivity.
Defined.



Lemma missing_attribute_reported_witness :
  reports_unavailable
    (call BenefitsBlock_generate [VDict 0%nat] [[("name", VStr "Serum")]])
    (unavailable_text BenefitsBlock_generate
       (shown_name [[("name", VStr "Serum")]] 0%nat)).
Proof.
  apply (missing_attribute_reported [[("name", VStr "Serum")]] 0%nat
           BenefitsBlock_generate).
  left. reflexivity.
Defined.

(** C8 does not hold as stated: the question "What is the
    price?" is answered by the price rule, and its [question_type] is
    "informational", not the "purchase" of the price rule. *)
Lemma price_question_classified_informational :
  first_match rule_list (Str.lower "What is the price?") = PriceRule /\
  exists b,
    QuestionAnswerBlock.generate_answer [Examples.nameless]
      (VStr "What is the price?") (VDict 0%nat) = Ok b /\
    content b = VStr "this product costs 699." /\
    fact b "question_type" = Some (VStr "informational") /\
    fact b "question_type" <> Some (VStr (rule_label PriceRule)).
Proof.
  split; [reflexivity|]. eexists. split; [reflexivity|].
  split; [reflexivity|]. split; [reflexivity|]. discriminate.
Qed.

Lemma answer_by_first_matching_rule_witness :
  first_match rule_list (Str.lower "What is the price?") = PriceRule /\
  QuestionAnswerBlock._classify_question "What is the price?" = "informational".
Proof.
  pose proof (answer_by_first_matching_rule [Examples.nameless]
                "What is the price?" (VDict 0%nat))
    as (_ & _ & Hprice & Hwhat).
  split; [apply Hprice; reflexivity|apply Hwhat; left; reflexivity].
Defined.

(** C9, the code at the failing input: the first render call removes the
    metadata from the full record of the first product, in place; the
    record is empty from then on, so the second call, on the same context,
    compares another record and returns another document. *)
Theorem second_render_differs :
  exists doc1 s1 doc2 s2,
    TemplateEngine.render_template Examples.comparison_engine "comparison"
      0%nat "json" Examples.comparison_context = (Ok doc1, s1) /\
    TemplateEngine.render_template Examples.comparison_engine "comparison"
      0%nat "json" s1 = (Ok doc2, s2) /\
    s1 !! 0%nat = Examples.comparison_context !! 0%nat /\
    Examples.block_text s2 doc1 "comparison_ingredients"
    = Some (VStr "B uniquely features Z.") /\
    Examples.block_text s2 doc2 "comparison_ingredients"
    = Some (VStr "A uniquely features X. B uniquely features Z.") /\
    snapshot 3 s2 doc1 <> snapshot 3 s2 doc2.
Proof.
  eexists. eexists. eexists. eexists.
  split; [vm_compute; reflexivity|].
  split; [vm_compute; reflexivity|].
  split; [reflexivity|]. split; [reflexivity|]. split; [reflexivity|].
  intros H. vm_compute in H. discriminate H.
Qed.

(** C10, the code at the failing input: the context is one of its own
    values, under the name of a block field that leaves the metadata out.
    Dependency resolution copies the context; the block field, whose raw
    value is the caller's mapping itself, removes "metadata" from it in
    place.  When the call is over the caller's mapping has lost a key. *)
Theorem render_removes_key_of_caller_mapping :
  exists doc s',
    TemplateEngine.render_template Examples.self_engine "self_page" 0%nat
      "json" Examples.self_context = (Ok doc, s') /\
    doc_content doc = [("me", VDict 0%nat)] /\
    dict_keys (deref Examples.self_context 0%nat) = ["metadata"; "me"] /\
    dict_keys (deref s' 0%nat) = ["me"] /\
    s' !! 0%nat <> Examples.self_context !! 0%nat.
Proof.
  eexists. eexists. split; [vm_compute; reflexivity|].
  split; [reflexivity|]. split; [reflexivity|]. split; [reflexivity|].
  discriminate.
Qed.

Lemma render_template_keeps_caller_mapping_witness :
  snd (TemplateEngine.render_template Examples.comparison_engine "comparison"
         0%nat "json" Examples.comparison_context) !! 0%nat
  = Examples.comparison_context !! 0%nat.
Proof.
  apply (render_template_keeps_caller_mapping Examples.comparison_engine
           "comparison" 0%nat "json" Examples.comparison_context
           (fst (TemplateEngine.render_template Examples.comparison_engine
                   "comparison" 0%nat "json" Examples.comparison_context))).
  - apply surjective_pairing.
  - simpl. lia.
  - simpl. intros kv [<-|[<-|[<-|[]]]]; discriminate.
  - intros template field Ht Hin. vm_compute in Ht. inversion Ht; subst.
    destruct Hin as [<-|[<-|[]]]; discriminate.
Defined.


(** * Further properties *)

(** ** The registry of templates *)

Lemma dict_keys_set_present {A} (d : list (string * A)) k v :
  In k (dict_keys d) -> dict_keys (dict_set d k v) = dict_keys d.
Proof.
  unfold dict_keys. induction d as [|[k0 v0] d IH]; simpl; [tauto|].
  destruct (String.eqb k0 k) eqn:E; simpl.
  - apply String.eqb_eq in E. now subst.
  - apply String.eqb_neq in E. intros [H|H]; [contradiction|]. now rewrite IH.
Qed.

Lemma dict_keys_set_absent {A} (d : list (string * A)) k v :
  ~ In k (dict_keys d) -> dict_keys (dict_set d k v) = dict_keys d ++ [k].
Proof.
  unfold dict_keys. induction d as [|[k0 v0] d IH]; simpl; [reflexivity|].
  intros H. destruct (String.eqb k0 k) eqn:E; simpl.
  - apply String.eqb_eq in E. destruct H. now left.
  - rewrite IH; [reflexivity|]. tauto.
Qed.

(** X1.  A registered template is the one [get_template] returns under
    its name, whatever was registered under that name before; the other
    names are as they were; the name is listed once more only if it was not
    listed, and then last. *)
Theorem register_template_get e template :
  TemplateEngine.get_template (TemplateEngine.register_template e template)
    (tpl_name template) = Some template /\
  (forall n, n <> tpl_name template ->
     TemplateEngine.get_template (TemplateEngine.register_template e template) n
     = TemplateEngine.get_template e n) /\
  (In (tpl_name template) (TemplateEngine.list_templates e) ->
   TemplateEngine.list_templates (TemplateEngine.register_template e template)
   = TemplateEngine.list_templates e) /\
  (~ In (tpl_name template) (TemplateEngine.list_templates e) ->
   TemplateEngine.list_templates (TemplateEngine.register_template e template)
   = TemplateEngine.list_templates e ++ [tpl_name template]).
Proof.
  unfold TemplateEngine.get_template, TemplateEngine.list_templates,
    TemplateEngine.register_template. simpl. split; [|split; [|split]].
  - apply dict_get_set_eq.
  - intros n Hn. apply dict_get_set_ne. congruence.
  - apply dict_keys_set_present.
  - apply dict_keys_set_absent.
Qed.

(** ** What dependency resolution does to the store *)

Section ResolverInvariant.

(** [P] is a property of the store that new objects do not disturb, nor
    binding [dep] in the enriched copy. *)
Variable P : store -> Prop.
Variable enriched_data : loc.
Variable dep : string.
Hypothesis P_alloc : forall s d, P s -> P (s ++ [d]).
Hypothesis P_set : forall s v,
  P s -> P (<[enriched_data := dict_set (deref s enriched_data) dep v]> s).

Lemma generate_into_inv g args :
  hoare P (TemplateEngine.generate_into enriched_data dep g args)
    (fun _ => P) P.
Proof.
  unfold TemplateEngine.generate_into.
  apply hoare_bind with (Q := fun _ => P).
  - apply hoare_reading. intros s Hs. now destruct (call g args s).
  - intros b. apply hoare_bind with (Q := fun _ => P).
    + unfold new_block. destruct (metadata b) as [d|].
      * apply hoare_bind with (Q := fun _ => P).
        -- apply hoare_alloc. auto.
        -- intros l. now apply hoare_ret.
      * now apply hoare_ret.
    + intros block. apply hoare_modify. auto.
Qed.

Lemma generate_dependency_inv data g :
  hoare P (TemplateEngine.generate_dependency data enriched_data dep g)
    (fun _ => P) P.
Proof.
  assert (Hread : forall (A : Type) (f : store -> A),
    hoare P (reading (fun s => Ok (f s))) (fun _ => P) P).
  { intros A f. apply hoare_reading. auto. }
  assert (Hitem : forall k,
    hoare P (reading (fun s => py_getitem s (VDict data) k)) (fun _ => P) P).
  { intros k. apply hoare_reading. intros s Hs.
    now destruct (py_getitem s (VDict data) k). }
  unfold TemplateEngine.generate_dependency, TemplateEngine.data_get.
  destruct (Str.startswith dep "comparison").
  - repeat (eapply hoare_bind; [apply Hread|intros ?]).
    destruct (_ && _); [|now apply hoare_ret].
    destruct (_ || _); [apply generate_into_inv|now apply hoare_ret].
  - destruct (Str.endswith dep "_answer").
    + repeat (eapply hoare_bind; [apply Hread|intros ?]).
      destruct (_ && _); [|now apply hoare_ret].
      repeat (eapply hoare_bind; [apply Hitem|intros ?]).
      apply generate_into_inv.
    + eapply hoare_bind; [apply Hread|intros has_p].
      destruct has_p; [|now apply hoare_ret].
      eapply hoare_bind; [apply Hitem|intros ?].
      apply generate_into_inv.
Qed.

End ResolverInvariant.

Lemma enriched_alloc d0 deps le s d :
  enriched d0 deps le s -> enriched d0 deps le (s ++ [d]).
Proof.
  intros (Hle & Hget & Hkeys). split; [|split].
  - rewrite length_app. lia.
  - intros k v. rewrite deref_app by assumption. apply Hget.
  - intros k. rewrite deref_app by assumption. apply Hkeys.
Qed.

Lemma enriched_set d0 deps le s dep v :
  dict_get d0 dep = None -> In dep deps ->
  enriched d0 deps le s ->
  enriched d0 deps le (<[le := dict_set (deref s le) dep v]> s).
Proof.
  intros Hnone Hdep (Hle & Hget & Hkeys). split; [|split].
  - now rewrite length_insert.
  - intros k w Hk. rewrite deref_insert_eq by assumption.
    rewrite dict_get_set_ne; [now apply Hget|]. congruence.
  - intros k. rewrite deref_insert_eq by assumption.
    rewrite dict_keys_set. intros [->|H]; [now right|now apply Hkeys].
Qed.

Lemma resolve_loop_enriched e data d0 all_deps le deps :
  incl deps all_deps ->
  hoare (enriched d0 all_deps le)
    (for_each deps (fun dep =>
       bind (reading (fun s => Ok (dict_has (deref s le) dep)))
         (fun present =>
            match dict_get (block_generators e) dep with
            | Some g =>
                if negb present
                then try_ (TemplateEngine.generate_dependency data le dep g)
                else ret tt
            | None => ret tt
            end)))
    (fun _ => enriched d0 all_deps le) (fun _ => False).
Proof.
  intros Hincl. apply hoare_for_each. intros dep Hdep.
  apply hoare_bind
    with (Q := fun present s =>
                 enriched d0 all_deps le s /\
                 (present = false -> dict_get d0 dep = None)).
  - apply hoare_reading. intros s Hs. split; [exact Hs|].
    intros Hp. apply dict_has_false in Hp.
    destruct (dict_get d0 dep) as [v|] eqn:E; [|reflexivity].
    destruct Hs as (_ & Hget & _). rewrite (Hget _ _ E) in Hp. discriminate.
  - intros present. apply hoare_pure. intros Hnone.
    destruct (dict_get (block_generators e) dep); [|now apply hoare_ret].
    destruct present; simpl; [now apply hoare_ret|].
    apply hoare_try.
    apply (generate_dependency_inv (enriched d0 all_deps le) le dep).
    + intros s d. apply enriched_alloc.
    + intros s v. apply enriched_set; auto.
Qed.

(** X2.  Dependency resolution always returns, whatever the generators
    do: it gives a new object, a copy of the context in which every key of
    the context is bound as the context binds it, and whose other keys are
    declared dependencies of the template. *)
Theorem enrichment_keeps_context e template data s :
  exists le s',
    TemplateEngine._generate_content_blocks e template data s = (Ok le, s') /\
    le = length s /\
    (forall k v, dict_get (deref s data) k = Some v ->
                 dict_get (deref s' le) k = Some v) /\
    (forall k, In k (dict_keys (deref s' le)) ->
               In k (dict_keys (deref s data)) \/
               exists deps, dependencies template = Some deps /\ In k deps).
Proof.
  set (d0 := deref s data).
  set (deps := match dependencies template with Some l => l | None => [] end).
  assert (Hstart : enriched d0 deps (length s) (s ++ [d0])).
  { split; [|split].
    - rewrite length_app. simpl. lia.
    - intros k v Hk. unfold deref. rewrite lookup_app_r by lia.
      now rewrite Nat.sub_diag.
    - intros k. unfold deref. rewrite lookup_app_r by lia.
      rewrite Nat.sub_diag. simpl. now left. }
  assert (Hend : forall s', enriched d0 deps (length s) s' ->
    (forall k v, dict_get d0 k = Some v ->
                 dict_get (deref s' (length s)) k = Some v) /\
    (forall k, In k (dict_keys (deref s' (length s))) ->
               In k (dict_keys d0) \/
               exists deps, dependencies template = Some deps /\ In k deps)).
  { intros s' (_ & Hget & Hkeys). split; [exact Hget|].
    intros k Hk. destruct (Hkeys k Hk) as [H|H]; [now left|right].
    unfold deps in H. destruct (dependencies template) as [l|]; [eauto|].
    destruct H. }
  unfold TemplateEngine._generate_content_blocks, bind at 1 2, reading, alloc.
  fold d0.
  destruct (dependencies template) as [[|dep rest]|] eqn:Hd.
  - exists (length s), (s ++ [d0]). split; [reflexivity|].
    split; [reflexivity|]. now apply Hend.
  - pose proof (resolve_loop_enriched e data d0 deps (length s) (dep :: rest))
      as Hloop.
    unfold deps in Hloop at 1. specialize (Hloop (incl_refl _) _ Hstart).
    unfold bind.
    destruct (for_each (dep :: rest) _ (s ++ [d0])) as [[u|ex] s'] eqn:E;
      [|destruct Hloop].
    exists (length s), s'. split; [reflexivity|]. split; [reflexivity|].
    now apply Hend.
  - exists (length s), (s ++ [d0]). split; [reflexivity|].
    split; [reflexivity|]. now apply Hend.
Qed.

(** ** What a render call does to the objects there are *)

Lemma dict_get_pop_ne {A} (d : list (string * A)) k k' :
  k <> k' -> dict_get (dict_pop d k') k = dict_get d k.
Proof.
  intros Hne. induction d as [|[k0 v0] d IH]; simpl; [reflexivity|].
  destruct (String.eqb k0 k') eqn:E'; simpl.
  - apply String.eqb_eq in E'. subst k0.
    destruct (String.eqb k' k) eqn:E; [|reflexivity].
    apply String.eqb_eq in E. congruence.
  - now rewrite IH.
Qed.

Lemma kept_refl s : kept s s.
Proof.
  split; [lia|]. intros l _. split; [apply incl_refl|reflexivity].
Qed.

Lemma kept_alloc s0 s d : kept s0 s -> kept s0 (s ++ [d]).
Proof.
  intros [Hlen H]. split.
  - rewrite length_app. lia.
  - intros l Hl. rewrite deref_app by lia. now apply H.
Qed.

Lemma kept_pop s0 s l :
  kept s0 s -> kept s0 (<[l := dict_pop (deref s l) "metadata"]> s).
Proof.
  intros [Hlen H]. split.
  - now rewrite length_insert.
  - intros l' Hl'. destruct (H l' Hl') as [Hincl Hget].
    destruct (Nat.eq_dec l l') as [->|Hne].
    + rewrite deref_insert_eq by lia. split.
      * eapply incl_tran; [apply dict_pop_incl|exact Hincl].
      * intros k Hk. rewrite dict_get_pop_ne by assumption. now apply Hget.
    + rewrite deref_insert_ne by assumption. now split.
Qed.

Lemma kept_with_alloc s0 le s d : kept_with s0 le s -> kept_with s0 le (s ++ [d]).
Proof.
  intros (Hk & H1 & H2). split; [now apply kept_alloc|].
  rewrite length_app. lia.
Qed.

Lemma kept_with_pop s0 le s l :
  kept_with s0 le s -> kept_with s0 le (<[l := dict_pop (deref s l) "metadata"]> s).
Proof.
  intros (Hk & H1 & H2). split; [now apply kept_pop|].
  rewrite length_insert. lia.
Qed.

Lemma kept_with_set s0 le s k v :
  kept_with s0 le s -> kept_with s0 le (<[le := dict_set (deref s le) k v]> s).
Proof.
  intros ([Hlen H] & H1 & H2). split; [split|].
  - now rewrite length_insert.
  - intros l Hl. rewrite deref_insert_ne by lia. now apply H.
  - rewrite length_insert. lia.
Qed.

Lemma generate_content_blocks_kept e template data s0 :
  hoare (kept s0) (TemplateEngine._generate_content_blocks e template data)
    (kept_with s0) (fun _ => False).
Proof.
  unfold TemplateEngine._generate_content_blocks.
  apply hoare_bind with (Q := fun _ => kept s0).
  { apply hoare_reading. auto. }
  intros copy. apply hoare_bind with (Q := kept_with s0).
  { apply hoare_alloc. intros s Hs. split; [now apply kept_alloc|].
    destruct Hs as [Hlen _]. rewrite length_app. simpl. lia. }
  intros le.
  assert (Hloop : forall deps,
    hoare (kept_with s0 le)
      (bind (for_each deps (fun dep =>
          bind (reading (fun s => Ok (dict_has (deref s le) dep)))
            (fun present =>
              match dict_get (block_generators e) dep with
              | Some g =>
                  if negb present
                  then try_ (TemplateEngine.generate_dependency data le dep g)
                  else ret tt
              | None => ret tt
              end))) (fun _ => ret le))
      (kept_with s0) (fun _ => False)).
  { intros deps. apply hoare_bind with (Q := fun _ => kept_with s0 le).
    - apply hoare_for_each. intros dep _.
      apply hoare_bind with (Q := fun _ => kept_with s0 le).
      + apply hoare_reading. auto.
      + intros present.
        destruct (dict_get (block_generators e) dep); [|now apply hoare_ret].
        destruct (negb present); [|now apply hoare_ret].
        apply hoare_try.
        apply (generate_dependency_inv (kept_with s0 le) le dep).
        * intros s d. apply kept_with_alloc.
        * intros s v. apply kept_with_set.
    - intros _. now apply hoare_ret. }
  destruct (dependencies template) as [[|d deps]|];
    [now apply hoare_ret|apply Hloop|now apply hoare_ret].
Qed.

Lemma render_kept template s0 le :
  hoare (kept_with s0 le) (JSONTemplateRenderer.render template le)
    (fun _ => kept_with s0 le) (kept_with s0 le).
Proof.
  unfold JSONTemplateRenderer.render.
  apply hoare_bind with (Q := fun _ => kept_with s0 le).
  - apply hoare_fold_m with (J := fun _ => kept_with s0 le).
    intros content field Hin. unfold JSONTemplateRenderer.render_field.
    apply hoare_bind with (Q := fun _ => kept_with s0 le).
    + apply (process_field_inv (kept_with s0 le) (fun _ => True)); auto.
      * intros s d. apply kept_with_alloc.
      * intros s l Hs _. now apply kept_with_pop.
    + intros fv. destruct (_ || _); now apply hoare_ret.
  - intros content. now apply hoare_ret.
Qed.

Lemma render_template_kept e template_name data output_format s0 :
  hoare (kept s0)
    (TemplateEngine.render_template e template_name data output_format)
    (fun _ => kept s0) (kept s0).
Proof.
  unfold TemplateEngine.render_template.
  destruct (dict_get (templates e) template_name) as [template|];
    [|now apply hoare_raise].
  apply hoare_bind with (Q := fun _ => kept s0).
  { destruct (dependencies template) as [[|d deps]|];
      try (now apply hoare_ret).
    unfold TemplateEngine._check_dependencies.
    apply hoare_bind with (Q := fun _ => kept s0).
    - apply hoare_reading. auto.
    - intros missing. destruct (nonempty missing);
        [now apply hoare_raise|now apply hoare_ret]. }
  intros _. apply hoare_bind with (Q := kept_with s0).
  { eapply hoare_conseq; [apply generate_content_blocks_kept| | |].
    - intros s Hs. exact Hs.
    - intros a s Hs. exact Hs.
    - intros s []. }
  intros le. destruct (dict_get (renderers e) output_format) as [[]|].
  - eapply hoare_conseq; [apply (render_kept template s0 le)| | |].
    + intros s Hs. exact Hs.
    + intros a s Hs. apply Hs.
    + intros s Hs. apply Hs.
  - apply hoare_raise. intros s Hs. apply Hs.
Qed.

(** X3.  Whatever the template, the context and the outcome, a render
    call leaves every object of the store in place, adds no entry to any
    of them, and changes the binding of no key other than "metadata": the
    removal of that key by a block field is the only change it ever makes
    to an object it did not create. *)
Theorem render_only_removes_metadata
    e template_name data output_format s r s' :
  TemplateEngine.render_template e template_name data output_format s = (r, s') ->
  (length s <= length s')%nat /\
  forall l, (l < length s)%nat ->
    incl (deref s' l) (deref s l) /\
    forall k, k <> "metadata" ->
              dict_get (deref s' l) k = dict_get (deref s l) k.
Proof.
  intros Hrun.
  pose proof (render_template_kept e template_name data output_format s s
                (kept_refl s)) as H.
  rewrite Hrun in H. now destruct r.
Qed.

Lemma render_only_removes_metadata_witness :
  (length Examples.comparison_context
   <= length (snd (TemplateEngine.render_template Examples.comparison_engine
                     "comparison" 0%nat "json" Examples.comparison_context)))%nat /\
  forall l, (l < length Examples.comparison_context)%nat ->
    incl (deref (snd (TemplateEngine.render_template Examples.comparison_engine
                        "comparison" 0%nat "json" Examples.comparison_context)) l)
         (deref Examples.comparison_context l) /\
    forall k, k <> "metadata" ->
      dict_get (deref (snd (TemplateEngine.render_template
                              Examples.comparison_engine
                              "comparison" 0%nat "json"
                              Examples.comparison_context)) l) k
      = dict_get (deref Examples.comparison_context l) k.
Proof.
  apply (render_only_removes_metadata Examples.comparison_engine "comparison"
           0%nat "json" Examples.comparison_context
           (fst (TemplateEngine.render_template Examples.comparison_engine
                   "comparison" 0%nat "json" Examples.comparison_context))).
  apply surjective_pairing.
Defined.

(** ** Templates whose rendering cannot raise *)

Lemma returns_reading_ok {A} (f : store -> outcome A) :
  (forall s, exists a, f s = Ok a) -> returns (reading f).
Proof.
  intros H s. destruct (H s) as [a E]. exists a, s. unfold reading. now rewrite E.
Qed.

Lemma returns_modify l f : returns (modify l f).
Proof. intros s. now eexists; eexists. Qed.

Lemma returns_fold_m {A B} (f : B -> A -> M B) xs :
  (forall acc x, In x xs -> returns (f acc x)) ->
  forall acc, returns (fold_m f xs acc).
Proof.
  induction xs as [|x xs IH]; intros H acc; simpl.
  - apply returns_ret.
  - apply returns_bind; [apply H; now left|].
    intros acc'. apply IH. intros a y Hy. apply H. now right.
Qed.

Lemma unset_falsy s v : unset v = true -> truthy s v = false.
Proof. destruct v as [|[|]| | | | |]; simpl; congruence. Qed.

Lemma is_index_ok s v :
  is_index v = true -> truthy s v = false \/ exists n, as_index v = Ok n.
Proof.
  destruct v; simpl; try discriminate; intros _; eauto.
Qed.

Lemma process_text_field_returns s raw formatting :
  is_index (option_of formatting "max_length") = true ->
  exists v, JSONTemplateRenderer._process_text_field s raw formatting = Ok v.
Proof.
  intros H. unfold JSONTemplateRenderer._process_text_field.
  destruct (given formatting); [|eauto].
  destruct (is_index_ok s _ H) as [Hf|[n Hn]].
  - rewrite Hf. eauto.
  - rewrite Hn. simpl. destruct (truthy s _); eauto.
Qed.

Lemma process_list_field_returns s raw formatting :
  is_index (option_of formatting "max_items") = true ->
  unset (option_of formatting "unique") = true ->
  exists v, JSONTemplateRenderer._process_list_field s raw formatting = Ok v.
Proof.
  intros Hi Hu. unfold JSONTemplateRenderer._process_list_field.
  destruct (given formatting); [|eauto].
  rewrite (unset_falsy s _ Hu).
  destruct (is_index_ok s _ Hi) as [Hf|[n Hn]].
  - rewrite Hf. simpl. eauto.
  - rewrite Hn. simpl. destruct (truthy s _); simpl; eauto.
Qed.

Lemma process_block_field_returns raw formatting :
  unset (option_of formatting "content_only") = true ->
  returns (JSONTemplateRenderer._process_block_field raw formatting).
Proof.
  intros Hu. unfold JSONTemplateRenderer._process_block_field.
  apply returns_bind.
  - assert (Hother : forall text_of : store -> string,
      returns (bind (reading (fun s => Ok (text_of s)))
                 (fun text =>
                    alloc [("content", VStr text); ("type", VStr "text")]))).
    { intros text_of. apply returns_bind; [apply returns_reading|].
      intros text. apply returns_alloc. }
    destruct raw as [| | | | |l|bt c md]; try apply Hother.
    + apply returns_ret.
    + apply returns_bind; [|intros m; apply returns_alloc].
      intros s. destruct md as [l|]; simpl.
      * destruct (nonempty (deref s l)); simpl; eauto.
      * eauto.
  - intros result. destruct (given formatting); [|apply returns_ret].
    apply returns_bind.
    + destruct (option_of formatting "include_metadata") as [|[|]| | | | |];
        try apply returns_ret. apply returns_modify.
    + intros _. intros s. unfold bind, reading.
      rewrite (unset_falsy s _ Hu). now eexists; eexists.
Qed.

Lemma process_structured_field_returns raw formatting :
  returns (JSONTemplateRenderer._process_structured_field raw formatting).
Proof.
  unfold JSONTemplateRenderer._process_structured_field.
  assert (Hwrap : returns (bind (alloc [("value", raw)])
                             (fun l => ret (VDict l)))).
  { apply returns_bind; [apply returns_alloc|intros; apply returns_ret]. }
  destruct raw; try exact Hwrap. apply returns_ret.
Qed.

Lemma process_field_returns field data :
  well_formatted field = true ->
  returns (JSONTemplateRenderer._process_field field data).
Proof.
  unfold well_formatted. intros Hw.
  unfold JSONTemplateRenderer._process_field.
  apply returns_bind; [apply returns_reading|]. intros raw.
  assert (Hrest : returns
    (if String.eqb (field_type field) "text" then
       reading (fun s =>
         JSONTemplateRenderer._process_text_field s raw (formatting field))
     else if String.eqb (field_type field) "list" then
       reading (fun s =>
         JSONTemplateRenderer._process_list_field s raw (formatting field))
     else if String.eqb (field_type field) "block" then
       JSONTemplateRenderer._process_block_field raw (formatting field)
     else if String.eqb (field_type field) "structured" then
       JSONTemplateRenderer._process_structured_field raw (formatting field)
     else ret raw)).
  { destruct (String.eqb (field_type field) "text").
    { apply returns_reading_ok. intros s.
      now apply process_text_field_returns. }
    destruct (String.eqb (field_type field) "list").
    { apply andb_true_iff in Hw as [Hi Hu].
      apply returns_reading_ok. intros s.
      now apply process_list_field_returns. }
    destruct (String.eqb (field_type field) "block").
    { now apply process_block_field_returns. }
    destruct (String.eqb (field_type field) "structured").
    { apply process_structured_field_returns. }
    apply returns_ret. }
  destruct raw; try exact Hrest. apply returns_ret.
Qed.

Lemma render_returns template data :
  forallb well_formatted (fields template) = true ->
  returns (JSONTemplateRenderer.render template data).
Proof.
  intros Hw. unfold JSONTemplateRenderer.render.
  apply returns_bind; [|intros; apply returns_ret].
  apply returns_fold_m. intros acc field Hin.
  unfold JSONTemplateRenderer.render_field.
  apply returns_bind.
  - apply process_field_returns.
    rewrite forallb_forall in Hw. now apply Hw.
  - intros fv. destruct (_ || _); apply returns_ret.
Qed.

Lemma render_template_returns
    e template_name template data output_format renderer s :
  dict_get (templates e) template_name = Some template ->
  dict_get (renderers e) output_format = Some renderer ->
  (forall deps dep, dependencies template = Some deps -> In dep deps ->
                    unsatisfied e s data dep = false) ->
  forallb well_formatted (fields template) = true ->
  exists doc s',
    TemplateEngine.render_template e template_name data output_format s
    = (Ok doc, s').
Proof.
  intros Ht Hr Hsat Hw.
  unfold TemplateEngine.render_template. rewrite Ht, Hr.
  assert (Hcheck :
    (match dependencies template with
     | None | Some [] => ret tt
     | Some deps => TemplateEngine._check_dependencies e deps data
     end) s = (Ok tt, s)).
  { destruct (dependencies template) as [[|d deps]|] eqn:Hd; try reflexivity.
    apply check_dependencies_passes. intros dep Hin. now apply (Hsat (d :: deps)). }
  unfold bind at 1. rewrite Hcheck.
  destruct (generate_content_blocks_returns e template data s) as (l & s1 & E).
  unfold bind. rewrite E. destruct renderer. simpl.
  destruct (render_returns template l Hw s1) as (doc & s2 & E2).
  exists doc, s2. exact E2.
Qed.

(** X4.  A render call returns a document whenever the template is
    registered, the format has a renderer, every declared dependency is in
    the context or has a generator, no field carries an option that can
    make its coercion raise ([max_length] and [max_items] are integers when
    they are set, [unique] is not set on a list field, [content_only] is
    not set on a block field), and what the text and block fields convert
    to text is plain.  The raw values of the other fields, and the dicts
    and blocks under block fields, may be of any shape. *)
Theorem well_formatted_render_returns
    e template_name template data output_format renderer s :
  dict_get (templates e) template_name = Some template ->
  dict_get (renderers e) output_format = Some renderer ->
  (forall deps dep, dependencies template = Some deps -> In dep deps ->
                    unsatisfied e s data dep = false) ->
  forallb well_formatted (fields template) = true ->
  forallb (converts_plain s data template) (fields template) = true ->
  exists doc s',
    TemplateEngine.render_template e template_name data output_format s
    = (Ok doc, s').
Proof.
  intros Ht Hr Hsat Hw _.
  now apply (render_template_returns e template_name template data
               output_format renderer s).
Qed.

Lemma well_formatted_render_returns_witness :
  exists doc s',
    TemplateEngine.render_template Examples.comparison_engine "comparison"
      0%nat "json" Examples.comparison_context
    = (Ok doc, s').
Proof.
  apply (well_formatted_render_returns Examples.comparison_engine "comparison"
           Examples.comparison 0%nat "json" JSONTemplateRenderer
           Examples.comparison_context).
  - reflexivity.
  - reflexivity.
  - intros deps dep [= <-] [<-|[]]. reflexivity.
  - reflexivity.
  - reflexivity.
Defined.

(** X5.  The product page and the comparison page that come with the
    engine render for every context in which what their text and block
    fields convert to text is plain: none of their fields has an option
    that can raise, and each of their dependencies has a generator. *)
Theorem shipped_pages_always_render data s :
  (forallb (converts_plain s data create_product_template)
     (fields create_product_template) = true ->
   exists doc s',
     TemplateEngine.render_template template_engine "product_page" data "json" s
     = (Ok doc, s')) /\
  (forallb (converts_plain s data create_comparison_template)
     (fields create_comparison_template) = true ->
   exists doc s',
     TemplateEngine.render_template template_engine "comparison_page" data
       "json" s
     = (Ok doc, s')).
Proof.
  split; intros _.
  - apply (render_template_returns template_engine "product_page"
             create_product_template data "json" JSONTemplateRenderer s);
      try reflexivity.
    intros deps dep [= <-] Hin. unfold unsatisfied.
    simpl in Hin.
    repeat (destruct Hin as [<-|Hin]; [now rewrite andb_comm|]).
    destruct Hin.
  - apply (render_template_returns template_engine "comparison_page"
             create_comparison_template data "json" JSONTemplateRenderer s);
      try reflexivity.
    intros deps dep [= <-] Hin. unfold unsatisfied.
    simpl in Hin.
    repeat (destruct Hin as [<-|Hin]; [now rewrite andb_comm|]).
    destruct Hin.
Qed.

Lemma shipped_pages_always_render_witness :
  (exists doc s',
     TemplateEngine.render_template template_engine "product_page" 0%nat
       "json" product_context
     = (Ok doc, s')) /\
  (exists doc s',
     TemplateEngine.render_template template_engine "comparison_page" 0%nat
       "json" Examples.comparison_context
     = (Ok doc, s')).
Proof.
  split.
  - apply (proj1 (shipped_pages_always_render 0%nat product_context)).
    reflexivity.
  - apply (proj2 (shipped_pages_always_render 0%nat
                    Examples.comparison_context)).
    reflexivity.
Defined.

(** ** The content of a document *)

Lemma render_field_result data content field s content' s' :
  JSONTemplateRenderer.render_field data content field s = (Ok content', s') ->
  content' = content \/
  exists v, content' = dict_set content (name field) v /\
            (required field = true -> v <> VNone).
Proof.
  unfold JSONTemplateRenderer.render_field, bind.
  destruct (JSONTemplateRenderer._process_field field data s) as [[fv|ex] s1];
    [|discriminate].
  destruct (negb (JSONTemplateRenderer.is_none fv) || negb (required field))
    eqn:E; unfold ret; intros [= <- <-]; [|now left].
  right. exists fv. split; [reflexivity|].
  intros Hreq ->. rewrite Hreq in E. discriminate.
Qed.

Lemma NoDup_keys_set {A} (d : list (string * A)) k v :
  List.NoDup (dict_keys d) -> List.NoDup (dict_keys (dict_set d k v)).
Proof.
  intros H. destruct (in_dec string_dec k (dict_keys d)) as [Hin|Hin].
  - now rewrite dict_keys_set_present.
  - rewrite dict_keys_set_absent by assumption.
    apply NoDup_ListNoDup. apply NoDup_app. repeat split.
    + now apply NoDup_ListNoDup.
    + intros x Hx Hx'. apply list_elem_of_In in Hx.
      apply list_elem_of_In in Hx'. destruct Hx' as [<-|[]]. contradiction.
    + apply NoDup_ListNoDup. constructor; [tauto|constructor].
Qed.

Lemma render_fields_keys data names xs : forall content s content' s',
  fold_m (JSONTemplateRenderer.render_field data) xs content s
  = (Ok content', s') ->
  incl (map name xs) names ->
  incl (dict_keys content) names -> List.NoDup (dict_keys content) ->
  incl (dict_keys content') names /\ List.NoDup (dict_keys content').
Proof.
  induction xs as [|x xs IH]; simpl; intros content s content' s' Hrun Hxs Hin Hnd.
  - unfold ret in Hrun. inversion Hrun; subst. now split.
  - unfold bind in Hrun.
    destruct (JSONTemplateRenderer.render_field data content x s)
      as [[c1|ex] s1] eqn:E; [|discriminate].
    apply (IH c1 s1 content' s' Hrun).
    + intros n Hn. apply Hxs. now right.
    + destruct (render_field_result _ _ _ _ _ _ E) as [->|(v & -> & _)];
        [exact Hin|].
      intros k Hk. apply dict_keys_set in Hk as [->|Hk]; [|now apply Hin].
      apply Hxs. now left.
    + destruct (render_field_result _ _ _ _ _ _ E) as [->|(v & -> & _)];
        [exact Hnd|]. now apply NoDup_keys_set.
Qed.

(** X6.  The document a render returns carries the name of the
    template; every key of its content is the name of a field of the
    template, and no key occurs twice, also when two fields share a
    name. *)
Theorem content_keys_are_field_names template data s doc s' :
  JSONTemplateRenderer.render template data s = (Ok doc, s') ->
  doc_template_name doc = tpl_name template /\
  incl (dict_keys (doc_content doc)) (map name (fields template)) /\
  List.NoDup (dict_keys (doc_content doc)).
Proof.
  unfold JSONTemplateRenderer.render, bind. intros Hrun.
  destruct (fold_m (JSONTemplateRenderer.render_field data) (fields template)
              [] s) as [[content|ex] s1] eqn:E; [|discriminate].
  unfold ret in Hrun. inversion Hrun; subst. simpl.
  split; [reflexivity|].
  apply (render_fields_keys data (map name (fields template))
           (fields template) [] s content s' E).
  - apply incl_refl.
  - intros k [].
  - constructor.
Qed.

Lemma content_keys_are_field_names_witness :
  doc_template_name
    {| doc_template_name := "page"; doc_metadata := [];
       doc_content := [("subtitle", VNone)] |}
  = tpl_name Examples.page /\
  incl (dict_keys [("subtitle", VNone)]) (map name (fields Examples.page)) /\
  List.NoDup (dict_keys [("subtitle", VNone)]).
Proof.
  apply (content_keys_are_field_names Examples.page 0%nat
           Examples.empty_context
           {| doc_template_name := "page"; doc_metadata := [];
              doc_content := [("subtitle", VNone)] |}
           Examples.empty_context).
  reflexivity.
Defined.

Lemma render_fields_get_other data k xs : forall content s content' s',
  fold_m (JSONTemplateRenderer.render_field data) xs content s
  = (Ok content', s') ->
  (forall g, In g xs -> name g <> k) ->
  dict_get content' k = dict_get content k.
Proof.
  induction xs as [|x xs IH]; simpl; intros content s content' s' Hrun Hxs.
  - unfold ret in Hrun. now inversion Hrun.
  - unfold bind in Hrun.
    destruct (JSONTemplateRenderer.render_field data content x s)
      as [[c1|ex] s1] eqn:E; [|discriminate].
    rewrite (IH c1 s1 content' s' Hrun) by (intros g Hg; apply Hxs; now right).
    destruct (render_field_result _ _ _ _ _ _ E) as [->|(v & -> & _)];
      [reflexivity|].
    apply dict_get_set_ne. apply Hxs. now left.
Qed.

(** X7.  In a template whose field names are all different, a required
    field is never bound to [None] in the content of the document: it has
    a value, or it is not a key. *)
Theorem required_field_never_null template data s doc s' field :
  JSONTemplateRenderer.render template data s = (Ok doc, s') ->
  List.NoDup (map name (fields template)) ->
  In field (fields template) ->
  required field = true ->
  dict_get (doc_content doc) (name field) <> Some VNone.
Proof.
  unfold JSONTemplateRenderer.render. intros Hrun Hnodup Hin Hreq.
  destruct (in_split _ _ Hin) as (pre & post & Hsplit).
  rewrite Hsplit in Hnodup.
  pose proof (NoDup_names_split pre post field Hnodup) as Hother.
  unfold bind in Hrun.
  destruct (fold_m (JSONTemplateRenderer.render_field data) (fields template)
              [] s) as [[content|ex] s1] eqn:E; [|discriminate].
  unfold ret in Hrun. inversion Hrun; subst doc s1. simpl. clear Hrun.
  rewrite Hsplit, fold_m_app in E. unfold bind in E.
  destruct (fold_m (JSONTemplateRenderer.render_field data) pre [] s)
    as [[c1|ex] s2] eqn:E1; [|discriminate].
  simpl in E. unfold bind in E.
  destruct (JSONTemplateRenderer.render_field data c1 field s2)
    as [[c2|ex] s3] eqn:E2; [|discriminate].
  rewrite (render_fields_get_other data (name field) post c2 s3 content s' E)
    by (intros g Hg; apply Hother; now right).
  pose proof (render_fields_get_other data (name field) pre [] s c1 s2 E1) as Hpre.
  simpl in Hpre.
  destruct (render_field_result _ _ _ _ _ _ E2) as [->|(v & -> & Hv)].
  - rewrite Hpre by (intros g Hg; apply Hother; now left). discriminate.
  - rewrite dict_get_set_eq. intros [= ->]. now apply Hv.
Qed.

Lemma required_field_never_null_witness :
  dict_get [("subtitle", VNone)] (name Examples.title) <> Some VNone.
Proof.
  apply (required_field_never_null Examples.page 0%nat Examples.empty_context
           {| doc_template_name := "page"; doc_metadata := [];
              doc_content := [("subtitle", VNone)] |}
           Examples.empty_context Examples.title).
  - reflexivity.
  - simpl. constructor.
    + simpl. intros [H|[]]. discriminate H.
    + constructor; [simpl; tauto|constructor].
  - now left.
  - reflexivity.
Defined.

(** ** Text coercion *)

Lemma lower_upper_char c :
  Str.lower_char (Str.upper_char c) = Str.lower_char c.
Proof. destruct c as [[] [] [] [] [] [] [] []]; reflexivity. Qed.

Lemma lower_lower_char c :
  Str.lower_char (Str.lower_char c) = Str.lower_char c.
Proof. destruct c as [[] [] [] [] [] [] [] []]; reflexivity. Qed.

Lemma upper_upper_char c :
  Str.upper_char (Str.upper_char c) = Str.upper_char c.
Proof. destruct c as [[] [] [] [] [] [] [] []]; reflexivity. Qed.

Lemma upper_lower_char c :
  Str.upper_char (Str.lower_char c) = Str.upper_char c.
Proof. destruct c as [[] [] [] [] [] [] [] []]; reflexivity. Qed.

Lemma map_chars_map_chars f g x :
  Str.map_chars f (Str.map_chars g x) = Str.map_chars (fun c => f (g c)) x.
Proof. induction x as [|c x IH]; simpl; [reflexivity|]. now rewrite IH. Qed.

Lemma map_chars_ext f g x :
  (forall c, f c = g c) -> Str.map_chars f x = Str.map_chars g x.
Proof. intros H. induction x as [|c x IH]; simpl; [reflexivity|]. now rewrite H, IH. Qed.

Lemma lower_upper x : Str.lower (Str.upper x) = Str.lower x.
Proof.
  unfold Str.lower, Str.upper. rewrite map_chars_map_chars.
  apply map_chars_ext, lower_upper_char.
Qed.

Lemma lower_lower x : Str.lower (Str.lower x) = Str.lower x.
Proof.
  unfold Str.lower. rewrite map_chars_map_chars.
  apply map_chars_ext, lower_lower_char.
Qed.

Lemma upper_lower x : Str.upper (Str.lower x) = Str.upper x.
Proof.
  unfold Str.lower, Str.upper. rewrite map_chars_map_chars.
  apply map_chars_ext, upper_lower_char.
Qed.

Lemma lower_capitalize x : Str.lower (Str.capitalize x) = Str.lower x.
Proof.
  destruct x as [|c x]; [reflexivity|]. unfold Str.capitalize.
  change (Str.lower (String (Str.upper_char c) (Str.lower x)))
    with (String (Str.lower_char (Str.upper_char c)) (Str.lower (Str.lower x))).
  now rewrite lower_upper_char, lower_lower.
Qed.

Lemma upper_capitalize x : Str.upper (Str.capitalize x) = Str.upper x.
Proof.
  destruct x as [|c x]; [reflexivity|]. unfold Str.capitalize.
  change (Str.upper (String (Str.upper_char c) (Str.lower x)))
    with (String (Str.upper_char (Str.upper_char c)) (Str.upper (Str.lower x))).
  now rewrite upper_upper_char, upper_lower.
Qed.

Lemma truthy_option_given s formatting k :
  truthy s (option_of formatting k) = true -> given formatting = true.
Proof.
  intros H. destruct (given formatting) eqn:E; [reflexivity|].
  rewrite (option_of_not_given _ k E) in H. discriminate.
Qed.

(** X8.  Of the case options of a text field the last applied wins:
    with [lowercase] set the text is the raw text in lower case, whether or
    not [capitalize] and [uppercase] are set; with [uppercase] set and
    [lowercase] not, it is the raw text in upper case, whether or not
    [capitalize] is set.  Truncation comes after.  The text is one of
    ASCII characters, where converting twice is converting once. *)
Theorem text_case_last_wins s v formatting :
  isascii (py_str s v) = true ->
  (truthy s (option_of formatting "lowercase") = true ->
   JSONTemplateRenderer._process_text_field s v formatting
   = truncated s formatting (Str.lower (py_str s v))) /\
  (truthy s (option_of formatting "lowercase") = false ->
   truthy s (option_of formatting "uppercase") = true ->
   JSONTemplateRenderer._process_text_field s v formatting
   = truncated s formatting (Str.upper (py_str s v))).
Proof.
  intros _. unfold JSONTemplateRenderer._process_text_field, truncated. split.
  - intros Hl. rewrite (truthy_option_given _ _ _ Hl), Hl.
    assert (E : Str.lower
                  (if truthy s (option_of formatting "uppercase")
                   then Str.upper
                          (if truthy s (option_of formatting "capitalize")
                           then Str.capitalize (py_str s v) else py_str s v)
                   else if truthy s (option_of formatting "capitalize")
                        then Str.capitalize (py_str s v) else py_str s v)
                = Str.lower (py_str s v)).
    { destruct (truthy s (option_of formatting "uppercase")),
               (truthy s (option_of formatting "capitalize"));
        rewrite ?lower_upper, ?lower_capitalize; reflexivity. }
    now rewrite E.
  - intros Hl Hu. rewrite (truthy_option_given _ _ _ Hu), Hl, Hu.
    assert (E : Str.upper
                  (if truthy s (option_of formatting "capitalize")
                   then Str.capitalize (py_str s v) else py_str s v)
                = Str.upper (py_str s v)).
    { destruct (truthy s (option_of formatting "capitalize"));
        rewrite ?upper_capitalize; reflexivity. }
    now rewrite E.
Qed.

Lemma text_case_last_wins_witness :
  JSONTemplateRenderer._process_text_field [] (VStr "Vitamin C")
    (Some [("uppercase", VBool true); ("lowercase", VBool true)])
  = truncated [] (Some [("uppercase", VBool true); ("lowercase", VBool true)])
      (Str.lower (py_str [] (VStr "Vitamin C"))).
Proof.
  apply (proj1 (text_case_last_wins [] (VStr "Vitamin C")
                  (Some [("uppercase", VBool true); ("lowercase", VBool true)])
                  eq_refl)).
  reflexivity.
Defined.

Lemma length_string_of_list l :
  String.length (string_of_list_ascii l) = length l.
Proof. induction l as [|c l IH]; simpl; [reflexivity|]. now rewrite IH. Qed.

Lemma length_list_of_string x :
  length (list_ascii_of_string x) = String.length x.
Proof. induction x as [|c x IH]; simpl; [reflexivity|]. now rewrite IH. Qed.

Lemma length_str_slice_to n x :
  String.length (str_slice_to n x)
  = if n <? 0 then Z.to_nat (Z.of_nat (String.length x) + n)
    else Nat.min (Z.to_nat n) (String.length x).
Proof.
  unfold str_slice_to, slice_to. rewrite length_string_of_list.
  destruct (n <? 0) eqn:E; rewrite length_firstn, length_list_of_string.
  - apply Z.ltb_lt in E. lia.
  - reflexivity.
Qed.

(** X9.  A text field with [max_length] a positive integer returns on
    every plain raw value whose text is of ASCII characters, whatever the
    other options, and gives a text of at most that many characters. *)
Theorem text_max_length s v formatting n :
  plain v = true ->
  isascii (py_str s v) = true ->
  option_of formatting "max_length" = VInt n ->
  0 < n ->
  exists t,
    JSONTemplateRenderer._process_text_field s v formatting = Ok (VStr t) /\
    (String.length t <= Z.to_nat n)%nat.
Proof.
  intros _ _ Hn Hpos. unfold JSONTemplateRenderer._process_text_field.
  assert (Ht : truthy s (option_of formatting "max_length") = true).
  { rewrite Hn. simpl. apply negb_true_iff, Z.eqb_neq. lia. }
  rewrite (truthy_option_given _ _ _ Ht), Ht, Hn. simpl.
  eexists. split; [reflexivity|].
  rewrite length_str_slice_to.
  destruct (n <? 0) eqn:E; [apply Z.ltb_lt in E; lia|]. lia.
Qed.

Lemma text_max_length_witness :
  exists t,
    JSONTemplateRenderer._process_text_field [] (VStr "Vitamin C serum")
      (Some [("max_length", VInt 7)]) = Ok (VStr t) /\
    (String.length t <= Z.to_nat 7)%nat.
Proof.
  apply (text_max_length [] (VStr "Vitamin C serum")
           (Some [("max_length", VInt 7)]) 7);
    [reflexivity|reflexivity|reflexivity|lia].
Defined.

(** ** What list coercion keeps *)

Lemma insert_keys_hashable xs : forall seen r,
  insert_keys seen xs = Ok r -> Forall (fun x => hashable x = true) xs.
Proof.
  induction xs as [|x xs IH]; simpl; intros seen r H; [constructor|].
  destruct (hashable x) eqn:E; [|discriminate].
  constructor; [exact E|]. eapply IH. exact H.
Qed.

Lemma first_seen_incl xs : incl (first_seen xs) xs.
Proof.
  induction xs as [|x xs IH]; simpl; [apply incl_refl|].
  intros y [<-|Hy]; [now left|]. right. apply IH.
  now apply filter_In in Hy as [Hy _].
Qed.

Lemma first_seen_length xs : (length (first_seen xs) <= length xs)%nat.
Proof.
  induction xs as [|x xs IH]; simpl; [lia|].
  pose proof (List.filter_length_le (fun y => negb (py_eqb x y)) (first_seen xs)).
  lia.
Qed.

Lemma FOP_filter {A} (R : A -> A -> Prop) (f : A -> bool) l :
  ForallOrdPairs R l -> ForallOrdPairs R (List.filter f l).
Proof.
  induction 1 as [|a l Ha Hl IH]; simpl; [constructor|].
  destruct (f a); [|exact IH]. constructor; [|exact IH].
  apply List.Forall_forall. intros y Hy. apply filter_In in Hy as [Hy _].
  rewrite List.Forall_forall in Ha. now apply Ha.
Qed.

Lemma first_seen_distinct xs :
  ForallOrdPairs (fun x y => py_eqb x y = false) (first_seen xs).
Proof.
  induction xs as [|x xs IH]; simpl; constructor.
  - apply List.Forall_forall. intros y Hy. apply filter_In in Hy as [_ Hy].
    now apply negb_true_iff in Hy.
  - now apply FOP_filter.
Qed.

Lemma firstn_incl {A} k (xs : list A) : incl (firstn k xs) xs.
Proof.
  revert k. induction xs as [|x xs IH]; intros [|k]; simpl.
  - intros y [].
  - intros y [].
  - intros y [].
  - intros y [<-|Hy]; [now left|right; now apply (IH k)].
Qed.

Lemma slice_to_incl {A} n (xs : list A) : incl (slice_to n xs) xs.
Proof. unfold slice_to. destruct (n <? 0); apply firstn_incl. Qed.

Lemma slice_to_length {A} n (xs : list A) :
  (length (slice_to n xs) <= length xs)%nat.
Proof. unfold slice_to. destruct (n <? 0); rewrite length_firstn; lia. Qed.

(** X10.  Whatever the options, when a list coercion returns, it returns
    a list; its items are items of the raw value (the pieces of a raw text,
    the raw value itself when it is no sequence), there are no more of them
    than before, and with [unique] set no two of them are equal. *)
Theorem list_coercion_keeps_items s v formatting r :
  JSONTemplateRenderer._process_list_field s v formatting = Ok r ->
  exists items,
    r = VList items /\
    incl items (list_items v) /\
    (length items <= length (list_items v))%nat /\
    (truthy s (option_of formatting "unique") = true ->
     ForallOrdPairs (fun x y => py_eqb x y = false) items).
Proof.
  unfold JSONTemplateRenderer._process_list_field. fold (list_items v).
  destruct (given formatting) eqn:Hg.
  - set (kept1 := if truthy s (option_of formatting "max_items")
                  then let? n := as_index (option_of formatting "max_items") in
                       Ok (slice_to n (list_items v))
                  else Ok (list_items v)).
    destruct kept1 as [value1|ex] eqn:E1; simpl; [|discriminate].
    assert (H1 : incl value1 (list_items v) /\
                 (length value1 <= length (list_items v))%nat).
    { unfold kept1 in E1.
      destruct (truthy s (option_of formatting "max_items")).
      - destruct (as_index (option_of formatting "max_items")) as [n|];
          simpl in E1; [|discriminate]. inversion E1; subst.
        split; [apply slice_to_incl|apply slice_to_length].
      - inversion E1; subst. split; [apply incl_refl|lia]. }
    destruct H1 as [Hincl Hlen].
    destruct (truthy s (option_of formatting "unique")) eqn:Hu.
    + destruct (fromkeys value1) as [value2|ex] eqn:E2; simpl; [|discriminate].
      intros [= <-]. exists value2.
      pose proof (insert_keys_hashable value1 [] value2 E2) as Hh.
      rewrite (fromkeys_first_seen _ Hh) in E2. inversion E2; subst.
      split; [reflexivity|]. split; [|split].
      * eapply incl_tran; [apply first_seen_incl|exact Hincl].
      * pose proof (first_seen_length value1). lia.
      * intros _. apply first_seen_distinct.
    + simpl. intros [= <-]. exists value1.
      split; [reflexivity|]. split; [exact Hincl|]. split; [exact Hlen|].
      discriminate.
  - intros [= <-]. exists (list_items v).
    split; [reflexivity|]. split; [apply incl_refl|]. split; [lia|].
    rewrite (option_of_not_given _ _ Hg). discriminate.
Qed.

Lemma list_coercion_keeps_items_witness :
  exists items,
    VList [VStr "A"; VStr "B"] = VList items /\
    incl items (list_items (VStr "A, B, B, C")) /\
    (length items <= length (list_items (VStr "A, B, B, C")))%nat /\
    (truthy [] (option_of (Some [("max_items", VInt 3); ("unique", VBool true)])
                  "unique") = true ->
     ForallOrdPairs (fun x y => py_eqb x y = false) items).
Proof.
  apply (list_coercion_keeps_items [] (VStr "A, B, B, C")
           (Some [("max_items", VInt 3); ("unique", VBool true)])
           (VList [VStr "A"; VStr "B"])).
  reflexivity.
Defined.

(** ** Block coercion of values that are no mapping *)

Lemma extends_refl s : extends s s.
Proof. exists []. now rewrite app_nil_r. Qed.

Lemma extends_alloc s0 s d : extends s0 s -> extends s0 (s ++ [d]).
Proof. intros [added ->]. exists (added ++ [d]). now rewrite app_assoc. Qed.

Lemma extends_length s0 s : extends s0 s -> (length s0 <= length s)%nat.
Proof. intros [added ->]. rewrite length_app. lia. Qed.

Lemma extends_insert s0 s l d :
  (length s0 <= l)%nat -> extends s0 s -> extends s0 (<[l := d]> s).
Proof.
  intros Hl [added ->]. exists (<[(l - length s0)%nat := d]> added).
  now apply insert_app_r_alt.
Qed.

Lemma extends_lookup s0 s l :
  extends s0 s -> (l < length s0)%nat -> s !! l = s0 !! l.
Proof. intros [added ->] Hl. now apply lookup_app_l. Qed.

Lemma made_alloc s0 s d :
  extends s0 s -> dict_has d "content" = true -> made s0 (length s) (s ++ [d]).
Proof.
  intros He Hd. split; [now apply extends_alloc|].
  split; [now apply extends_length|]. split.
  - rewrite length_app. simpl. lia.
  - unfold deref. rewrite lookup_app_r by lia. now rewrite Nat.sub_diag.
Qed.

Lemma block_field_non_mapping s0 v formatting :
  TemplateEngine.is_dict v = false ->
  hoare (extends s0) (JSONTemplateRenderer._process_block_field v formatting)
    (fun r s =>
       extends s0 s /\
       (given formatting && truthy s (option_of formatting "content_only")
        = false ->
        exists l, r = VDict l /\ made s0 l s))
    (fun _ => False).
Proof.
  intros Hv. unfold JSONTemplateRenderer._process_block_field.
  apply hoare_bind with (Q := made s0).
  - assert (Hother : forall text_of : store -> string,
      hoare (extends s0)
        (bind (reading (fun s => Ok (text_of s)))
           (fun text => alloc [("content", VStr text); ("type", VStr "text")]))
        (made s0) (fun _ => False)).
    { intros text_of. apply hoare_bind with (Q := fun _ => extends s0).
      - apply hoare_reading. auto.
      - intros text. apply hoare_alloc. intros s Hs. now apply made_alloc. }
    destruct v as [| | | | |l|bt c md]; try apply Hother; [discriminate|].
    apply hoare_bind with (Q := fun _ => extends s0).
    + intros s Hs. destruct md as [l|]; simpl.
      * destruct (nonempty (deref s l)); simpl; [exact Hs|].
        now apply extends_alloc.
      * now apply extends_alloc.
    + intros m. apply hoare_alloc. intros s Hs. now apply made_alloc.
  - intros result. destruct (given formatting); simpl.
    + apply hoare_bind with (Q := fun _ => made s0 result).
      * assert (Hpop : hoare (made s0 result)
                 (modify result (fun d => dict_pop d "metadata"))
                 (fun _ => made s0 result) (fun _ => False)).
        { apply hoare_modify. intros s (He & H1 & H2 & Hc).
          split; [now apply extends_insert|]. split; [exact H1|].
          split; [now rewrite length_insert|].
          rewrite deref_insert_eq by assumption.
          apply dict_has_true in Hc as [w Hw]. apply dict_has_true.
          exists w. now rewrite dict_get_pop_ne. }
        destruct (option_of formatting "include_metadata") as [|[|]| | | | |];
          try (now apply hoare_ret). exact Hpop.
      * intros _.
        apply hoare_bind
          with (Q := fun co s =>
                       made s0 result s /\
                       co = truthy s (option_of formatting "content_only")).
        -- apply hoare_reading. intros s Hs. now split.
        -- intros [|].
           ++ apply hoare_reading. intros s [(He & _ & _ & Hc) Hco].
              unfold py_getitem. apply dict_has_true in Hc as [w Hw].
              rewrite Hw. split; [exact He|]. rewrite <- Hco. discriminate.
           ++ apply hoare_ret. intros s [Hm Hco]. split; [apply Hm|].
              intros _. now exists result.
    + apply hoare_ret. intros s Hm. split; [apply Hm|].
      intros _. now exists result.
Qed.

(** X11.  Block coercion of a [ContentBlock] or of a plain value ([None],
    a boolean, a text, an int of at most 4300 digits) never raises,
    whatever the options, and leaves every object of the store as it is: it
    only adds objects.  Unless [content_only] is set, the result is a new
    dict with a "content" key. *)
Theorem block_coercion_of_non_mapping v formatting s :
  plain v || is_block v = true ->
  exists r s',
    JSONTemplateRenderer._process_block_field v formatting s = (Ok r, s') /\
    extends s s' /\
    (given formatting && truthy s' (option_of formatting "content_only") = false ->
     exists l, r = VDict l /\ (length s <= l)%nat /\
               dict_has (deref s' l) "content" = true).
Proof.
  intros Hplain.
  assert (Hv : TemplateEngine.is_dict v = false)
    by (destruct v as [| | | | |l|bt c md];
        [reflexivity..|discriminate|reflexivity]).
  pose proof (block_field_non_mapping s v formatting Hv s (extends_refl s)) as H.
  destruct (JSONTemplateRenderer._process_block_field v formatting s)
    as [[r|ex] s']; [|destruct H].
  exists r, s'. split; [reflexivity|]. destruct H as [He Hr].
  split; [exact He|]. intros Hc. destruct (Hr Hc) as (l & -> & _ & Hl & _ & Hd).
  now exists l.
Qed.

Lemma block_coercion_of_non_mapping_witness :
  exists r s',
    JSONTemplateRenderer._process_block_field
      (VBlock "price" (VStr "Serum is priced at 699.") None)
      (Some [("include_metadata", VBool false)]) [] = (Ok r, s') /\
    extends [] s' /\
    (given (Some [("include_metadata", VBool false)])
     && truthy s' (option_of (Some [("include_metadata", VBool false)])
                     "content_only") = false ->
     exists l, r = VDict l /\ (length ([] : store) <= l)%nat /\
               dict_has (deref s' l) "content" = true).
Proof.
  apply (block_coercion_of_non_mapping
           (VBlock "price" (VStr "Serum is priced at 699.") None)
           (Some [("include_metadata", VBool false)]) []).
  reflexivity.
Defined.

(** ** The other comparisons *)

Lemma texts_get s record k l :
  texts s record k = Some l ->
  py_get s (VDict record) k (VList []) = Ok (VList (map VStr l)).
Proof.
  unfold texts, py_get.
  destruct (dict_get (deref s record) k) as [v|].
  - destruct v; try discriminate.
    destruct (all_str xs) as [l'|] eqn:E; [|discriminate].
    intros [= <-]. simpl. now rewrite (all_str_inv _ _ E).
  - now intros [= <-].
Qed.

Lemma compare_benefits_strings s a b na nb la lb :
  dict_get (deref s a) "name" = Some na ->
  dict_get (deref s b) "name" = Some nb ->
  texts s a "benefits" = Some la ->
  texts s b "benefits" = Some lb ->
  let sa := sdedup la in
  let sb := sdedup lb in
  let common := List.filter (fun x => smem x sb) sa in
  let unique_a := List.filter (fun x => negb (smem x sb)) sa in
  let unique_b := List.filter (fun x => negb (smem x sa)) sb in
  ComparisonBlock.compare_benefits s (VDict a) (VDict b)
  = Ok {| block_type := "benefit_comparison";
          content :=
            VStr (ComparisonBlock.finish
                    (sentence common "Both products offer "
                     ++ sentence unique_a
                          (py_str s na +:+ " specifically provides ")
                     ++ sentence unique_b (py_str s nb +:+ " focuses on "))
                    "Each product offers unique benefits.");
          metadata :=
            Some [("common_benefits", VInt (Z.of_nat (length common)));
                  ("unique_a", VInt (Z.of_nat (length unique_a)));
                  ("unique_b", VInt (Z.of_nat (length unique_b)))] |}.
Proof.
  intros Hna Hnb Ha Hb sa sb common unique_a unique_b.
  unfold ComparisonBlock.compare_benefits.
  rewrite (texts_get _ _ _ _ Ha). cbn [obind].
  rewrite py_set_strings. cbn [obind].
  rewrite (texts_get _ _ _ _ Hb). cbn [obind].
  rewrite py_set_strings. cbn [obind].
  rewrite set_inter_strings, !set_diff_strings.
  unfold ComparisonBlock.named, py_getitem. rewrite Hna, Hnb. cbn [obind].
  rewrite !part_strings. cbn [obind]. rewrite !length_map. reflexivity.
Qed.

Lemma size_three_parts (A B : gset string) :
  (size (A ∩ B) + size (A ∖ B) + size (B ∖ A))%nat = size (A ∪ B).
Proof.
  assert (HU : A ∪ B = (A ∩ B) ∪ ((A ∖ B) ∪ (B ∖ A))).
  { apply set_eq. intros x. rewrite !elem_of_union, elem_of_intersection,
      !elem_of_difference.
    destruct (decide (x ∈ A)), (decide (x ∈ B)); tauto. }
  rewrite HU.
  rewrite (size_union (A ∩ B) ((A ∖ B) ∪ (B ∖ A))).
  - rewrite (size_union (A ∖ B) (B ∖ A)); [lia|].
    intros x. rewrite !elem_of_difference. tauto.
  - intros x. rewrite elem_of_intersection, elem_of_union,
      !elem_of_difference. tauto.
Qed.

(** X12.  For two records with a name and lists of texts as benefits,
    the facts of the benefits comparison are the sizes of the intersection
    and of the two differences of the sets of benefits; the three add up to
    the number of different benefits of the two records together. *)
Theorem comparison_benefits_counts s a b na nb la lb :
  dict_get (deref s a) "name" = Some na ->
  dict_get (deref s b) "name" = Some nb ->
  texts s a "benefits" = Some la ->
  texts s b "benefits" = Some lb ->
  exists block common unique_a unique_b,
    ComparisonBlock.compare_benefits s (VDict a) (VDict b) = Ok block /\
    fact block "common_benefits" = Some (VInt (Z.of_nat common)) /\
    fact block "unique_a" = Some (VInt (Z.of_nat unique_a)) /\
    fact block "unique_b" = Some (VInt (Z.of_nat unique_b)) /\
    common = size (list_to_set la ∩ list_to_set lb : gset string) /\
    unique_a = size (list_to_set la ∖ list_to_set lb : gset string) /\
    unique_b = size (list_to_set lb ∖ list_to_set la : gset string) /\
    (common + unique_a + unique_b)%nat
    = size (list_to_set la ∪ list_to_set lb : gset string).
Proof.
  intros Hna Hnb Ha Hb.
  eexists. eexists. eexists. eexists.
  split; [now apply (compare_benefits_strings s a b na nb la lb)|].
  unfold fact. cbn [metadata dict_get String.eqb Ascii.eqb Bool.eqb].
  split; [reflexivity|]. split; [reflexivity|]. split; [reflexivity|].
  rewrite inter_as_filter, !diff_as_filter.
  rewrite !size_filter_NoDup by apply sdedup_NoDup.
  split; [reflexivity|]. split; [reflexivity|]. split; [reflexivity|].
  rewrite <- !size_filter_NoDup by apply sdedup_NoDup.
  rewrite <- inter_as_filter, <- !diff_as_filter.
  apply size_three_parts.
Qed.

Lemma comparison_benefits_counts_witness :
  exists block common unique_a unique_b,
    ComparisonBlock.compare_benefits
      [[("name", VStr "A"); ("benefits", VList [VStr "Glow"; VStr "Tone"])];
       [("name", VStr "B"); ("benefits", VList [VStr "Tone"])]]
      (VDict 0%nat) (VDict 1%nat) = Ok block /\
    fact block "common_benefits" = Some (VInt (Z.of_nat common)) /\
    fact block "unique_a" = Some (VInt (Z.of_nat unique_a)) /\
    fact block "unique_b" = Some (VInt (Z.of_nat unique_b)) /\
    common = size (list_to_set ["Glow"; "Tone"] ∩ list_to_set ["Tone"]
                   : gset string) /\
    unique_a = size (list_to_set ["Glow"; "Tone"] ∖ list_to_set ["Tone"]
                     : gset string) /\
    unique_b = size (list_to_set ["Tone"] ∖ list_to_set ["Glow"; "Tone"]
                     : gset string) /\
    (common + unique_a + unique_b)%nat
    = size (list_to_set ["Glow"; "Tone"] ∪ list_to_set ["Tone"] : gset string).
Proof.
  apply (comparison_benefits_counts
           [[("name", VStr "A"); ("benefits", VList [VStr "Glow"; VStr "Tone"])];
            [("name", VStr "B"); ("benefits", VList [VStr "Tone"])]]
           0%nat 1%nat (VStr "A") (VStr "B") ["Glow"; "Tone"] ["Tone"]);
    reflexivity.
Defined.

Lemma finish_ends parts otherwise :
  (exists body, otherwise = body +:+ ".") ->
  exists body, ComparisonBlock.finish parts otherwise = body +:+ ".".
Proof.
  intros H. unfold ComparisonBlock.finish. destruct (nonempty parts); eauto.
Qed.

Lemma sdedup_nil l : l = [] -> sdedup l = [].
Proof. now intros ->. Qed.

(** X13.  For two records with a name and lists of texts, the text of
    the ingredients comparison and the text of the benefits comparison are
    never empty: each is a sentence ending with a full stop, and when
    neither record has an item it is the fixed sentence of the
    generator. *)
Theorem comparison_text_is_a_sentence s a b na nb :
  dict_get (deref s a) "name" = Some na ->
  dict_get (deref s b) "name" = Some nb ->
  (forall la lb,
     ingredients s a = Some la -> ingredients s b = Some lb ->
     exists block body,
       ComparisonBlock.compare_ingredients s (VDict a) (VDict b) = Ok block /\
       content block = VStr (body +:+ ".") /\
       (la = [] -> lb = [] ->
        content block
        = VStr "Both products have distinct ingredient formulations.")) /\
  (forall la lb,
     texts s a "benefits" = Some la -> texts s b "benefits" = Some lb ->
     exists block body,
       ComparisonBlock.compare_benefits s (VDict a) (VDict b) = Ok block /\
       content block = VStr (body +:+ ".") /\
       (la = [] -> lb = [] ->
        content block = VStr "Each product offers unique benefits.")).
Proof.
  intros Hna Hnb. split; intros la lb Ha Hb.
  - rewrite (compare_ingredients_strings s a b na nb la lb Hna Hnb Ha Hb).
    cbn [content].
    edestruct (finish_ends
      (sentence (List.filter (fun x => smem x (sdedup lb)) (sdedup la))
         "Both products contain "
       ++ sentence (List.filter (fun x => negb (smem x (sdedup lb))) (sdedup la))
            (py_str s na +:+ " uniquely features ")
       ++ sentence (List.filter (fun x => negb (smem x (sdedup la))) (sdedup lb))
            (py_str s nb +:+ " uniquely features "))
      "Both products have distinct ingredient formulations.") as [body Hbody].
    { now exists "Both products have distinct ingredient formulations". }
    eexists. exists body. split; [reflexivity|]. cbn [content].
    split; [now rewrite Hbody|]. intros -> ->. reflexivity.
  - rewrite (compare_benefits_strings s a b na nb la lb Hna Hnb Ha Hb).
    cbn [content].
    edestruct (finish_ends
      (sentence (List.filter (fun x => smem x (sdedup lb)) (sdedup la))
         "Both products offer "
       ++ sentence (List.filter (fun x => negb (smem x (sdedup lb))) (sdedup la))
            (py_str s na +:+ " specifically provides ")
       ++ sentence (List.filter (fun x => negb (smem x (sdedup la))) (sdedup lb))
            (py_str s nb +:+ " focuses on "))
      "Each product offers unique benefits.") as [body Hbody].
    { now exists "Each product offers unique benefits". }
    eexists. exists body. split; [reflexivity|]. cbn [content].
    split; [now rewrite Hbody|]. intros -> ->. reflexivity.
Qed.

Lemma comparison_text_is_a_sentence_witness :
  (forall la lb,
     ingredients [Examples.product_a; Examples.product_b] 0%nat = Some la ->
     ingredients [Examples.product_a; Examples.product_b] 1%nat = Some lb ->
     exists block body,
       ComparisonBlock.compare_ingredients
         [Examples.product_a; Examples.product_b] (VDict 0%nat) (VDict 1%nat)
       = Ok block /\
       content block = VStr (body +:+ ".") /\
       (la = [] -> lb = [] ->
        content block
        = VStr "Both products have distinct ingredient formulations.")) /\
  (forall la lb,
     texts [Examples.product_a; Examples.product_b] 0%nat "benefits" = Some la ->
     texts [Examples.product_a; Examples.product_b] 1%nat "benefits" = Some lb ->
     exists block body,
       ComparisonBlock.compare_benefits
         [Examples.product_a; Examples.product_b] (VDict 0%nat) (VDict 1%nat)
       = Ok block /\
       content block = VStr (body +:+ ".") /\
       (la = [] -> lb = [] ->
        content block = VStr "Each product offers unique benefits.")).
Proof.
  apply (comparison_text_is_a_sentence
           [Examples.product_a; Examples.product_b] 0%nat 1%nat
           (VStr "A") (VStr "B")); reflexivity.
Defined.

(** X14.  The price comparison needs the names of both records: a record
    without a name makes it raise [KeyError].  With both names it returns;
    a record without a price is given as "unspecified", and the
    [both_priced] fact holds exactly when both prices are there and not
    empty. *)
Theorem compare_prices_behaviour s a b :
  (dict_get (deref s a) "name" = None ->
   ComparisonBlock.compare_prices s (VDict a) (VDict b)
   = Raise (KeyError (VStr "name"))) /\
  (dict_get (deref s b) "name" = None ->
   ComparisonBlock.compare_prices s (VDict a) (VDict b)
   = Raise (KeyError (VStr "name"))) /\
  (forall na nb,
     dict_get (deref s a) "name" = Some na ->
     dict_get (deref s b) "name" = Some nb ->
     exists block,
       ComparisonBlock.compare_prices s (VDict a) (VDict b) = Ok block /\
       content block
       = VStr ("Price comparison: " +:+ py_str s na +:+ " (" +:+
               py_str s (default (VStr "unspecified")
                           (dict_get (deref s a) "price")) +:+
               ") vs " +:+ py_str s nb +:+ " (" +:+
               py_str s (default (VStr "unspecified")
                           (dict_get (deref s b) "price")) +:+ ").") /\
       fact block "both_priced"
       = Some (VBool
                 (truthy s (default VNone (dict_get (deref s a) "price"))
                  && truthy s (default VNone (dict_get (deref s b) "price"))))).
Proof.
  unfold ComparisonBlock.compare_prices, py_get, py_getitem. cbn [obind].
  split; [|split].
  - now intros ->.
  - intros ->. now destruct (dict_get (deref s a) "name").
  - intros na nb -> ->. cbn [obind].
    destruct (truthy s (default VNone (dict_get (deref s a) "price")));
      cbn [obind]; eexists; (split; [reflexivity|]); split; reflexivity.
Qed.

Lemma compare_prices_behaviour_witness :
  ComparisonBlock.compare_prices [Examples.nameless; Examples.product_b]
    (VDict 0%nat) (VDict 1%nat)
  = Raise (KeyError (VStr "name")).
Proof.
  apply (proj1 (compare_prices_behaviour [Examples.nameless; Examples.product_b]
                  0%nat 1%nat)).
  reflexivity.
Defined.

(** ** Generators on records of the expected shape *)

Lemma py_len_texts s l :
  py_len s (VList (map VStr l)) = Ok (Z.of_nat (length l)).
Proof. simpl. now rewrite length_map. Qed.

Lemma py_join_texts s sep l :
  py_join s sep (VList (map VStr l)) = Ok (Str.join sep l).
Proof. unfold py_join. simpl. now rewrite all_str_map. Qed.

Lemma slice_to_map {A B} (f : A -> B) n l :
  slice_to n (map f l) = map f (slice_to n l).
Proof.
  unfold slice_to. rewrite length_map.
  destruct (n <? 0); now rewrite firstn_map.
Qed.

Lemma join_and_texts s l :
  l <> [] -> exists t, join_and s (VList (map VStr l)) = Ok t.
Proof.
  intros Hl. unfold join_and. cbn [py_slice_to obind].
  rewrite slice_to_map, py_join_texts. cbn [obind].
  unfold py_index, nth_from. rewrite length_map.
  replace (-1 <? 0) with true by reflexivity.
  assert (Hlen : (0 < length l)%nat) by (destruct l; simpl; [congruence|lia]).
  destruct (Z.of_nat (length l) + -1 <? 0) eqn:E;
    [apply Z.ltb_lt in E; lia|].
  destruct (lookup_lt_is_Some_2 (map VStr l)
              (Z.to_nat (Z.of_nat (length l) + -1))) as [x Hx].
  { rewrite length_map. lia. }
  rewrite Hx. cbn [obind]. eauto.
Qed.

Lemma texts_list_cases s l :
  truthy s (VList (map VStr l)) = nonempty l.
Proof. now destruct l. Qed.

Lemma more_than_one {A} (x y : A) r :
  (1 <? Z.of_nat (length (x :: y :: r))) = true.
Proof. apply Z.ltb_lt. simpl length. lia. Qed.

(** X15.  On a record whose benefits, key ingredients and skin types are
    lists of texts (or absent) and whose other values are plain, each of
    the six single-subject generators returns a block with a text; the
    count facts are the numbers of items. *)
Theorem generators_return_on_typed_records s record g :
  typed_record s record ->
  plain_record s record ->
  single_subject g = true ->
  exists b text,
    call g [VDict record] s = Ok b /\
    content b = VStr text /\
    (forall l, g = BenefitsBlock_generate ->
               texts s record "benefits" = Some l ->
               fact b "benefit_count" = Some (VInt (Z.of_nat (length l)))) /\
    (forall l, g = IngredientsBlock_generate ->
               texts s record "key_ingredients" = Some l ->
               fact b "ingredient_count" = Some (VInt (Z.of_nat (length l)))) /\
    (forall l, g = SkinTypeBlock_generate ->
               texts s record "skin_types" = Some l ->
               fact b "skin_type_count" = Some (VInt (Z.of_nat (length l)))).
Proof.
  intros Htyped _ Hg.
  assert (Hsame : forall k l l',
            texts s record k = Some l -> texts s record k = Some l' -> l' = l)
    by (intros k l l' H1 H2; congruence).
  destruct g; try discriminate; simpl.
  - destruct (Htyped "benefits") as [l Hl]; [simpl; tauto|].
    unfold BenefitsBlock.generate.
    rewrite (texts_get _ _ _ _ Hl), name_get. cbn [obind].
    rewrite texts_list_cases, py_len_texts.
    assert (Hfacts : forall b,
      fact b "benefit_count" = Some (VInt (Z.of_nat (length l))) ->
      (forall l', BenefitsBlock_generate = BenefitsBlock_generate ->
                  texts s record "benefits" = Some l' ->
                  fact b "benefit_count" = Some (VInt (Z.of_nat (length l')))) /\
      (forall l', BenefitsBlock_generate = IngredientsBlock_generate ->
                  texts s record "key_ingredients" = Some l' ->
                  fact b "ingredient_count" = Some (VInt (Z.of_nat (length l')))) /\
      (forall l', BenefitsBlock_generate = SkinTypeBlock_generate ->
                  texts s record "skin_types" = Some l' ->
                  fact b "skin_type_count" = Some (VInt (Z.of_nat (length l'))))).
    { intros b Hb. repeat split; try discriminate.
      intros l' _ Hl'. now rewrite (Hsame _ _ _ Hl Hl'). }
    destruct l as [|x [|y r]].
    + eexists. eexists. split; [reflexivity|]. split; [reflexivity|].
      now apply Hfacts.
    + eexists. eexists. split; [reflexivity|]. split; [reflexivity|].
      now apply Hfacts.
    + destruct (join_and_texts s (x :: y :: r)) as [t Ht]; [discriminate|].
      cbn [nonempty negb obind]. rewrite more_than_one, Ht. cbn [obind].
      eexists. eexists. split; [reflexivity|]. split; [reflexivity|].
      now apply Hfacts.
  - unfold UsageBlock.generate, py_get. cbn [obind].
    eexists. eexists. split; [reflexivity|]. split; [reflexivity|].
    repeat split; discriminate.
  - destruct (Htyped "key_ingredients") as [l Hl]; [simpl; tauto|].
    unfold IngredientsBlock.generate.
    rewrite (texts_get _ _ _ _ Hl), name_get. cbn [obind].
    assert (Hc : exists c, py_get s (VDict record) "concentration" VNone = Ok c)
      by (unfold py_get; eauto).
    destruct Hc as [c Hc]. rewrite Hc. cbn [obind].
    rewrite texts_list_cases, py_len_texts.
    assert (Hfacts : forall b,
      fact b "ingredient_count" = Some (VInt (Z.of_nat (length l))) ->
      (forall l', IngredientsBlock_generate = BenefitsBlock_generate ->
                  texts s record "benefits" = Some l' ->
                  fact b "benefit_count" = Some (VInt (Z.of_nat (length l')))) /\
      (forall l', IngredientsBlock_generate = IngredientsBlock_generate ->
                  texts s record "key_ingredients" = Some l' ->
                  fact b "ingredient_count" = Some (VInt (Z.of_nat (length l')))) /\
      (forall l', IngredientsBlock_generate = SkinTypeBlock_generate ->
                  texts s record "skin_types" = Some l' ->
                  fact b "skin_type_count" = Some (VInt (Z.of_nat (length l'))))).
    { intros b Hb. repeat split; try discriminate.
      intros l' _ Hl'. now rewrite (Hsame _ _ _ Hl Hl'). }
    destruct l as [|x [|y r]].
    + eexists. eexists. split; [reflexivity|]. split; [reflexivity|].
      now apply Hfacts.
    + eexists. eexists. split; [reflexivity|]. split; [reflexivity|].
      now apply Hfacts.
    + cbn [nonempty negb obind truthy andb]. rewrite more_than_one.
      rewrite py_join_texts. cbn [obind].
      eexists. eexists. split; [reflexivity|]. split; [reflexivity|].
      now apply Hfacts.
  - unfold SafetyBlock.generate, py_get. cbn [obind].
    eexists. eexists. split; [reflexivity|]. split; [reflexivity|].
    repeat split; discriminate.
  - destruct (Htyped "skin_types") as [l Hl]; [simpl; tauto|].
    unfold SkinTypeBlock.generate.
    rewrite (texts_get _ _ _ _ Hl), name_get. cbn [obind].
    rewrite texts_list_cases, py_len_texts.
    assert (Hfacts : forall b,
      fact b "skin_type_count" = Some (VInt (Z.of_nat (length l))) ->
      (forall l', SkinTypeBlock_generate = BenefitsBlock_generate ->
                  texts s record "benefits" = Some l' ->
                  fact b "benefit_count" = Some (VInt (Z.of_nat (length l')))) /\
      (forall l', SkinTypeBlock_generate = IngredientsBlock_generate ->
                  texts s record "key_ingredients" = Some l' ->
                  fact b "ingredient_count" = Some (VInt (Z.of_nat (length l')))) /\
      (forall l', SkinTypeBlock_generate = SkinTypeBlock_generate ->
                  texts s record "skin_types" = Some l' ->
                  fact b "skin_type_count" = Some (VInt (Z.of_nat (length l'))))).
    { intros b Hb. repeat split; try discriminate.
      intros l' _ Hl'. now rewrite (Hsame _ _ _ Hl Hl'). }
    destruct l as [|x [|y r]].
    + eexists. eexists. split; [reflexivity|]. split; [reflexivity|].
      now apply Hfacts.
    + eexists. eexists. split; [reflexivity|]. split; [reflexivity|].
      now apply Hfacts.
    + destruct (join_and_texts s (x :: y :: r)) as [t Ht]; [discriminate|].
      cbn [nonempty negb obind]. rewrite more_than_one, Ht. cbn [obind].
      eexists. eexists. split; [reflexivity|]. split; [reflexivity|].
      now apply Hfacts.
  - unfold PriceBlock.generate, py_get. cbn [obind].
    eexists. eexists. split; [reflexivity|]. split; [reflexivity|].
    repeat split; discriminate.
Qed.

Lemma generators_return_on_typed_records_witness :
  exists b text,
    call BenefitsBlock_generate [VDict 0%nat]
      [[("name", VStr "Serum"); ("benefits", VList [VStr "Glow"; VStr "Tone"])]]
    = Ok b /\
    content b = VStr text /\
    (forall l, BenefitsBlock_generate = BenefitsBlock_generate ->
               texts [[("name", VStr "Serum");
                       ("benefits", VList [VStr "Glow"; VStr "Tone"])]]
                 0%nat "benefits" = Some l ->
               fact b "benefit_count" = Some (VInt (Z.of_nat (length l)))) /\
    (forall l, BenefitsBlock_generate = IngredientsBlock_generate ->
               texts [[("name", VStr "Serum");
                       ("benefits", VList [VStr "Glow"; VStr "Tone"])]]
                 0%nat "key_ingredients" = Some l ->
               fact b "ingredient_count" = Some (VInt (Z.of_nat (length l)))) /\
    (forall l, BenefitsBlock_generate = SkinTypeBlock_generate ->
               texts [[("name", VStr "Serum");
                       ("benefits", VList [VStr "Glow"; VStr "Tone"])]]
                 0%nat "skin_types" = Some l ->
               fact b "skin_type_count" = Some (VInt (Z.of_nat (length l)))).
Proof.
  apply (generators_return_on_typed_records
           [[("name", VStr "Serum");
             ("benefits", VList [VStr "Glow"; VStr "Tone"])]]
           0%nat BenefitsBlock_generate).
  - intros k [<-|[<-|[<-|[]]]]; eexists; reflexivity.
  - intros k v Hget Hk. cbn -[String.eqb] in Hget.
    destruct (String.eqb "name" k) eqn:E1.
    + now inversion Hget.
    + destruct (String.eqb "benefits" k) eqn:E2; [|discriminate].
      apply String.eqb_eq in E2. subst k. exfalso. apply Hk. now left.
  - reflexivity.
Defined.

(** ** Questions *)

(** X16.  The answer to a question of ASCII characters and its
    classification do not depend on the case of its letters: the question
    in upper case gets the block of the question as written. *)
Theorem questions_ignore_case s q product_data :
  isascii q = true ->
  QuestionAnswerBlock._classify_question (Str.upper q)
  = QuestionAnswerBlock._classify_question q /\
  QuestionAnswerBlock.generate_answer s (VStr (Str.upper q)) product_data
  = QuestionAnswerBlock.generate_answer s (VStr q) product_data.
Proof.
  intros _.
  assert (Hc : QuestionAnswerBlock._classify_question (Str.upper q)
               = QuestionAnswerBlock._classify_question q).
  { unfold QuestionAnswerBlock._classify_question. now rewrite lower_upper. }
  split; [exact Hc|].
  unfold QuestionAnswerBlock.generate_answer. cbn [obind].
  now rewrite lower_upper, Hc.
Qed.

Lemma questions_ignore_case_witness :
  QuestionAnswerBlock._classify_question (Str.upper "Is it safe?")
  = QuestionAnswerBlock._classify_question "Is it safe?" /\
  QuestionAnswerBlock.generate_answer Examples.empty_context
    (VStr (Str.upper "Is it safe?")) (VDict 0%nat)
  = QuestionAnswerBlock.generate_answer Examples.empty_context
      (VStr "Is it safe?") (VDict 0%nat).
Proof.
  apply (questions_ignore_case Examples.empty_context "Is it safe?"
           (VDict 0%nat)).
  reflexivity.
Defined.

(** ** Satisfied dependencies *)

(** X17.  The dependency check passes exactly when every name it is
    given is a key of the context or the name of a registered generator;
    passing or not, it leaves the store as it is. *)
Theorem check_dependencies_passes_iff e deps data s :
  (TemplateEngine._check_dependencies e deps data s = (Ok tt, s) <->
   forall dep, In dep deps -> unsatisfied e s data dep = false) /\
  snd (TemplateEngine._check_dependencies e deps data s) = s.
Proof.
  split; [split|].
  - intros Hok dep Hin.
    destruct (unsatisfied e s data dep) eqn:E; [|reflexivity].
    destruct (check_dependencies_raises e deps data s) as (m & _ & _ & Hr);
      [eauto|]. rewrite Hr in Hok. discriminate.
  - apply check_dependencies_passes.
  - unfold TemplateEngine._check_dependencies, bind, reading.
    now destruct (nonempty _).
Qed.

(** X18.  Registering a generator under a name satisfies the dependency
    of that name in every context, and changes nothing for the other
    names. *)
Theorem register_block_generator_satisfies e block_name g s data :
  unsatisfied (TemplateEngine.register_block_generator e block_name g)
    s data block_name = false /\
  (forall dep, dep <> block_name ->
     unsatisfied (TemplateEngine.register_block_generator e block_name g)
       s data dep
     = unsatisfied e s data dep) /\
  templates (TemplateEngine.register_block_generator e block_name g)
  = templates e.
Proof.
  unfold unsatisfied, TemplateEngine.register_block_generator. simpl.
  split; [|split; [|reflexivity]].
  - unfold dict_has at 2. rewrite dict_get_set_eq. simpl. apply andb_false_r.
  - intros dep Hne. unfold dict_has at 2 4.
    rewrite dict_get_set_ne by congruence. reflexivity.
Qed.

(** ** From the record to the block of the document *)

Lemma deref_last (s : store) d : deref (s ++ [d]) (length s) = d.
Proof. unfold deref. rewrite lookup_app_r by lia. now rewrite Nat.sub_diag. Qed.

Lemma generate_into_exec le dep g args s b :
  (le < length s)%nat ->
  call g args s = Ok b ->
  exists added md,
    TemplateEngine.generate_into le dep g args s
    = (Ok tt,
       <[le := dict_set (deref s le) dep
                 (VBlock (block_type b) (content b) md)]> (s ++ added)).
Proof.
  intros Hle Hcall. unfold TemplateEngine.generate_into, bind, reading.
  rewrite Hcall. unfold new_block. destruct (metadata b) as [d|].
  - exists [d], (Some (length s)). unfold bind, alloc, ret, modify.
    now rewrite deref_app.
  - exists [], None. unfold ret, modify. now rewrite app_nil_r.
Qed.

Lemma generate_dependency_exec data le dep g s pd :
  Str.startswith dep "comparison" = false ->
  Str.endswith dep "_answer" = false ->
  dict_get (deref s data) "product_data" = Some pd ->
  TemplateEngine.generate_dependency data le dep g s
  = TemplateEngine.generate_into le dep g [pd] s.
Proof.
  intros Hcmp Hans Hpd. unfold TemplateEngine.generate_dependency.
  rewrite Hcmp, Hans. unfold bind at 1, reading at 1, dict_has.
  rewrite Hpd. unfold bind at 1, reading at 1, py_getitem. now rewrite Hpd.
Qed.

Lemma block_of_content_block bt c md s :
  exists l s',
    JSONTemplateRenderer._process_block_field (VBlock bt c md) None s
    = (Ok (VDict l), s') /\
    dict_get (deref s' l) "type" = Some (VStr bt) /\
    dict_get (deref s' l) "content" = Some c.
Proof.
  unfold JSONTemplateRenderer._process_block_field, bind, alloc, ret. simpl.
  destruct md as [m|].
  - destruct (nonempty (deref s m)); simpl.
    + eexists. eexists. split; [reflexivity|]. now rewrite deref_last.
    + eexists. eexists. split; [reflexivity|]. now rewrite deref_last.
  - eexists. eexists. split; [reflexivity|]. now rewrite deref_last.
Qed.

(** X19.  From the record to the document: for a template with one
    dependency and one block field of that name, the engine calls the
    generator registered under the name on the product data of the context
    (the name being neither a comparison nor an answer, and not a key of
    the context), and the document has, under that name, a new dict whose
    type and content are those of the block the generator returned. *)
Theorem dependency_block_in_document
    e template_name template field data output_format renderer s dep g pd b :
  dict_get (templates e) template_name = Some template ->
  dict_get (renderers e) output_format = Some renderer ->
  dependencies template = Some [dep] ->
  fields template = [field] ->
  name field = dep ->
  field_type field = "block" ->
  formatting field = None ->
  dict_get (block_generators e) dep = Some g ->
  Str.startswith dep "comparison" = false ->
  Str.endswith dep "_answer" = false ->
  dict_get (deref s data) dep = None ->
  dict_get (deref s data) "product_data" = Some pd ->
  call g [pd] (s ++ [deref s data]) = Ok b ->
  exists doc s' l,
    TemplateEngine.render_template e template_name data output_format s
    = (Ok doc, s') /\
    doc_content doc = [(dep, VDict l)] /\
    dict_get (deref s' l) "type" = Some (VStr (block_type b)) /\
    dict_get (deref s' l) "content" = Some (content b).
Proof.
  intros Ht Hr Hdeps Hfields Hname Htype Hfmt Hg Hcmp Hans Hnone Hpd Hcall.
  assert (Hvalid : (data < length s)%nat).
  { destruct (Nat.lt_ge_cases data (length s)) as [H|H]; [exact H|].
    unfold deref in Hpd. rewrite lookup_ge_None_2 in Hpd by lia. discriminate. }
  set (d0 := deref s data) in *.
  unfold TemplateEngine.render_template. rewrite Ht, Hr, Hdeps.
  assert (Hcheck : TemplateEngine._check_dependencies e [dep] data s = (Ok tt, s)).
  { apply check_dependencies_passes. intros x [<-|[]]. unfold unsatisfied.
    unfold dict_has at 2. rewrite Hg. apply andb_false_r. }
  unfold bind at 1. rewrite Hcheck.
  destruct (generate_into_exec (length s) dep g [pd] (s ++ [d0]) b)
    as (added & md & Hinto); [rewrite length_app; simpl; lia|exact Hcall|].
  rewrite deref_last in Hinto.
  set (block := VBlock (block_type b) (content b) md) in *.
  set (s3 := <[length s := dict_set d0 dep block]> ((s ++ [d0]) ++ added)) in *.
  assert (Hgen : TemplateEngine._generate_content_blocks e template data s
                 = (Ok (length s), s3)).
  { unfold TemplateEngine._generate_content_blocks. rewrite Hdeps.
    cbn [bind reading alloc ret for_each]. fold d0.
    rewrite Hg. unfold bind, reading. rewrite deref_last.
    replace (dict_has d0 dep) with false
      by (symmetry; now apply dict_has_false).
    cbn [negb]. unfold try_.
    rewrite (generate_dependency_exec data (length s) dep g (s ++ [d0]) pd)
      by (try assumption; rewrite deref_app by assumption; exact Hpd).
    rewrite Hinto. reflexivity. }
  unfold bind at 1. rewrite Hgen.
  assert (Hle : deref s3 (length s) = dict_set d0 dep block).
  { unfold s3. apply deref_insert_eq. rewrite !length_app. simpl. lia. }
  destruct renderer. simpl renderer_render.
  unfold JSONTemplateRenderer.render. rewrite Hfields. simpl fold_m.
  unfold JSONTemplateRenderer.render_field, JSONTemplateRenderer._process_field.
  unfold bind at 1 2 3 4, reading at 1.
  rewrite Hle, Hname, dict_get_set_eq. unfold block. cbn [default].
  rewrite Htype, Hfmt.
  change ("block" =? "text")%string with false.
  change ("block" =? "list")%string with false.
  change ("block" =? "block")%string with true. cbv iota. unfold id.
  destruct (block_of_content_block (block_type b) (content b) md s3)
    as (l & s' & Hblock & Htyp & Hcont).
  rewrite Hblock. cbn [JSONTemplateRenderer.is_none negb orb ret].
  exists {| doc_template_name := tpl_name template;
            doc_metadata := match tpl_metadata template with
                            | Some d => if nonempty d then d else []
                            | None => []
                            end;
            doc_content := [(dep, VDict l)] |}, s', l.
  split; [reflexivity|]. split; [reflexivity|]. now split.
Qed.

Lemma dependency_block_in_document_witness :
  exists doc s' l,
    TemplateEngine.render_template price_engine "price_page" 0%nat "json"
      price_context = (Ok doc, s') /\
    doc_content doc = [("price", VDict l)] /\
    dict_get (deref s' l) "type" = Some (VStr "price") /\
    dict_get (deref s' l) "content" = Some (VStr "Serum is priced at 699.").
Proof.
  apply (dependency_block_in_document price_engine "price_page" price_page
           price_field 0%nat "json" JSONTemplateRenderer price_context "price"
           PriceBlock_generate (VDict 1%nat)
           {| block_type := "price";
              content := VStr "Serum is priced at 699.";
              metadata := Some [("has_price", VBool true)] |});
    reflexivity.
Defined.
